(** * zed-stylelint-actions: the release lifecycle actions, embedded in Rocq

    The actions of this repository are short sequential scripts: every step
    is a call to the outside (the runner's toolkit, git, the hosting
    platform's REST API, the file system) whose answer decides the next
    step.  The embedding keeps that shape.  A script is a finite tree of
    calls ([Prog]); the outside answers every call ([Handler]); a run is the
    list of calls with their answers ([trace]) and the way the script ended
    ([outcome]).  The theorems quantify over every handler, so they hold for
    every behaviour of git and of the platform; one concrete handler
    ([World.handle]) evaluates the scripts on explicit inputs. *)

From Stdlib Require Import String Ascii List ZArith Bool Lia DecimalString.
Import ListNotations.
Open Scope string_scope.

(** ** Values exchanged with the outside *)

(** What a [throw] carries.  The [catch] blocks of the scripts only ask
    [error instanceof Error ? error.message : 'Unknown error']. *)
Inductive Exn : Type :=
| ErrorObj (message : string)
| NonError.

Definition error_message (e : Exn) : string :=
  match e with
  | ErrorObj m => m
  | NonError => "Unknown error"
  end.

(** The answer of a call that may reject. *)
Inductive Result (X : Type) : Type :=
| Ok (x : X)
| Err (e : Exn).
Arguments Ok {X} x.
Arguments Err {X} e.

(** A finished child process: exit code and what it wrote on stdout. *)
Record ExecOut : Type := mkExecOut { exitCode : Z; stdout : string }.

(** Options of the repository's [execWithLog]. *)
Record ExecOpts : Type := mkExecOpts {
  cwd : option string;
  env : option (list (string * string))
}.
Definition no_opts : ExecOpts := mkExecOpts None None.

(** A pull request as the platform lists it. *)
Record Pull : Type := mkPull {
  pull_number : Z;
  pull_html_url : string;
  pull_head_ref : string;
  pull_head_sha : string
}.

(** The record [findOpenLspUpdatePr] hands to its callers
    ([pr.number], [pr.branch], [pr.headSha]). *)
Record LspUpdatePr : Type := mkLspUpdatePr {
  number : Z;
  branch : string;
  headSha : string
}.

(** A release entry of the platform. *)
Record Release : Type := mkRelease {
  rel_id : Z;
  rel_tag_name : string;
  rel_name : string;
  rel_body : string;
  rel_html_url : string;
  rel_draft : bool;
  rel_prerelease : bool
}.

Record CreateReleaseParams : Type := mkCreateReleaseParams {
  cr_owner : string;
  cr_repo : string;
  cr_tag_name : string;
  cr_name : string;
  cr_body : string;
  cr_draft : bool;
  cr_prerelease : bool
}.

Record UpdateReleaseParams : Type := mkUpdateReleaseParams {
  ur_owner : string;
  ur_repo : string;
  ur_release_id : Z;
  ur_name : string;
  ur_body : string;
  ur_draft : bool;
  ur_prerelease : bool
}.

Record UploadParams : Type := mkUploadParams {
  up_owner : string;
  up_repo : string;
  up_release_id : Z;
  up_name : string;
  up_data : string;
  up_content_type : string
}.

(** [commit.commit.author?.name] and [commit.commit.message]. *)
Record Commit : Type := mkCommit {
  commit_author_name : option string;
  commit_message : string
}.

(** What [getLatestLspRelease] answers: [latest.version], [latest.body]. *)
Record LatestRelease : Type := mkLatestRelease {
  latest_version : string;
  latest_body : string
}.

(** The parsed manifest; the scripts read [extensionToml.version] and pass
    the whole value to [getLspVersion]. *)
Record ExtensionToml : Type := mkExtensionToml {
  toml_version : string;
  toml_lsp_required_version : string
}.

(** ** Calls

    One constructor per function of the toolkit, of Node, of the REST
    client and of the repository's helpers whose source is not part of the
    sources at hand ([shared/src/exec.js], [shared/src/toml.js],
    [getLatestLspRelease]).  The index is the type of the answer. *)
Inductive Op : Type -> Type :=
(* @actions/core *)
| GetInput (name : string) : Op string
| Info (msg : string) : Op unit
| Warning (msg : string) : Op unit
| SetOutput (name value : string) : Op unit
| SetFailed (msg : string) : Op unit
(* @actions/github *)
| GetOctokit (token : string) : Op (Result unit)
| ContextRepo : Op (Result (string * string))
| ContextSha : Op string
(* the child process behind @actions/exec *)
| Spawn (cmd : string) (args : list string) : Op ExecOut
(* shared/src/exec.js *)
| ExecWithLog (cmd : string) (args : list string) (opts : ExecOpts) : Op (Result unit)
| GetExecOutput (cmd : string) (args : list string) : Op (Result string)
(* child_process *)
| ExecSync (command : string) : Op (Result string)
(* fs/promises *)
| ReadFile (path : string) : Op (Result string)
| WriteFile (path data : string) : Op (Result unit)
| Access (path : string) : Op (Result unit)
| Rm (path : string) (recursive force : bool) : Op (Result unit)
| Mkdtemp (prefix : string) : Op (Result string)
| Stat (path : string) : Op (Result bool)
| Readdir (path : string) : Op (Result (list string))
(* @actions/io *)
| RmRF (path : string) : Op (Result unit)
| Cp (source dest : string) (recursive force : bool) : Op (Result unit)
(* os, path, crypto, String.prototype.replace with a regular expression *)
| Tmpdir : Op string
| PathJoin (a b : string) : Op string
| ProcessEnv : Op (list (string * string))
| Sha256Hex (data : string) : Op string
| RegexReplace (regex flags replacement subject : string) : Op string
(* octokit.rest *)
| ReposCreateRelease (p : CreateReleaseParams) : Op (Result Release)
| ReposUploadReleaseAsset (p : UploadParams) : Op (Result unit)
| ReposListReleases (owner repo : string) (per_page : Z) : Op (Result (list Release))
| ReposUpdateRelease (p : UpdateReleaseParams) : Op (Result Release)
| ReposGetCommit (owner repo ref : string) : Op (Result Commit)
| GitGetRef (owner repo ref : string) : Op (Result unit)
| PullsList (owner repo state : string) (head base : option string) : Op (Result (list Pull))
| PullsUpdate (owner repo : string) (pull_number : Z) (title body : string) : Op (Result unit)
| PullsCreate (owner repo title body head base : string) : Op (Result Pull)
(* shared/src/toml.js, shared/src/github.js *)
| ReadExtensionToml : Op (Result ExtensionToml)
| GetLspVersion (toml : ExtensionToml) : Op (Result string)
| GetLatestLspRelease : Op (Result LatestRelease).

(** ** Scripts *)

Inductive Prog (A : Type) : Type :=
| Ret (a : A)
| Throw (e : Exn)
| Vis (X : Type) (op : Op X) (k : X -> Prog A).
Arguments Ret {A} a.
Arguments Throw {A} e.
Arguments Vis {A X} op k.

Fixpoint bind {A B : Type} (p : Prog A) (f : A -> Prog B) : Prog B :=
  match p with
  | Ret a => f a
  | Throw e => Throw e
  | Vis op k => Vis op (fun x => bind (k x) f)
  end.

(** [try { p } catch (error) { handler error }] *)
Fixpoint try_catch {A : Type} (p : Prog A) (handler : Exn -> Prog A) : Prog A :=
  match p with
  | Ret a => Ret a
  | Throw e => handler e
  | Vis op k => Vis op (fun x => try_catch (k x) handler)
  end.

(** [try { p } finally { fin }]: [fin] runs on both exits, and an error of
    [fin] replaces the pending result. *)
Fixpoint try_finally {A : Type} (p : Prog A) (fin : Prog unit) : Prog A :=
  match p with
  | Ret a => bind fin (fun _ => Ret a)
  | Throw e => bind fin (fun _ => Throw e)
  | Vis op k => Vis op (fun x => try_finally (k x) fin)
  end.

(** A call that cannot reject. *)
Definition call {X : Type} (op : Op X) : Prog X := Vis op (fun x => Ret x).

(** An awaited call: a rejection is thrown at the caller. *)
Definition await {X : Type} (op : Op (Result X)) : Prog X :=
  Vis op (fun r => match r with Ok x => Ret x | Err e => Throw e end).

Declare Scope prog_scope.
Delimit Scope prog_scope with prog.
Notation "x <- p ;; q" := (bind p (fun x => q))
  (at level 61, p at next level, right associativity) : prog_scope.
Notation "p ;; q" := (bind p (fun _ => q))
  (at level 61, right associativity) : prog_scope.
Open Scope prog_scope.

(** ** Runs *)

Inductive Event : Type :=
| Ev (X : Type) (op : Op X) (answer : X).
Arguments Ev {X} op answer.

Inductive Outcome (A : Type) : Type :=
| Returned (a : A)
| Threw (e : Exn).
Arguments Returned {A} a.
Arguments Threw {A} e.

Definition Handler (St : Type) : Type := forall X : Type, Op X -> St -> X * St.

Record Run (St A : Type) : Type := mkRun {
  outcome : Outcome A;
  trace : list Event;
  final : St
}.
Arguments mkRun {St A} outcome trace final.
Arguments outcome {St A} r.
Arguments trace {St A} r.
Arguments final {St A} r.

Fixpoint interp {St A : Type} (h : Handler St) (p : Prog A) (s : St) : Run St A :=
  match p with
  | Ret a => mkRun (Returned a) [] s
  | Throw e => mkRun (Threw e) [] s
  | Vis op k =>
      let '(x, s') := h _ op s in
      let r := interp h (k x) s' in
      mkRun (outcome r) (Ev op x :: trace r) (final r)
  end.

(** ** JavaScript strings

    Strings are kept as their UTF-8 bytes: concatenation, equality and
    [startsWith] agree with the UTF-16 originals on well-formed text. *)

Definition nl : string := String (ascii_of_nat 10) "".

(** [Number.prototype.toString] on the integers the platform uses as ids. *)
Definition string_of_Z (z : Z) : string := NilZero.string_of_int (Z.to_int z).

(** [s.startsWith(p)] *)
Definition startsWith (s p : string) : bool := String.prefix p s.

Fixpoint string_rev_onto (s acc : string) : string :=
  match s with
  | EmptyString => acc
  | String c s' => string_rev_onto s' (String c acc)
  end.
Definition string_rev (s : string) : string := string_rev_onto s "".

Definition bytes (l : list nat) : string :=
  fold_right (fun n s => String (ascii_of_nat n) s) "" l.

(** The white space and line terminators [String.prototype.trim] removes:
    TAB, LF, VT, FF, CR, SP, then U+00A0, U+1680, U+2000..U+200A, U+2028,
    U+2029, U+202F, U+205F, U+3000 and U+FEFF in UTF-8. *)
Definition white_space : list string :=
  map bytes
    ([[9]; [10]; [11]; [12]; [13]; [32]; [194; 160]; [225; 154; 128]]
     ++ map (fun n => [226; 128; n]) [128; 129; 130; 131; 132; 133; 134; 135; 136; 137; 138]
     ++ [[226; 128; 168]; [226; 128; 169]; [226; 128; 175]; [226; 129; 159];
         [227; 128; 128]; [239; 187; 191]])%nat%list.

Fixpoint string_drop (n : nat) (s : string) : string :=
  match n, s with
  | O, _ => s
  | S n', String _ s' => string_drop n' s'
  | S _, EmptyString => EmptyString
  end.

Fixpoint drop_white (ws : list string) (fuel : nat) (s : string) : string :=
  match fuel with
  | O => s
  | S fuel' =>
      match find (fun w => String.prefix w s) ws with
      | Some w => drop_white ws fuel' (string_drop (String.length w) s)
      | None => s
      end
  end.

Definition trimStart (s : string) : string :=
  drop_white white_space (String.length s) s.
Definition trimEnd (s : string) : string :=
  string_rev (drop_white (map string_rev white_space) (String.length s) (string_rev s)).
(** [s.trim()] *)
Definition trim (s : string) : string := trimEnd (trimStart s).

Fixpoint is_substring_from (fuel : nat) (needle hay : string) : bool :=
  String.prefix needle hay
  || match fuel, hay with
     | S fuel', String _ hay' => is_substring_from fuel' needle hay'
     | _, _ => false
     end.
(** [hay.includes(needle)] *)
Definition includes (hay needle : string) : bool :=
  is_substring_from (String.length hay) needle hay.

(** ** What a trace shows *)

Definition ev_output (e : Event) : option (string * string) :=
  match e with
  | Ev (SetOutput k v) _ => Some (k, v)
  | _ => None
  end.

Definition ev_failed (e : Event) : option string :=
  match e with Ev (SetFailed m) _ => Some m | _ => None end.

Definition ev_warning (e : Event) : option string :=
  match e with Ev (Warning m) _ => Some m | _ => None end.

(** Every command line started, by [exec], [execWithLog], [getExecOutput]. *)
Definition ev_command (e : Event) : option (string * list string) :=
  match e with
  | Ev (Spawn c a) _ => Some (c, a)
  | Ev (ExecWithLog c a _) _ => Some (c, a)
  | Ev (GetExecOutput c a) _ => Some (c, a)
  | _ => None
  end.

Fixpoint filter_map {A B : Type} (f : A -> option B) (l : list A) : list B :=
  match l with
  | [] => []
  | a :: l' =>
      match f a with
      | Some b => b :: filter_map f l'
      | None => filter_map f l'
      end
  end.

(** The [setOutput] calls of a run, in order. *)
Definition outputs (t : list Event) : list (string * string) := filter_map ev_output t.
(** The [setFailed] calls of a run. *)
Definition failures (t : list Event) : list string := filter_map ev_failed t.
(** The [warning] calls of a run. *)
Definition warnings (t : list Event) : list string := filter_map ev_warning t.
(** The command lines of a run. *)
Definition commands (t : list Event) : list (string * list string) := filter_map ev_command t.

(** The argument lists of the [git] commands of a run. *)
Definition git_commands (t : list Event) : list (list string) :=
  filter_map (fun ca => if String.eqb (fst ca) "git" then Some (snd ca) else None)
             (commands t).

(** The value a step output holds when the run ends: the last one set. *)
Fixpoint lookup_last (k : string) (l : list (string * string)) : option string :=
  match l with
  | [] => None
  | (k', v) :: l' =>
      match lookup_last k l' with
      | Some v' => Some v'
      | None => if String.eqb k k' then Some v else None
      end
  end.
Definition output (k : string) (t : list Event) : option string :=
  lookup_last k (outputs t).

(** ** @actions/exec

    [exec(cmd, args, options)] resolves with the exit code of the process;
    without [ignoreReturnCode] a non-zero exit code rejects, with an error
    that names the tool and the code (the scripts only hand its message to
    [setFailed]).  The [stdout] listeners of the callers accumulate what
    the process wrote. *)
Definition exec (cmd : string) (args : list string) (ignoreReturnCode : bool)
  : Prog ExecOut :=
  out <- call (Spawn cmd args) ;;
  if ignoreReturnCode || (exitCode out =? 0)%Z
  then Ret out
  else Throw (ErrorObj ("The process '" ++ cmd ++ "' failed with exit code "
                        ++ string_of_Z (exitCode out))).


Notation "' pat <- p ;; q" := (bind p (fun x => match x with pat => q end))
  (at level 61, pat pattern, p at next level, right associativity) : prog_scope.

(** ** @actions/core

    [getInput(name, { required })]: the value of the input as the runner
    holds it, an error when a required input is empty, and otherwise the
    value trimmed ([trimWhitespace] is on unless the caller turns it off,
    and no caller does).  The test of [required] is on the value before it
    is trimmed. *)
Definition getInput (name : string) (required : bool) : Prog string :=
  val <- call (GetInput name) ;;
  if required && String.eqb val ""
  then Throw (ErrorObj ("Input required and not supplied: " ++ name))
  else Ret (trim val).

(** The double quote, for the texts that contain one. *)
Definition dq : string := String (ascii_of_nat 34) "".

(** [a || b] on strings: the empty string is the only falsy one. *)
Definition or_else (a b : string) : string :=
  if String.eqb a "" then b else a.

(** [s.split('\n')] *)
Fixpoint split_lines_onto (s : string) (cur : string) : list string :=
  match s with
  | EmptyString => [string_rev cur]
  | String c s' =>
      if Ascii.eqb c (ascii_of_nat 10)
      then string_rev cur :: split_lines_onto s' ""
      else split_lines_onto s' (String c cur)
  end.
Definition split_lines (s : string) : list string := split_lines_onto s "".

(** * publish-release/index.ts, second document: the branch pattern *)

(** [isUpdateLspBranch]: [/^update-lsp-/.test(branchName)], and [false] for
    a missing or empty name. *)
Definition isUpdateLspBranch (branchName : option string) : bool :=
  match branchName with
  | None => false
  | Some b => if String.eqb b "" then false else startsWith b "update-lsp-"
  end.

(** * shared/src/github.js *)

(** The head branch of the pull request matches [update-lsp-*]. *)
Definition is_update_pr (pr : Pull) : bool := isUpdateLspBranch (Some (pull_head_ref pr)).

(** Modelled from the spec: [findOpenLspUpdatePr] is imported from
    shared/src/github.js, which is not among the sources.  The spec has it
    locate the open in-flight pull request by the branch-name pattern
    [update-lsp-*] and answer nothing when there is none; the callers read
    [number], [branch] and [headSha] of what it returns. *)
Definition findOpenLspUpdatePr (owner repo : string) : Prog (option LspUpdatePr) :=
  prs <- await (PullsList owner repo "open" None None) ;;
  Ret (option_map
         (fun pr => mkLspUpdatePr (pull_number pr) (pull_head_ref pr) (pull_head_sha pr))
         (find is_update_pr prs)).

(** * shared/src/lsp.ts (src/unnamed/part_002): the Artifact Builder *)

Module Lsp.

Record BuildLspResult : Type := mkBuildLspResult {
  lspPath : string;
  files : list string
}.

(** [buildLsp(version, outputPath = 'lsp')] *)
Definition buildLsp (version : string) (outputPath : string) : Prog BuildLspResult :=
  let tag := version in
  call (Info ("Building LSP version " ++ version ++ " (" ++ tag ++ ")")) ;;
  tmp <- call Tmpdir ;;
  prefix <- call (PathJoin tmp "vscode-stylelint-") ;;
  tempDir <- await (Mkdtemp prefix) ;;
  call (Info ("Build directory: " ++ tempDir)) ;;
  try_finally
    (call (Info "Cloning vscode-stylelint repository...") ;;
     await (ExecWithLog "git"
              ["clone"; "--depth"; "1"; "--branch"; tag;
               "https://github.com/stylelint/vscode-stylelint.git"; tempDir]
              no_opts) ;;
     packageJsonPath <- call (PathJoin tempDir "package.json") ;;
     try_catch
       (await (Access packageJsonPath))
       (fun _ => Throw (ErrorObj ("package.json not found in cloned repository at " ++ tag))) ;;
     call (Info "Installing npm dependencies...") ;;
     processEnv <- call ProcessEnv ;;
     cache <- call (PathJoin tempDir ".npm-cache") ;;
     await (ExecWithLog "npm" ["ci"]
              (mkExecOpts (Some tempDir)
                          (Some (processEnv ++ [("npm_config_cache", cache)])%list))) ;;
     call (Info "Building language server bundle...") ;;
     await (ExecWithLog "npm" ["run"; "build-bundle"] (mkExecOpts (Some tempDir) None)) ;;
     distPath <- call (PathJoin tempDir "dist") ;;
     try_catch
       (isDirectory <- await (Stat distPath) ;;
        if negb isDirectory then Throw (ErrorObj "dist is not a directory") else Ret tt)
       (fun _ => Throw (ErrorObj ("dist directory not found after build at " ++ distPath))) ;;
     distFiles <- await (Readdir distPath) ;;
     call (Info ("Built files in dist/: " ++ String.concat ", " distFiles)) ;;
     call (Info ("Cleaning " ++ outputPath ++ "/ directory...")) ;;
     await (RmRF outputPath) ;;
     call (Info ("Copying built files to " ++ outputPath ++ "/...")) ;;
     await (Cp distPath outputPath true true) ;;
     lspFiles <- await (Readdir outputPath) ;;
     call (Info ("Files in " ++ outputPath ++ "/: " ++ String.concat ", " lspFiles)) ;;
     if (List.length lspFiles =? 0)%nat
     then Throw (ErrorObj ("No files copied to " ++ outputPath ++ "/"))
     else Ret (mkBuildLspResult outputPath lspFiles))
    (call (Info "Cleaning up build directory...") ;;
     await (RmRF tempDir)).

End Lsp.

(** * The Rebase Keeper (src/unnamed/part_001) *)

Module RebaseLspPr.

Definition conflictMsg : string :=
  "Rebase failed due to conflicts — manual intervention needed".
Definition pushMsg : string :=
  "Failed to push rebased branch - branch may have been updated".

Definition run : Prog unit :=
  try_catch
    (token <- getInput "github-token" true ;;
     await (GetOctokit token) ;;
     '(owner, repo) <- await ContextRepo ;;
     (* Configure git first (before any operations) *)
     call (Info "Configuring git...") ;;
     exec "git" ["config"; "user.name"; "github-actions[bot]"] false ;;
     exec "git" ["config"; "user.email";
                 "github-actions[bot]@users.noreply.github.com"] false ;;
     (* Fetch main branch *)
     call (Info "Fetching main branch...") ;;
     exec "git" ["fetch"; "origin"; "main"] false ;;
     (* Find open LSP update PR *)
     call (Info "Looking for open LSP update PR...") ;;
     found <- findOpenLspUpdatePr owner repo ;;
     match found with
     | None =>
         call (Info "No open LSP update PR found") ;;
         call (SetOutput "found" "false") ;;
         call (SetOutput "rebased" "false")
     | Some pr =>
         call (Info ("Found PR #" ++ string_of_Z (number pr) ++ " on branch "
                     ++ branch pr ++ " (head: " ++ headSha pr ++ ")")) ;;
         call (SetOutput "found" "true") ;;
         call (SetOutput "pr-number" (string_of_Z (number pr))) ;;
         call (SetOutput "branch" (branch pr)) ;;
         (* Check if rebase is needed by comparing merge bases *)
         call (Info "Checking if rebase is needed...") ;;
         (* Get the current HEAD of main *)
         out <- exec "git" ["rev-parse"; "origin/main"] false ;;
         let mainHead := trim (stdout out) in
         (* Get the merge base between PR branch and main *)
         out <- exec "git" ["merge-base"; headSha pr; mainHead] false ;;
         let mergeBase := trim (stdout out) in
         if String.eqb mergeBase mainHead then
           call (Info "PR branch is already up to date with main - no rebase needed") ;;
           call (SetOutput "rebased" "false")
         else
           call (Info ("Rebase needed: PR base " ++ mergeBase ++ " != main " ++ mainHead)) ;;
           (* Perform rebase *)
           call (Info ("Rebasing branch " ++ branch pr ++ " onto main...")) ;;
           rebase <- exec "git" ["rebase"; "origin/main"; headSha pr] true ;;
           if negb (exitCode rebase =? 0)%Z then
             (* Rebase failed - abort and report *)
             call (Info "Rebase failed - aborting...") ;;
             exec "git" ["rebase"; "--abort"] true ;;
             call (Warning conflictMsg) ;;
             call (SetOutput "rebased" "false") ;;
             call (SetOutput "error" conflictMsg)
           else
             (* Push rebased branch *)
             call (Info "Pushing rebased branch...") ;;
             push <- exec "git" ["push"; "--force-with-lease"; "origin";
                                 "HEAD:" ++ branch pr] true ;;
             if negb (exitCode push =? 0)%Z then
               call (Warning pushMsg) ;;
               call (SetOutput "rebased" "false") ;;
               call (SetOutput "error" pushMsg)
             else
               call (Info ("✅ Successfully rebased PR #" ++ string_of_Z (number pr)
                           ++ " and pushed to " ++ branch pr)) ;;
               call (SetOutput "rebased" "true") ;;
               call (SetOutput "error" "")
     end)
    (fun error =>
       let errorMsg := error_message error in
       call (SetFailed errorMsg) ;;
       call (SetOutput "rebased" "false") ;;
       call (SetOutput "error" errorMsg)).

End RebaseLspPr.

(** * The update path (src/unnamed/part_003) *)

Module UpdateLsp.

Record UpdateCheck : Type := mkUpdateCheck {
  needed : bool;
  version : string;
  changelog : string
}.

Record ReleaseRef : Type := mkReleaseRef { id : Z; url : string }.
Record PrRef : Type := mkPrRef { pr_number : Z; pr_url : string }.

(** [checkForUpdate(octokit, owner, repo, manualVersion?)]; [None] is the
    [null] of the source.  The source interpolates what
    [findOpenLspUpdatePr] returned into the log line; the number of the
    record stands for it here. *)
Definition checkForUpdate (owner repo : string) (manualVersion : option string)
  : Prog (option UpdateCheck) :=
  (* Check for existing PR first *)
  call (Info "Checking for existing LSP update PRs...") ;;
  existingPr <- findOpenLspUpdatePr owner repo ;;
  match existingPr with
  | Some pr =>
      call (Info ("Found existing LSP update PR #" ++ string_of_Z (number pr)
                  ++ " - skipping")) ;;
      Ret None
  | None =>
      let upstream : Prog (option UpdateCheck) :=
        (* Read current version *)
        toml <- await ReadExtensionToml ;;
        currentVersion <- await (GetLspVersion toml) ;;
        call (Info ("Current LSP version: " ++ currentVersion)) ;;
        (* Get latest release *)
        call (Info "Fetching latest vscode-stylelint release...") ;;
        latest <- await GetLatestLspRelease ;;
        call (Info ("Latest LSP version: " ++ latest_version latest)) ;;
        if String.eqb (latest_version latest) currentVersion then
          call (Info "Already up to date") ;;
          Ret (Some (mkUpdateCheck false currentVersion ""))
        else
          call (Info ("Update available: " ++ currentVersion ++ " -> "
                      ++ latest_version latest)) ;;
          Ret (Some (mkUpdateCheck true (latest_version latest) (latest_body latest)))
      in
      match manualVersion with
      | Some manual =>
          if negb (String.eqb manual "") then
            call (Info ("Using manual version: " ++ manual)) ;;
            Ret (Some (mkUpdateCheck true manual ("Manual update to v" ++ manual)))
          else upstream
      | None => upstream
      end
  end.

(** The source writes three times the replacement of the first quoted
    value that follows [key], optional blanks, [=] and optional blanks at
    the start of a line (flag [m]) by the new version; the key and the
    blanks are captured and put back by [$1]. *)
Definition replaceQuoted (key : string) (flags : string) (value : string)
                         (subject : string) : Prog string :=
  call (RegexReplace ("^(" ++ key ++ "\s*=\s*)" ++ dq ++ "[^" ++ dq ++ "]*" ++ dq)
                     flags ("$1" ++ dq ++ value ++ dq) subject).

Definition updateVersionFiles (version : string) : Prog unit :=
  call (Info ("Updating version files to " ++ version ++ "...")) ;;
  (* Update extension.toml *)
  extensionToml <- await (ReadFile "extension.toml") ;;
  extensionToml <- replaceQuoted "lsp_required_version" "m" version extensionToml ;;
  extensionToml <- replaceQuoted "version" "m" version extensionToml ;;
  await (WriteFile "extension.toml" extensionToml) ;;
  call (Info "Updated extension.toml") ;;
  (* Update Cargo.toml *)
  cargoToml <- await (ReadFile "Cargo.toml") ;;
  cargoToml <- replaceQuoted "version" "m" version cargoToml ;;
  await (WriteFile "Cargo.toml" cargoToml) ;;
  call (Info "Updated Cargo.toml") ;;
  (* Update config.rs if it exists *)
  try_catch
    (await (Access "src/config.rs") ;;
     configRs <- await (ReadFile "src/config.rs") ;;
     configRs <- call (RegexReplace
                         ("const EXTENSION_VERSION: &str = " ++ dq ++ "[^" ++ dq ++ "]*" ++ dq)
                         ""
                         ("const EXTENSION_VERSION: &str = " ++ dq ++ version ++ dq)
                         configRs) ;;
     configRs <- call (RegexReplace
                         ("const LSP_VERSION: &str = " ++ dq ++ "[^" ++ dq ++ "]*" ++ dq)
                         ""
                         ("const LSP_VERSION: &str = " ++ dq ++ version ++ dq)
                         configRs) ;;
     await (WriteFile "src/config.rs" configRs) ;;
     call (Info "Updated src/config.rs"))
    (fun _ => Ret tt).

Definition commitTitle (version : string) : string :=
  "chore: update language server to v" ++ version.

Definition commitChanges (version : string) : Prog bool :=
  call (Info "Configuring git...") ;;
  exec "git" ["config"; "user.name"; "github-actions[bot]"] false ;;
  exec "git" ["config"; "user.email";
              "github-actions[bot]@users.noreply.github.com"] false ;;
  call (Info "Staging changes...") ;;
  exec "git" ["add"; "extension.toml"; "Cargo.toml"; "Cargo.lock";
              "src/config.rs"; "lsp/"] true ;;
  (* Check if there are changes *)
  diff <- exec "git" ["diff"; "--cached"; "--quiet"] true ;;
  if (exitCode diff =? 0)%Z then
    call (Info "No changes to commit") ;;
    Ret false
  else
    call (Info "Committing changes...") ;;
    exec "git" ["commit"; "-m"; commitTitle version] false ;;
    Ret true.

Definition tarballName (version : string) : string :=
  "stylelint-language-server-v" ++ version ++ ".tar.gz".
Definition sha256Name (version : string) : string :=
  "stylelint-language-server-v" ++ version ++ ".sha256".

Definition createPrerelease (owner repo version : string) : Prog ReleaseRef :=
  let tarballName := tarballName version in
  let sha256Name := sha256Name version in
  (* Create tarball *)
  call (Info ("Creating " ++ tarballName ++ "...")) ;;
  await (ExecWithLog "tar" ["-czf"; tarballName; "lsp/"] no_opts) ;;
  (* Calculate SHA256 *)
  tarData <- await (ReadFile tarballName) ;;
  sha256 <- call (Sha256Hex tarData) ;;
  await (WriteFile sha256Name (sha256 ++ "  " ++ tarballName ++ nl)) ;;
  call (Info ("SHA256: " ++ sha256)) ;;
  (* Create prerelease *)
  call (Info ("Creating prerelease v" ++ version ++ "...")) ;;
  release <- await (ReposCreateRelease
                      (mkCreateReleaseParams owner repo version ("v" ++ version)
                         ("Prerelease for LSP v" ++ version ++ nl ++ nl
                          ++ "This is a prerelease created for testing. It will be promoted to a full release when the update PR is merged.")
                         false true)) ;;
  (* Upload assets *)
  call (Info ("Uploading " ++ tarballName ++ "...")) ;;
  await (ReposUploadReleaseAsset
           (mkUploadParams owner repo (rel_id release) tarballName tarData
                           "application/gzip")) ;;
  sha256Data <- await (ReadFile sha256Name) ;;
  call (Info ("Uploading " ++ sha256Name ++ "...")) ;;
  await (ReposUploadReleaseAsset
           (mkUploadParams owner repo (rel_id release) sha256Name sha256Data
                           "text/plain")) ;;
  (* Cleanup *)
  await (ExecWithLog "rm" ["-f"; tarballName; sha256Name] no_opts) ;;
  call (Info ("✅ Prerelease ready: " ++ rel_html_url release)) ;;
  Ret (mkReleaseRef (rel_id release) (rel_html_url release)).

Definition prBody (version changelog releaseUrl : string) : string :=
  "## Update Language Server to v" ++ version ++ nl
  ++ nl
  ++ "Updates the vscode-stylelint language server to v" ++ version ++ "." ++ nl
  ++ nl
  ++ "### Changes from upstream" ++ nl
  ++ nl
  ++ changelog ++ nl
  ++ nl
  ++ "### Prerelease" ++ nl
  ++ nl
  ++ "A [prerelease](" ++ releaseUrl ++ ") has been created with the LSP assets attached." ++ nl
  ++ "You can test the extension by installing it from this prerelease." ++ nl
  ++ nl
  ++ "---" ++ nl
  ++ "*This PR was automatically created by the Update LSP workflow.*".

Definition createPullRequest (owner repo version changelog releaseUrl : string)
  : Prog PrRef :=
  let branch := "update-lsp-" ++ version in
  (* Check if branch exists *)
  branchExists <- try_catch
                    (await (GitGetRef owner repo ("heads/" ++ branch)) ;; Ret true)
                    (fun _ => Ret false) ;;
  (* Push branch *)
  (if branchExists : bool then
     call (Info ("Force pushing to existing branch " ++ branch ++ "...")) ;;
     exec "git" ["push"; "origin"; "HEAD:" ++ branch; "--force"] false
   else
     call (Info ("Creating and pushing new branch " ++ branch ++ "...")) ;;
     exec "git" ["checkout"; "-b"; branch] false ;;
     exec "git" ["push"; "origin"; branch] false) ;;
  let body := prBody version changelog releaseUrl in
  (* Check for existing PR *)
  existingPrs <- await (PullsList owner repo "open"
                          (Some (owner ++ ":" ++ branch)) (Some "main")) ;;
  match existingPrs with
  | pr :: _ =>
      call (Info ("Updating existing PR #" ++ string_of_Z (pull_number pr) ++ "...")) ;;
      await (PullsUpdate owner repo (pull_number pr) (commitTitle version) body) ;;
      Ret (mkPrRef (pull_number pr) (pull_html_url pr))
  | [] =>
      (* Create new PR *)
      call (Info "Creating pull request...") ;;
      pr <- await (PullsCreate owner repo (commitTitle version) body branch "main") ;;
      call (Info ("✅ Created PR #" ++ string_of_Z (pull_number pr) ++ ": "
                  ++ pull_html_url pr)) ;;
      Ret (mkPrRef (pull_number pr) (pull_html_url pr))
  end.

Definition run : Prog unit :=
  try_catch
    (token <- getInput "github-token" true ;;
     manual <- getInput "version" false ;;
     let manualVersion := if String.eqb manual "" then None else Some manual in
     await (GetOctokit token) ;;
     '(owner, repo) <- await ContextRepo ;;
     (* Check if update is needed *)
     check <- checkForUpdate owner repo manualVersion ;;
     match check with
     | None =>
         (* Existing PR found *)
         call (SetOutput "updated" "false")
     | Some check =>
         if negb (needed check) then
           call (Info "No update needed") ;;
           call (SetOutput "updated" "false") ;;
           call (SetOutput "version" (version check))
         else
           let version := version check in
           call (Info ("Updating to v" ++ version ++ "...")) ;;
           (* Build LSP *)
           Lsp.buildLsp version "lsp" ;;
           (* Update version files *)
           updateVersionFiles version ;;
           (* Commit changes *)
           commitChanges version ;;
           (* Create prerelease *)
           release <- createPrerelease owner repo version ;;
           (* Create PR *)
           pr <- createPullRequest owner repo version (changelog check) (url release) ;;
           call (SetOutput "updated" "true") ;;
           call (SetOutput "version" version) ;;
           call (SetOutput "pr-number" (string_of_Z (pr_number pr))) ;;
           call (SetOutput "pr-url" (pr_url pr)) ;;
           call (SetOutput "release-url" (url release)) ;;
           call (Info ("✅ Update complete: PR #" ++ string_of_Z (pr_number pr)))
     end)
    (fun error => call (SetFailed (error_message error))).

End UpdateLsp.

(** * build-lsp/index.ts: the Change Committer of the build action *)

Module BuildLsp.

Definition commitTitle (version : string) : string :=
  "chore: update language server to v" ++ version.

Definition run : Prog unit :=
  try_catch
    (version <- getInput "version" true ;;
     gitUserName <- getInput "git-user-name" false ;;
     gitUserEmail <- getInput "git-user-email" false ;;
     built <- Lsp.buildLsp version "lsp" ;;
     let lspPath := Lsp.lspPath built in
     (* Configure git for commit *)
     call (Info "Configuring git...") ;;
     await (ExecWithLog "git" ["config"; "user.name"; gitUserName] no_opts) ;;
     await (ExecWithLog "git" ["config"; "user.email"; gitUserEmail] no_opts) ;;
     (* Stage the changes *)
     call (Info "Staging changes...") ;;
     await (ExecWithLog "git" ["add"; lspPath] no_opts) ;;
     (* Check if there are changes to commit *)
     gitStatus <- await (GetExecOutput "git" ["status"; "--porcelain"; lspPath]) ;;
     (if String.eqb gitStatus "" then
        call (Info "No changes to commit (LSP files identical)") ;;
        call (SetOutput "committed" "false")
      else
        call (Info "Committing changes...") ;;
        await (ExecWithLog "git"
                 ["commit";
                  "-m"; commitTitle version;
                  "-m"; "Update vscode-stylelint language server to v" ++ version;
                  "-m"; "Built from https://github.com/stylelint/vscode-stylelint"]
                 no_opts) ;;
        call (Info "Successfully committed LSP changes") ;;
        call (SetOutput "committed" "true")) ;;
     call (SetOutput "lsp-path" lspPath))
    (fun error => call (SetFailed (error_message error))).

End BuildLsp.

(** * publish-release/index.ts, first document: Commit Verifier and
      Release Promoter *)

Module PublishRelease.

Record Prerelease : Type := mkPrerelease { id : Z; tag : string }.
Record ReleaseRef : Type := mkReleaseRef { ref_id : Z; url : string }.
Record Verification : Type := mkVerification { isValid : bool; message : string }.

(** [r => (r.prerelease || r.draft) && r.tag_name === version] *)
Definition promotable (version : string) (r : Release) : bool :=
  (rel_prerelease r || rel_draft r) && String.eqb (rel_tag_name r) version.

Definition findPrerelease (owner repo version : string) : Prog (option Prerelease) :=
  call (Info ("Looking for prerelease with tag: " ++ version)) ;;
  releases <- await (ReposListReleases owner repo 100) ;;
  match find (promotable version) releases with
  | None =>
      call (Info ("No prerelease/draft found for " ++ version)) ;;
      Ret None
  | Some release =>
      call (Info ("Found " ++ (if rel_prerelease release then "prerelease" else "draft")
                  ++ ": " ++ rel_html_url release)) ;;
      Ret (Some (mkPrerelease (rel_id release) (rel_tag_name release)))
  end.

(** The loop of [getReleaseBody] over the lines of the changelog;
    [/^## \[?v?/.test(line)] holds exactly for the lines that start with
    [## ], the bracket and the letter being optional. *)
Fixpoint bodyLinesOf (lines : list string) (inSection : bool) (bodyLines : list string)
  : list string :=
  match lines with
  | [] => bodyLines
  | line :: rest =>
      if startsWith line "## " then
        if inSection then bodyLines else bodyLinesOf rest true bodyLines
      else if inSection then
        let bodyLines := (bodyLines ++ [line])%list in
        if (20 <=? List.length bodyLines)%nat then bodyLines
        else bodyLinesOf rest inSection bodyLines
      else bodyLinesOf rest inSection bodyLines
  end.

Definition getReleaseBody (version : string) : Prog string :=
  try_catch
    (changelog <- await (ReadFile "CHANGELOG.md") ;;
     let lines := split_lines changelog in
     let bodyLines := bodyLinesOf lines false [] in
     Ret (or_else (trim (String.concat nl bodyLines)) ("Release v" ++ version)))
    (fun _ => Ret ("Release v" ++ version)).

Definition promotePrerelease (owner repo : string) (releaseId : Z)
                             (version body : string) : Prog ReleaseRef :=
  call (Info "Promoting to full release...") ;;
  release <- await (ReposUpdateRelease
                      (mkUpdateReleaseParams owner repo releaseId ("v" ++ version)
                                             body false false)) ;;
  call (Info ("✅ Promoted release v" ++ version ++ ": " ++ rel_html_url release)) ;;
  Ret (mkReleaseRef (rel_id release) (rel_html_url release)).

Definition tarName (lspVersion : string) : string :=
  "stylelint-language-server-v" ++ lspVersion ++ ".tar.gz".
Definition shaName (lspVersion : string) : string :=
  "stylelint-language-server-v" ++ lspVersion ++ ".sha256".

Definition createReleaseFromScratch (owner repo version lspVersion body : string)
  : Prog ReleaseRef :=
  (* Build LSP *)
  Lsp.buildLsp lspVersion "lsp" ;;
  (* Create tarball *)
  let tarName := tarName lspVersion in
  call (Info ("Creating " ++ tarName ++ "...")) ;;
  await (ExecSync ("tar -czf " ++ dq ++ tarName ++ dq ++ " lsp/")) ;;
  (* Create SHA256 *)
  let shaName := shaName lspVersion in
  call (Info ("Creating " ++ shaName ++ "...")) ;;
  shaOutput <- await (ExecSync ("sha256sum " ++ dq ++ tarName ++ dq)) ;;
  await (WriteFile shaName shaOutput) ;;
  (* Create release *)
  call (Info ("Creating release v" ++ version ++ "...")) ;;
  release <- await (ReposCreateRelease
                      (mkCreateReleaseParams owner repo version ("v" ++ version)
                                             body false false)) ;;
  call (Info ("Created release: " ++ rel_html_url release)) ;;
  (* Upload assets *)
  call (Info ("Uploading " ++ tarName ++ "...")) ;;
  tarData <- await (ReadFile tarName) ;;
  await (ReposUploadReleaseAsset
           (mkUploadParams owner repo (rel_id release) tarName tarData
                           "application/gzip")) ;;
  call (Info ("Uploading " ++ shaName ++ "...")) ;;
  shaData <- await (ReadFile shaName) ;;
  await (ReposUploadReleaseAsset
           (mkUploadParams owner repo (rel_id release) shaName shaData "text/plain")) ;;
  (* Cleanup *)
  await (Rm tarName false true) ;;
  await (Rm shaName false true) ;;
  await (Rm "lsp" true true) ;;
  call (Info ("✅ Release v" ++ version ++ " complete")) ;;
  Ret (mkReleaseRef (rel_id release) (rel_html_url release)).

(** [`${author}`] for [commit.commit.author?.name]. *)
Definition show_author (author : option string) : string :=
  match author with
  | Some a => a
  | None => "undefined"
  end.

(** [author !== 'github-actions[bot]'] *)
Definition is_bot (author : option string) : bool :=
  match author with
  | Some a => String.eqb a "github-actions[bot]"
  | None => false
  end.

(** [message.split('\n')[0]] *)
Definition firstLine (message : string) : string :=
  hd "" (split_lines message).

Definition verifyLspUpdateCommit (owner repo sha : string) : Prog Verification :=
  call (Info ("Verifying commit " ++ sha ++ "...")) ;;
  commit <- await (ReposGetCommit owner repo sha) ;;
  let author := commit_author_name commit in
  let message := commit_message commit in
  call (Info ("Commit author: " ++ show_author author)) ;;
  call (Info ("Commit message: " ++ firstLine message)) ;;
  (* Check author *)
  if negb (is_bot author) then
    Ret (mkVerification false
           ("Skipping: Commit author is '" ++ show_author author
            ++ "', expected 'github-actions[bot]'"))
  (* Check message pattern *)
  else if negb (startsWith message "chore: update language server to") then
    Ret (mkVerification false
           "Skipping: Commit message doesn't match LSP update pattern")
  else
    Ret (mkVerification true "Commit verified as LSP update").

Definition run : Prog unit :=
  try_catch
    (token <- getInput "github-token" true ;;
     await (GetOctokit token) ;;
     '(owner, repo) <- await ContextRepo ;;
     (* Get the commit SHA from context *)
     sha <- call ContextSha ;;
     (* Verify this is an LSP update commit *)
     verification <- verifyLspUpdateCommit owner repo sha ;;
     if negb (isValid verification) then
       call (Info (message verification)) ;;
       call (SetOutput "skipped" "true") ;;
       call (SetOutput "reason" (message verification))
     else
       call (Info (message verification)) ;;
       (* Read versions from extension.toml *)
       extensionToml <- await ReadExtensionToml ;;
       let version := toml_version extensionToml in
       lspVersion <- await (GetLspVersion extensionToml) ;;
       call (Info ("Extension version: " ++ version)) ;;
       call (Info ("LSP version: " ++ lspVersion)) ;;
       (* Check for existing prerelease *)
       prerelease <- findPrerelease owner repo version ;;
       match prerelease with
       | None =>
           call (Info ("No prerelease found for v" ++ version ++ ". Skipping promotion.")) ;;
           call (SetOutput "skipped" "true") ;;
           call (SetOutput "reason" "No prerelease found for this version")
       | Some prerelease =>
           (* Get release body from CHANGELOG.md *)
           body <- getReleaseBody version ;;
           (* Promote the prerelease *)
           result <- promotePrerelease owner repo (id prerelease) version body ;;
           call (SetOutput "skipped" "false") ;;
           call (SetOutput "promoted" "true") ;;
           call (SetOutput "release-id" (string_of_Z (ref_id result))) ;;
           call (SetOutput "release-url" (url result))
       end)
    (fun error => call (SetFailed (error_message error))).

End PublishRelease.

(** * src/unnamed/part_000: the publish action without the Commit Verifier

    Its [findPrerelease], [getReleaseBody], [promotePrerelease] and
    [createReleaseFromScratch] are, line for line, those of
    publish-release/index.ts; only [run] differs. *)

Module PublishFromScratch.

Import PublishRelease.

Definition run : Prog unit :=
  try_catch
    (token <- getInput "github-token" true ;;
     await (GetOctokit token) ;;
     '(owner, repo) <- await ContextRepo ;;
     (* Read versions from extension.toml *)
     extensionToml <- await ReadExtensionToml ;;
     let version := toml_version extensionToml in
     lspVersion <- await (GetLspVersion extensionToml) ;;
     call (Info ("Extension version: " ++ version)) ;;
     call (Info ("LSP version: " ++ lspVersion)) ;;
     (* Get release body from CHANGELOG.md *)
     body <- getReleaseBody version ;;
     (* Check for existing prerelease *)
     prerelease <- findPrerelease owner repo version ;;
     '(result, promoted) <-
        match prerelease with
        | Some prerelease =>
            result <- promotePrerelease owner repo (id prerelease) version body ;;
            Ret (result, true)
        | None =>
            result <- createReleaseFromScratch owner repo version lspVersion body ;;
            Ret (result, false)
        end ;;
     call (SetOutput "release-id" (string_of_Z (ref_id result))) ;;
     call (SetOutput "release-url" (url result)) ;;
     call (SetOutput "promoted" (if promoted : bool then "true" else "false")))
    (fun error => call (SetFailed (error_message error))).

End PublishFromScratch.

(** * A runner, a workspace and a platform to evaluate the scripts on

    The state below is what the scripts can reach: the inputs of the
    action, the files of the workspace, the pull requests, releases and
    commits the platform holds, and how each command line ends.  It is one
    admissible outside among all those the theorems cover. *)

Module World.

Record t : Type := mk {
  inputs : list (string * string);
  repository : string * string;
  sha : string;
  (** the regular files of the workspace, by path, and their contents *)
  files : list (string * string);
  (** what [npm run build-bundle] leaves in [dist/] *)
  bundle : list (string * string);
  (** exit code and output of a command line *)
  proc : string -> list string -> ExecOut;
  (** open pull requests, release entries, uploaded assets, branches *)
  pulls : list Pull;
  releases : list Release;
  assets : list (Z * string);
  branches : list string;
  commits : list (string * Commit);
  next_id : Z;
  (** the platform refuses a second release on a tag *)
  unique_tags : bool;
  (** the asset names whose upload the platform rejects *)
  rejected_uploads : list string;
  manifest : ExtensionToml;
  upstream : Result LatestRelease;
  (** the tip of [main] on the remote, and [refs/remotes/origin/main] in
      the clone of the runner *)
  trunk : string;
  tracking : string
}.

Definition set_files (w : t) (fs : list (string * string)) : t :=
  mk (inputs w) (repository w) (sha w) fs (bundle w) (proc w) (pulls w)
     (releases w) (assets w) (branches w) (commits w) (next_id w)
     (unique_tags w) (rejected_uploads w) (manifest w) (upstream w) (trunk w) (tracking w).

Definition set_releases (w : t) (rs : list Release) (n : Z) : t :=
  mk (inputs w) (repository w) (sha w) (files w) (bundle w) (proc w) (pulls w)
     rs (assets w) (branches w) (commits w) n
     (unique_tags w) (rejected_uploads w) (manifest w) (upstream w) (trunk w) (tracking w).

Definition set_assets (w : t) (a : list (Z * string)) : t :=
  mk (inputs w) (repository w) (sha w) (files w) (bundle w) (proc w) (pulls w)
     (releases w) a (branches w) (commits w) (next_id w)
     (unique_tags w) (rejected_uploads w) (manifest w) (upstream w) (trunk w) (tracking w).

Definition set_pulls (w : t) (ps : list Pull) (n : Z) : t :=
  mk (inputs w) (repository w) (sha w) (files w) (bundle w) (proc w) ps
     (releases w) (assets w) (branches w) (commits w) n
     (unique_tags w) (rejected_uploads w) (manifest w) (upstream w) (trunk w) (tracking w).

Definition set_tracking (w : t) (tip : string) : t :=
  mk (inputs w) (repository w) (sha w) (files w) (bundle w) (proc w) (pulls w)
     (releases w) (assets w) (branches w) (commits w) (next_id w)
     (unique_tags w) (rejected_uploads w) (manifest w) (upstream w) (trunk w) tip.

Fixpoint assoc {V : Type} (k : string) (l : list (string * V)) : option V :=
  match l with
  | [] => None
  | (k', v) :: l' => if String.eqb k k' then Some v else assoc k l'
  end.

Definition remove_key {V : Type} (k : string) (l : list (string * V)) : list (string * V) :=
  filter (fun kv => negb (String.eqb k (fst kv))) l.

Definition put {V : Type} (k : string) (v : V) (l : list (string * V)) : list (string * V) :=
  (k, v) :: remove_key k l.

Definition mem (k : string) (l : list string) : bool :=
  existsb (String.eqb k) l.

Fixpoint list_eqb (a b : list string) : bool :=
  match a, b with
  | [], [] => true
  | x :: a', y :: b' => String.eqb x y && list_eqb a' b'
  | _, _ => false
  end.

(** The files below directory [d], with their paths relative to [d]. *)
Definition below (d : string) (fs : list (string * string)) : list (string * string) :=
  filter_map
    (fun kv => if String.prefix (d ++ "/") (fst kv)
               then Some (string_drop (String.length d + 1) (fst kv), snd kv)
               else None)
    fs.

Definition is_dir (d : string) (fs : list (string * string)) : bool :=
  match below d fs with [] => false | _ :: _ => true end.

(** Without [d] and everything below it. *)
Definition without (d : string) (fs : list (string * string)) : list (string * string) :=
  filter (fun kv => negb (String.eqb d (fst kv) || String.prefix (d ++ "/") (fst kv))) fs.

Definition place (d : string) (entries fs : list (string * string)) : list (string * string) :=
  fold_right (fun kv acc => put (d ++ "/" ++ fst kv) (snd kv) acc) fs entries.

Fixpoint until_quote (s : string) : string :=
  match s with
  | EmptyString => EmptyString
  | String c s' => if Ascii.eqb c (ascii_of_nat 34) then EmptyString
                   else String c (until_quote s')
  end.

Definition enoent (path : string) : Exn :=
  ErrorObj ("ENOENT: no such file or directory, open '" ++ path ++ "'").

Definition failed (cmd : string) (code : Z) : Exn :=
  ErrorObj ("Command failed: " ++ cmd ++ " (exit code " ++ string_of_Z code ++ ")").

Definition release_url (w : t) (tag : string) : string :=
  "https://github.com/" ++ fst (repository w) ++ "/" ++ snd (repository w)
  ++ "/releases/tag/" ++ tag.

(** The effect of a command line of [execWithLog] on the workspace. *)
Definition run_command (w : t) (cmd : string) (args : list string) (opts : ExecOpts) : t :=
  match args with
  | [a; b; c] =>
      if String.eqb cmd "tar" && String.eqb a "-czf"
      then set_files w (put b ("archive of " ++ c) (files w))
      else if String.eqb cmd "rm" && String.eqb a "-f"
      then set_files w (remove_key c (remove_key b (files w)))
      else w
  | [a; b] =>
      if String.eqb cmd "npm" && String.eqb a "run" && String.eqb b "build-bundle"
      then match cwd opts with
           | Some d => set_files w (place (d ++ "/dist") (bundle w) (files w))
           | None => w
           end
      else w
  | [a; _; _; _; _; _; dir] =>
      if String.eqb cmd "git" && String.eqb a "clone"
      then set_files w (put (dir ++ "/package.json") "{}" (files w))
      else w
  | _ => w
  end.

Definition handle : Handler t :=
  fun X op w =>
    match op in Op X return X * t with
    | GetInput name => (match assoc name (inputs w) with Some v => v | None => "" end, w)
    | Info _ => (tt, w)
    | Warning _ => (tt, w)
    | SetOutput _ _ => (tt, w)
    | SetFailed _ => (tt, w)
    | GetOctokit _ => (Ok tt, w)
    | ContextRepo => (Ok (repository w), w)
    | ContextSha => (sha w, w)
    | Spawn cmd args =>
        let out := proc w cmd args in
        if negb (String.eqb cmd "git" && (exitCode out =? 0)%Z) then (out, w)
        else if list_eqb args ["fetch"; "origin"; "main"]
        then (out, set_tracking w (trunk w))
        else if list_eqb args ["rev-parse"; "origin/main"]
        then (mkExecOut 0 (tracking w ++ nl), w)
        else (out, w)
    | ExecWithLog cmd args opts =>
        let out := proc w cmd args in
        if (exitCode out =? 0)%Z
        then (Ok tt, run_command w cmd args opts)
        else (Err (failed cmd (exitCode out)), w)
    | GetExecOutput cmd args =>
        let out := proc w cmd args in
        if (exitCode out =? 0)%Z then (Ok (stdout out), w)
        else (Err (failed cmd (exitCode out)), w)
    | ExecSync command =>
        let out := proc w command [] in
        if negb (exitCode out =? 0)%Z then (Err (failed command (exitCode out)), w)
        else if String.prefix ("tar -czf " ++ dq) command
        then (Ok (stdout out),
              set_files w (put (until_quote (string_drop 10 command)) "archive of lsp/"
                               (files w)))
        else (Ok (stdout out), w)
    | ReadFile path =>
        (match assoc path (files w) with Some c => Ok c | None => Err (enoent path) end, w)
    | WriteFile path data => (Ok tt, set_files w (put path data (files w)))
    | Access path =>
        (if mem path (map fst (files w)) || is_dir path (files w)
         then Ok tt else Err (enoent path), w)
    | Rm path recursive force =>
        if mem path (map fst (files w))
        then (Ok tt, set_files w (remove_key path (files w)))
        else if is_dir path (files w)
        then if recursive then (Ok tt, set_files w (without path (files w)))
             else (Err (ErrorObj ("Path is a directory: rm returned EISDIR on " ++ path)), w)
        else (if force then Ok tt else Err (enoent path), w)
    | Mkdtemp prefix => (Ok (prefix ++ "Ab12Cd"), w)
    | Stat path =>
        (if is_dir path (files w) then Ok true
         else if mem path (map fst (files w)) then Ok false
         else Err (enoent path), w)
    | Readdir path =>
        (if is_dir path (files w) then Ok (map fst (below path (files w)))
         else Err (enoent path), w)
    | RmRF path => (Ok tt, set_files w (without path (files w)))
    | Cp source dest _ _ =>
        (Ok tt, set_files w (place dest (below source (files w)) (files w)))
    | Tmpdir => ("/tmp", w)
    | PathJoin a b => (a ++ "/" ++ b, w)
    | ProcessEnv => ([], w)
    | Sha256Hex data => ("sha256(" ++ data ++ ")", w)
    | RegexReplace _ _ _ subject => (subject, w)
    | ReposCreateRelease p =>
        if unique_tags w
           && existsb (fun r => String.eqb (rel_tag_name r) (cr_tag_name p)) (releases w)
        then (Err (ErrorObj "Validation Failed: tag_name already_exists"), w)
        else
          let r := mkRelease (next_id w) (cr_tag_name p) (cr_name p) (cr_body p)
                             (release_url w (cr_tag_name p))
                             (cr_draft p) (cr_prerelease p) in
          (Ok r, set_releases w (releases w ++ [r])%list (next_id w + 1)%Z)
    | ReposUploadReleaseAsset p =>
        if mem (up_name p) (rejected_uploads w)
        then (Err (ErrorObj ("Upload of " ++ up_name p ++ " failed")), w)
        else (Ok tt, set_assets w (assets w ++ [(up_release_id p, up_name p)])%list)
    | ReposListReleases _ _ per_page =>
        (Ok (firstn (Z.to_nat per_page) (releases w)), w)
    | ReposUpdateRelease p =>
        match find (fun r => (rel_id r =? ur_release_id p)%Z) (releases w) with
        | Some old =>
            let r := mkRelease (rel_id old) (rel_tag_name old) (ur_name p) (ur_body p)
                               (rel_html_url old) (ur_draft p) (ur_prerelease p) in
            (Ok r,
             set_releases w
               (map (fun x => if (rel_id x =? ur_release_id p)%Z then r else x) (releases w))
               (next_id w))
        | None => (Err (ErrorObj "Not Found"), w)
        end
    | ReposGetCommit _ _ ref =>
        (match assoc ref (commits w) with
         | Some c => Ok c
         | None => Err (ErrorObj "No commit found for SHA")
         end, w)
    | GitGetRef _ _ ref =>
        (if existsb (fun b => String.eqb ref ("heads/" ++ b)) (branches w)
         then Ok tt else Err (ErrorObj "Not Found"), w)
    | PullsList owner _ _ head _ =>
        (Ok (match head with
             | Some hd => filter (fun pr => String.eqb hd (owner ++ ":" ++ pull_head_ref pr))
                                 (pulls w)
             | None => pulls w
             end), w)
    | PullsUpdate _ _ _ _ _ => (Ok tt, w)
    | PullsCreate owner repo _ _ head _ =>
        let pr := mkPull (next_id w)
                         ("https://github.com/" ++ owner ++ "/" ++ repo ++ "/pull/"
                          ++ string_of_Z (next_id w))
                         head "0000000" in
        (Ok pr, set_pulls w (pulls w ++ [pr])%list (next_id w + 1)%Z)
    | ReadExtensionToml => (Ok (manifest w), w)
    | GetLspVersion toml => (Ok (toml_lsp_required_version toml), w)
    | GetLatestLspRelease => (upstream w, w)
    end.

(** A command line that ends well and prints nothing. *)
Definition quiet : string -> list string -> ExecOut :=
  fun _ _ => mkExecOut 0 "".

End World.

(** ** What is assumed of the outside, and what holds of every run

    An assumption on the outside is a test on the answers ([Answers]); a run
    meets it when every answer of its trace passes ([every]).  [wp C p Q]:
    whatever the outside answers within [C], the run of [p] ends with a
    trace and an outcome that satisfy [Q]. *)
Definition Answers : Type := forall X : Type, Op X -> X -> bool.

Definition any_answer : Answers := fun _ _ _ => true.
Definition both (C D : Answers) : Answers := fun X op x => C X op x && D X op x.

Definition obeys (C : Answers) (e : Event) : bool :=
  match e with Ev op x => C _ op x end.
Definition every (C : Answers) (t : list Event) : bool := forallb (obeys C) t.

Fixpoint wp {A : Type} (C : Answers) (p : Prog A)
         (Q : list Event -> Outcome A -> Prop) : Prop :=
  match p with
  | Ret a => Q [] (Returned a)
  | Throw e => Q [] (Threw e)
  | Vis op k => forall x, C _ op x = true -> wp C (k x) (fun t o => Q (Ev op x :: t) o)
  end.

(** ** Observations on traces *)

(** The [git] processes of a run with their results. *)
Definition ev_git (e : Event) : option (list string * ExecOut) :=
  match e with
  | Ev op answer =>
      match op in Op X return X -> option (list string * ExecOut) with
      | Spawn c a => fun out => if String.eqb c "git" then Some (a, out) else None
      | _ => fun _ => None
      end answer
  end.
Definition git_runs (t : list Event) : list (list string * ExecOut) :=
  filter_map ev_git t.

Definition subcommand (name : string) (args : list string) : bool :=
  match args with
  | a :: _ => String.eqb a name
  | [] => false
  end.

Definition is_replay (args : list string) : bool :=
  match args with
  | [a; b; _] => String.eqb a "rebase" && String.eqb b "origin/main"
  | _ => false
  end.
Definition is_abort (args : list string) : bool :=
  match args with
  | [a; b] => String.eqb a "rebase" && String.eqb b "--abort"
  | _ => false
  end.

(** The replay of the branch onto the trunk ended with a non-zero code. *)
Definition replay_failed (t : list Event) : bool :=
  existsb (fun r => is_replay (fst r) && negb (exitCode (snd r) =? 0)%Z) (git_runs t).

(** The fast divergence check found the trunk tip as the common ancestor:
    [git merge-base <head> <mainHead>] printed [mainHead]. *)
Definition trunk_contained (t : list Event) : bool :=
  existsb (fun r => match fst r with
                    | [a; _; mainHead] =>
                        String.eqb a "merge-base"
                        && (exitCode (snd r) =? 0)%Z
                        && String.eqb (trim (stdout (snd r))) mainHead
                    | _ => false
                    end)
          (git_runs t).

(** The git commands that write to the repository: all but the queries
    [rev-parse], [merge-base], [diff] and [status].  [config key value]
    writes the configuration, [fetch] the objects and the remote-tracking
    ref of the fetched branch, [rebase], [checkout], [add] and [commit] the
    index, the work tree, HEAD and the branch, [push] the remote branch. *)
Definition git_mutating (args : list string) : bool :=
  negb (subcommand "rev-parse" args || subcommand "merge-base" args
        || subcommand "diff" args || subcommand "status" args).

Definition ev_info (e : Event) : option string :=
  match e with Ev (Info m) _ => Some m | _ => None end.
(** The [info] lines of a run. *)
Definition infos (t : list Event) : list string := filter_map ev_info t.

(** The requests to create a release, with the answers of the platform. *)
Definition ev_creation (e : Event) : option (CreateReleaseParams * Result Release) :=
  match e with
  | Ev op answer =>
      match op in Op X return X -> option (CreateReleaseParams * Result Release) with
      | ReposCreateRelease p => fun r => Some (p, r)
      | _ => fun _ => None
      end answer
  end.
Definition creations (t : list Event) : list (CreateReleaseParams * Result Release) :=
  filter_map ev_creation t.

(** The uploads the platform accepted, and whether it rejected one. *)
Definition ev_upload (e : Event) : option (string * bool) :=
  match e with
  | Ev op answer =>
      match op in Op X return X -> option (string * bool) with
      | ReposUploadReleaseAsset p =>
          fun r => Some (up_name p, match r with Ok _ => true | Err _ => false end)
      | _ => fun _ => None
      end answer
  end.
Definition uploads (t : list Event) : list (string * bool) := filter_map ev_upload t.
Definition accepted_uploads (t : list Event) : nat :=
  List.length (filter snd (uploads t)).
Definition upload_rejected (t : list Event) : bool :=
  existsb (fun u => negb (snd u)) (uploads t).

(** The lookups of the release list. *)
Definition is_release_listing (e : Event) : bool :=
  match e with Ev (ReposListReleases _ _ _) _ => true | _ => false end.
Definition release_listings (t : list Event) : nat :=
  List.length (filter is_release_listing t).

(** The calls that change a release, an asset or a pull request. *)
Definition is_platform_write (e : Event) : bool :=
  match e with
  | Ev (ReposCreateRelease _) _ => true
  | Ev (ReposUploadReleaseAsset _) _ => true
  | Ev (ReposUpdateRelease _) _ => true
  | Ev (PullsUpdate _ _ _ _ _) _ => true
  | Ev (PullsCreate _ _ _ _ _ _) _ => true
  | _ => false
  end.
Definition platform_writes (t : list Event) : nat :=
  List.length (filter is_platform_write t).

(** The reads of the declared version and of the upstream release. *)
Definition is_version_lookup (e : Event) : bool :=
  match e with
  | Ev ReadExtensionToml _ => true
  | Ev (GetLspVersion _) _ => true
  | Ev GetLatestLspRelease _ => true
  | _ => false
  end.
Definition version_lookups (t : list Event) : nat :=
  List.length (filter is_version_lookup t).
Definition is_upstream_query (e : Event) : bool :=
  match e with Ev GetLatestLspRelease _ => true | _ => false end.
Definition upstream_queries (t : list Event) : nat :=
  List.length (filter is_upstream_query t).

(** The deletions of local files: [rm] command lines and [fs.rm] calls. *)
Definition ev_removal (e : Event) : option (list string) :=
  match e with
  | Ev (ExecWithLog c a _) _ => if String.eqb c "rm" then Some a else None
  | Ev (Rm path _ _) _ => Some [path]
  | _ => None
  end.
Definition removals (t : list Event) : list (list string) := filter_map ev_removal t.

(** The [git commit] command lines of a run. *)
Definition commits (t : list Event) : list (list string) :=
  filter (subcommand "commit") (git_commands t).

(** What [git status --porcelain <path>] printed. *)
Definition ev_status (e : Event) : option string :=
  match e with
  | Ev op answer =>
      match op in Op X return X -> option string with
      | GetExecOutput c a =>
          fun r => match r with
                   | Ok out => if String.eqb c "git" && subcommand "status" a
                               then Some out else None
                   | Err _ => None
                   end
      | _ => fun _ => None
      end answer
  end.
Definition staged_status (t : list Event) : option string :=
  hd_error (filter_map ev_status t).

(** The exit code of [git diff --cached --quiet]. *)
Definition staged_diff (t : list Event) : option Z :=
  hd_error (filter_map (fun r => if subcommand "diff" (fst r)
                                 then Some (exitCode (snd r)) else None)
                       (git_runs t)).

(** The exit codes of the [git commit] processes. *)
Definition commit_codes (t : list Event) : list Z :=
  filter_map (fun r => if subcommand "commit" (fst r)
                       then Some (exitCode (snd r)) else None)
             (git_runs t).

(** The value of an input, as the run read it. *)
Definition ev_input (name : string) (e : Event) : option string :=
  match e with
  | Ev op answer =>
      match op in Op X return X -> option string with
      | GetInput n => fun v => if String.eqb n name then Some v else None
      | _ => fun _ => None
      end answer
  end.
Definition input (name : string) (t : list Event) : option string :=
  hd_error (filter_map (ev_input name) t).

(** ** Assumptions on the outside *)

Definition accepted {X : Type} (r : Result X) : bool :=
  match r with Ok _ => true | Err _ => false end.

(** The action is launched: the token is supplied, the client and the
    repository of the context are there. *)
Definition launched : Answers :=
  fun X op =>
    match op in Op X return X -> bool with
    | GetInput name => fun v => negb (String.eqb name "github-token") || negb (String.eqb v "")
    | GetOctokit _ => fun r => accepted r
    | ContextRepo => fun r => accepted r
    | _ => fun _ => true
    end.

(** The platform lists an open pull request on a branch [update-lsp-*]. *)
Definition in_flight_pr : Answers :=
  fun X op =>
    match op in Op X return X -> bool with
    | PullsList _ _ _ None _ =>
        fun r => match r with
                 | Ok prs => match find is_update_pr prs with
                             | Some _ => true
                             | None => false
                             end
                 | Err _ => false
                 end
    | _ => fun _ => true
    end.

(** The platform lists no open pull request on a branch [update-lsp-*]. *)
Definition no_in_flight_pr : Answers :=
  fun X op =>
    match op in Op X return X -> bool with
    | PullsList _ _ _ None _ =>
        fun r => match r with
                 | Ok prs => match find is_update_pr prs with
                             | Some _ => false
                             | None => true
                             end
                 | Err _ => false
                 end
    | _ => fun _ => true
    end.

(** The manifest is read, and declares [current] as the version of the
    language server. *)
Definition declares (current : string) : Answers :=
  fun X op =>
    match op in Op X return X -> bool with
    | ReadExtensionToml => fun r => accepted r
    | GetLspVersion _ =>
        fun r => match r with Ok v => String.eqb v current | Err _ => false end
    | _ => fun _ => true
    end.

(** The manifest is read, with [version] as the version of the extension. *)
Definition extension_at (version : string) : Answers :=
  fun X op =>
    match op in Op X return X -> bool with
    | ReadExtensionToml =>
        fun r => match r with
                 | Ok toml => String.eqb (toml_version toml) version
                 | Err _ => false
                 end
    | GetLspVersion _ => fun r => accepted r
    | _ => fun _ => true
    end.

(** Upstream's latest release is [version], with [body] as its notes. *)
Definition upstream_offers (version body : string) : Answers :=
  fun X op =>
    match op in Op X return X -> bool with
    | GetLatestLspRelease =>
        fun r => match r with
                 | Ok l => String.eqb (latest_version l) version
                           && String.eqb (latest_body l) body
                 | Err _ => false
                 end
    | _ => fun _ => true
    end.

(** The input [name] holds [value]. *)
Definition input_is (name value : string) : Answers :=
  fun X op =>
    match op in Op X return X -> bool with
    | GetInput n => fun v => negb (String.eqb n name) || String.eqb v value
    | _ => fun _ => true
    end.

Definition option_string_eqb (a b : option string) : bool :=
  match a, b with
  | Some x, Some y => String.eqb x y
  | None, None => true
  | _, _ => false
  end.

(** The commit of the context has this author name and this message. *)
Definition commit_is (author : option string) (message : string) : Answers :=
  fun X op =>
    match op in Op X return X -> bool with
    | ReposGetCommit _ _ _ =>
        fun r => match r with
                 | Ok c => option_string_eqb (commit_author_name c) author
                           && String.eqb (commit_message c) message
                 | Err _ => false
                 end
    | _ => fun _ => true
    end.

(** The platform lists the releases, none of them a prerelease or a draft
    with [version] as its tag. *)
Definition no_prerelease_for (version : string) : Answers :=
  fun X op =>
    match op in Op X return X -> bool with
    | ReposListReleases _ _ _ =>
        fun r => match r with
                 | Ok rs => match find (PublishRelease.promotable version) rs with
                            | Some _ => false
                            | None => true
                            end
                 | Err _ => false
                 end
    | _ => fun _ => true
    end.

(** Nothing of the outside fails: no call rejects, every process exits
    with 0, the build leaves a directory with files in it. *)
Definition succeeding : Answers :=
  fun X op =>
    match op in Op X return X -> bool with
    | GetInput _ => fun v => negb (String.eqb v "")
    | GetOctokit _ => fun r => accepted r
    | ContextRepo => fun r => accepted r
    | Spawn _ _ => fun out => (exitCode out =? 0)%Z
    | ExecWithLog _ _ _ => fun r => accepted r
    | GetExecOutput _ _ => fun r => accepted r
    | ExecSync _ => fun r => accepted r
    | ReadFile _ => fun r => accepted r
    | WriteFile _ _ => fun r => accepted r
    | Access _ => fun r => accepted r
    | Rm _ _ _ => fun r => accepted r
    | Mkdtemp _ => fun r => accepted r
    | Stat _ => fun r => match r with Ok d => d | Err _ => false end
    | Readdir _ => fun r => match r with Ok (_ :: _) => true | _ => false end
    | RmRF _ => fun r => accepted r
    | Cp _ _ _ _ => fun r => accepted r
    | ReposCreateRelease _ => fun r => accepted r
    | ReposUploadReleaseAsset _ => fun r => accepted r
    | ReposListReleases _ _ _ => fun r => accepted r
    | ReposUpdateRelease _ => fun r => accepted r
    | ReposGetCommit _ _ _ => fun r => accepted r
    | GitGetRef _ _ _ => fun r => accepted r
    | PullsList _ _ _ _ _ => fun r => accepted r
    | PullsUpdate _ _ _ _ _ => fun r => accepted r
    | PullsCreate _ _ _ _ _ _ => fun r => accepted r
    | ReadExtensionToml => fun r => accepted r
    | GetLspVersion _ => fun r => accepted r
    | GetLatestLspRelease => fun r => accepted r
    | _ => fun _ => true
    end.

(** The [git commit] of the build action for version [v]: title, then two
    more paragraphs. *)
Definition build_commit (v : string) : list string :=
  ["commit";
   "-m"; BuildLsp.commitTitle v;
   "-m"; "Update vscode-stylelint language server to v" ++ v;
   "-m"; "Built from https://github.com/stylelint/vscode-stylelint"].

(** What [createPrerelease] asks the platform to create. *)
Definition prerelease_request (owner repo version : string) : CreateReleaseParams :=
  mkCreateReleaseParams owner repo version ("v" ++ version)
    ("Prerelease for LSP v" ++ version ++ nl ++ nl
     ++ "This is a prerelease created for testing. It will be promoted to a full release when the update PR is merged.")
    false true.

(** What [createReleaseFromScratch] asks the platform to create. *)
Definition stable_request (owner repo version body : string) : CreateReleaseParams :=
  mkCreateReleaseParams owner repo version ("v" ++ version) body false false.

(** The release entries of the platform on a tag. *)
Definition entries_on (tag : string) (rs : list Release) : list Release :=
  filter (fun r => String.eqb (rel_tag_name r) tag) rs.

Definition template : string := "chore: update language server to".

(** The commit is not a version bump of the automation: another author, or
    a message that does not start with the template. *)
Definition mismatch (author : option string) (message : string) : bool :=
  negb (PublishRelease.is_bot author) || negb (startsWith message template).

(** The reason [verifyLspUpdateCommit] gives for such a commit. *)
Definition skip_reason (author : option string) : string :=
  if PublishRelease.is_bot author
  then "Skipping: Commit message doesn't match LSP update pattern"
  else "Skipping: Commit author is '" ++ PublishRelease.show_author author
       ++ "', expected 'github-actions[bot]'".

(** The command lines given to [execSync]. *)
Definition ev_shell (e : Event) : option string :=
  match e with Ev (ExecSync c) _ => Some c | _ => None end.
Definition shell_commands (t : list Event) : list string := filter_map ev_shell t.

(** ** Scenarios *)

Module Scenario.

Definition v130 : string := "1.3.0".

(** A workspace with the manifests, and a build that leaves one file. *)
Definition base : World.t :=
  World.mk
    [("github-token", "ghs_token")]
    ("florian-sanders", "zed-stylelint")
    "c0ffee1"
    [("extension.toml", "version = 1.2.0"); ("Cargo.toml", "version = 1.2.0");
     ("CHANGELOG.md", "## [1.2.0]" ++ nl ++ "- first" ++ nl ++ "## [1.1.0]" ++ nl ++ "- zero")]
    [("start-server.js", "bundle")]
    World.quiet
    [] [] [] [] []
    1%Z false []
    (mkExtensionToml "1.2.0" "1.2.0")
    (Ok (mkLatestRelease v130 "What's new in 1.3.0"))
    "bbbbbbb" "aaaaaaa".

Definition with_inputs (w : World.t) (i : list (string * string)) : World.t :=
  World.mk (i ++ World.inputs w)%list (World.repository w) (World.sha w) (World.files w)
    (World.bundle w) (World.proc w) (World.pulls w) (World.releases w) (World.assets w)
    (World.branches w) (World.commits w) (World.next_id w) (World.unique_tags w)
    (World.rejected_uploads w) (World.manifest w) (World.upstream w)
    (World.trunk w) (World.tracking w).

Definition with_proc (w : World.t) (p : string -> list string -> ExecOut) : World.t :=
  World.mk (World.inputs w) (World.repository w) (World.sha w) (World.files w)
    (World.bundle w) p (World.pulls w) (World.releases w) (World.assets w)
    (World.branches w) (World.commits w) (World.next_id w) (World.unique_tags w)
    (World.rejected_uploads w) (World.manifest w) (World.upstream w)
    (World.trunk w) (World.tracking w).

Definition with_commit (w : World.t) (c : Commit) : World.t :=
  World.mk (World.inputs w) (World.repository w) (World.sha w) (World.files w)
    (World.bundle w) (World.proc w) (World.pulls w) (World.releases w) (World.assets w)
    (World.branches w) [(World.sha w, c)] (World.next_id w) (World.unique_tags w)
    (World.rejected_uploads w) (World.manifest w) (World.upstream w)
    (World.trunk w) (World.tracking w).

Definition with_platform (w : World.t) (unique : bool) (rejected : list string) : World.t :=
  World.mk (World.inputs w) (World.repository w) (World.sha w) (World.files w)
    (World.bundle w) (World.proc w) (World.pulls w) (World.releases w) (World.assets w)
    (World.branches w) (World.commits w) (World.next_id w) unique
    rejected (World.manifest w) (World.upstream w)
    (World.trunk w) (World.tracking w).

(** The open pull request of the update to 1.3.0. *)
Definition update_pr : Pull :=
  mkPull 12 "https://github.com/florian-sanders/zed-stylelint/pull/12"
         "update-lsp-1.3.0" "feedbee".

Definition in_flight : World.t := World.set_pulls base [update_pr] 13.

(** The prerelease of 1.3.0. *)
Definition prerelease130 : Release :=
  mkRelease 7 v130 "v1.3.0" "Prerelease for LSP v1.3.0"
            "https://github.com/florian-sanders/zed-stylelint/releases/tag/1.3.0"
            false true.

Definition with_prerelease (w : World.t) : World.t := World.set_releases w [prerelease130] 8.

(** git, with the common ancestor of the branch and the trunk at
    [ancestor], and a replay that ends with [replay]. *)
Definition git (ancestor : string) (replay : Z) : string -> list string -> ExecOut :=
  fun _ args =>
    if subcommand "merge-base" args then mkExecOut 0 (ancestor ++ nl)
    else if is_replay args then mkExecOut replay ""
    else mkExecOut 0 "".

(** The trunk has moved to [bbbbbbb] since the branch left it at [aaaaaaa],
    and the replay conflicts. *)
Definition conflicting : World.t := with_proc in_flight (git "aaaaaaa" 1).
(** The branch already contains the trunk tip [bbbbbbb]; the clone of the
    runner still has [origin/main] at [aaaaaaa]. *)
Definition up_to_date : World.t := with_proc in_flight (git "bbbbbbb" 0).

Definition owner : string := "florian-sanders".
Definition repo : string := "zed-stylelint".

(** The merge commit of a version bump, and a merge by hand. *)
Definition bump : Commit :=
  mkCommit (Some "github-actions[bot]") "chore: update language server to v1.2.0".
Definition typo : Commit := mkCommit (Some "github-actions[bot]") "fix: typo".
Definition by_hand : Commit := mkCommit (Some "octocat") "fix: typo".

(** The platform rejects the upload of the checksum of 1.3.0. *)
Definition flaky : World.t :=
  with_platform base false [UpdateLsp.sha256Name v130].

(** The manual run of the update action for 1.2.0, the declared version. *)
Definition manual : World.t := with_inputs base [("version", "1.2.0")].

(** The build action for 1.3.0, with a changed and with an unchanged [lsp]. *)
Definition build : World.t :=
  with_inputs base [("version", v130); ("git-user-name", "github-actions[bot]");
                    ("git-user-email", "github-actions[bot]@users.noreply.github.com")].
Definition changed : World.t :=
  with_proc build (fun _ args => if subcommand "status" args
                                 then mkExecOut 0 ("M  lsp/start-server.js" ++ nl)
                                 else if subcommand "diff" args
                                 then mkExecOut 1 ""
                                 else mkExecOut 0 "").

End Scenario.

(** * publish-release/index.ts, second document: the promoter by event

    Its [findPrerelease] and [getReleaseBody] are those of the first
    document but for line breaks; [promotePrerelease] logs without the
    check mark.  The event and the pull request of the payload are plain
    fields of [context]; they are the arguments of [run] here. *)

Module PromotePrerelease.

(** [context.payload.pull_request]: [pr.merged] and [pr.head?.ref]. *)
Record PullRequestPayload : Type := mkPullRequestPayload {
  merged : bool;
  head_ref : option string
}.

Definition promotePrerelease (owner repo : string) (releaseId : Z)
                             (version body : string)
  : Prog PublishRelease.ReleaseRef :=
  call (Info "Promoting to full release...") ;;
  release <- await (ReposUpdateRelease
                      (mkUpdateReleaseParams owner repo releaseId ("v" ++ version)
                                             body false false)) ;;
  call (Info ("Promoted release v" ++ version ++ ": " ++ rel_html_url release)) ;;
  Ret (PublishRelease.mkReleaseRef (rel_id release) (rel_html_url release)).

(** [`${headBranch}`] for a branch name that may be missing. *)
Definition show_branch (headBranch : option string) : string :=
  match headBranch with
  | Some b => b
  | None => "undefined"
  end.

Definition run (eventName : string) (pull_request : option PullRequestPayload)
  : Prog unit :=
  try_catch
    (token <- getInput "github-token" true ;;
     await (GetOctokit token) ;;
     '(owner, repo) <- await ContextRepo ;;
     let promote : Prog unit :=
       extensionToml <- await ReadExtensionToml ;;
       let version := toml_version extensionToml in
       lspVersion <- await (GetLspVersion extensionToml) ;;
       call (Info ("Extension version: " ++ version)) ;;
       call (Info ("LSP version: " ++ lspVersion)) ;;
       prerelease <- PublishRelease.findPrerelease owner repo version ;;
       match prerelease with
       | None =>
           call (Info ("No prerelease found for v" ++ version ++ ". Skipping promotion.")) ;;
           call (SetOutput "skipped" "true") ;;
           call (SetOutput "reason" "No prerelease found for this version")
       | Some prerelease =>
           body <- PublishRelease.getReleaseBody version ;;
           result <- promotePrerelease owner repo (PublishRelease.id prerelease)
                                       version body ;;
           call (SetOutput "skipped" "false") ;;
           call (SetOutput "promoted" "true") ;;
           call (SetOutput "release-id" (string_of_Z (PublishRelease.ref_id result))) ;;
           call (SetOutput "release-url" (PublishRelease.url result))
       end
     in
     if String.eqb eventName "pull_request" then
       let notMerged :=
         call (Info "PR was not merged, skipping") ;;
         call (SetOutput "skipped" "true") ;;
         call (SetOutput "reason" "PR was not merged") in
       match pull_request with
       | None => notMerged
       | Some pr =>
           if negb (merged pr) then notMerged
           else
             let headBranch := head_ref pr in
             if negb (isUpdateLspBranch headBranch) then
               call (Info ("PR branch '" ++ show_branch headBranch
                           ++ "' is not an update-lsp-* branch, skipping")) ;;
               call (SetOutput "skipped" "true") ;;
               call (SetOutput "reason"
                       ("Not an update-lsp-* branch: " ++ show_branch headBranch))
             else
               call (Info ("PR merged from update-lsp branch: "
                           ++ show_branch headBranch)) ;;
               promote
       end
     else if String.eqb eventName "workflow_dispatch" then
       call (Info "Manual trigger - will attempt to promote any existing prerelease") ;;
       promote
     else
       call (Info ("Event '" ++ eventName ++ "' is not supported, skipping")) ;;
       call (SetOutput "skipped" "true") ;;
       call (SetOutput "reason" ("Unsupported event: " ++ eventName)))
    (fun error => call (SetFailed (error_message error))).

End PromotePrerelease.

(** ** More observations on traces *)

(** The directories removed with [rmRF], and the copies made with [cp]. *)
Definition ev_rmrf (e : Event) : option string :=
  match e with Ev (RmRF path) _ => Some path | _ => None end.
Definition rmrfs (t : list Event) : list string := filter_map ev_rmrf t.
Definition ev_copy (e : Event) : option (string * string) :=
  match e with Ev (Cp source dest _ _) _ => Some (source, dest) | _ => None end.
Definition copies (t : list Event) : list (string * string) := filter_map ev_copy t.

(** The paths written with [writeFile]. *)
Definition ev_write (e : Event) : option string :=
  match e with Ev (WriteFile path _) _ => Some path | _ => None end.
Definition writes (t : list Event) : list string := filter_map ev_write t.

(** The temporary directory [mkdtemp] made. *)
Definition ev_tempdir (e : Event) : option string :=
  match e with
  | Ev op answer =>
      match op in Op X return X -> option string with
      | Mkdtemp _ => fun r => match r with Ok d => Some d | Err _ => None end
      | _ => fun _ => None
      end answer
  end.
Definition made_tempdir (t : list Event) : option string :=
  hd_error (filter_map ev_tempdir t).

(** The last call of a run is [rmRF d]; and the error it rejected with. *)
Definition is_rmrf (d : string) (e : Event) : bool :=
  match e with Ev (RmRF path) _ => String.eqb path d | _ => false end.
Definition ends_with_rmrf (d : string) (t : list Event) : bool :=
  match rev t with
  | e :: _ => is_rmrf d e
  | [] => false
  end.
Definition ev_rmrf_error (e : Event) : option Exn :=
  match e with
  | Ev op answer =>
      match op in Op X return X -> option Exn with
      | RmRF _ => fun r => match r with Ok _ => None | Err x => Some x end
      | _ => fun _ => None
      end answer
  end.
Definition last_rmrf_error (t : list Event) : option Exn :=
  match rev t with
  | e :: _ => ev_rmrf_error e
  | [] => None
  end.

(** A command line of [execWithLog] was rejected. *)
Definition ev_exec_rejected (e : Event) : bool :=
  match e with
  | Ev op answer =>
      match op in Op X return X -> bool with
      | ExecWithLog _ _ _ => fun r => negb (accepted r)
      | _ => fun _ => false
      end answer
  end.
Definition exec_rejected (t : list Event) : bool := existsb ev_exec_rejected t.

(** What the listings of a directory answered. *)
Definition ev_listing (e : Event) : option (string * list string) :=
  match e with
  | Ev op answer =>
      match op in Op X return X -> option (string * list string) with
      | Readdir path => fun r => match r with Ok l => Some (path, l) | Err _ => None end
      | _ => fun _ => None
      end answer
  end.
Definition listings (t : list Event) : list (string * list string) :=
  filter_map ev_listing t.

(** The requests to change a release, and the releases the platform
    listed. *)
Definition ev_update (e : Event) : option UpdateReleaseParams :=
  match e with Ev (ReposUpdateRelease p) _ => Some p | _ => None end.
Definition updates (t : list Event) : list UpdateReleaseParams := filter_map ev_update t.
Definition ev_listed (e : Event) : option (list Release) :=
  match e with
  | Ev op answer =>
      match op in Op X return X -> option (list Release) with
      | ReposListReleases _ _ _ => fun r => match r with Ok l => Some l | Err _ => None end
      | _ => fun _ => None
      end answer
  end.
Definition listed_releases (t : list Event) : list Release :=
  concat (filter_map ev_listed t).

(** The pull requests asked for and the pull requests changed. *)
Definition ev_pull_creation (e : Event) : option (string * string * string) :=
  match e with Ev (PullsCreate _ _ title _ head base) _ => Some (title, head, base)
          | _ => None end.
Definition pull_creations (t : list Event) : list (string * string * string) :=
  filter_map ev_pull_creation t.
Definition ev_pull_update (e : Event) : option (Z * string) :=
  match e with Ev (PullsUpdate _ _ n title _) _ => Some (n, title) | _ => None end.
Definition pull_updates (t : list Event) : list (Z * string) :=
  filter_map ev_pull_update t.

(** Every call of the run, whatever it is. *)
Definition calls (t : list Event) : nat := List.length t.

(** ** More assumptions on the outside *)

(** The removals with [rmRF] go through. *)
Definition cleanup_ok : Answers :=
  fun X op =>
    match op in Op X return X -> bool with
    | RmRF _ => fun r => accepted r
    | _ => fun _ => true
    end.

(** The lookup of a branch ref aside, nothing of the outside fails. *)
Definition is_ref_lookup {X : Type} (op : Op X) : bool :=
  match op with GitGetRef _ _ _ => true | _ => false end.
Definition smooth : Answers :=
  fun X op x => is_ref_lookup op || succeeding X op x.

(** The platform lists a prerelease or a draft on the tag [version]. *)
Definition prerelease_for (version : string) : Answers :=
  fun X op =>
    match op in Op X return X -> bool with
    | ReposListReleases _ _ _ =>
        fun r => match r with
                 | Ok rs => match find (PublishRelease.promotable version) rs with
                            | Some _ => true
                            | None => false
                            end
                 | Err _ => false
                 end
    | _ => fun _ => true
    end.

(** ** Observations on the build and on the version files *)

(** The check of [package.json] was rejected. *)
Definition ev_access_rejected (e : Event) : bool :=
  match e with
  | Ev op answer =>
      match op in Op X return X -> bool with
      | Access _ => fun r => negb (accepted r)
      | _ => fun _ => false
      end answer
  end.
Definition access_rejected (t : list Event) : bool := existsb ev_access_rejected t.

(** [stat] of [dist] was rejected, or [dist] is not a directory. *)
Definition ev_dist_unusable (e : Event) : bool :=
  match e with
  | Ev op answer =>
      match op in Op X return X -> bool with
      | Stat _ => fun r => match r with Ok d => negb d | Err _ => true end
      | _ => fun _ => false
      end answer
  end.
Definition dist_unusable (t : list Event) : bool := existsb ev_dist_unusable t.

(** The output directory was listed after the copy, and was empty. *)
Definition empty_output (t : list Event) : bool :=
  match listings t with
  | [_; (_, [])] => true
  | _ => false
  end.

(** The paths whose [writeFile] went through. *)
Definition ev_written (e : Event) : option string :=
  match e with
  | Ev op answer =>
      match op in Op X return X -> option string with
      | WriteFile path _ => fun r => if accepted r then Some path else None
      | _ => fun _ => None
      end answer
  end.
Definition written (t : list Event) : list string := filter_map ev_written t.

(** The paths read with [readFile]. *)
Definition ev_read (e : Event) : option string :=
  match e with Ev (ReadFile path) _ => Some path | _ => None end.
Definition reads (t : list Event) : list string := filter_map ev_read t.

(** The two manifests are read and written without error. *)
Definition is_manifest (path : string) : bool :=
  String.eqb path "extension.toml" || String.eqb path "Cargo.toml".
Definition manifests_ok : Answers :=
  fun X op =>
    match op in Op X return X -> bool with
    | ReadFile path => fun r => negb (is_manifest path) || accepted r
    | WriteFile path _ => fun r => negb (is_manifest path) || accepted r
    | _ => fun _ => true
    end.

(** [src/config.rs] is not there. *)
Definition no_config_rs : Answers :=
  fun X op =>
    match op in Op X return X -> bool with
    | Access path => fun r => negb (String.eqb path "src/config.rs") || negb (accepted r)
    | _ => fun _ => true
    end.

(** ** Observations on the pull request of the update *)

(** The branch of the update to [version]. *)
Definition update_branch_of (version : string) : string := "update-lsp-" ++ version.

(** The lookups of a ref: owner, repository, ref, and whether the platform
    knew it. *)
Definition ev_ref_lookup (e : Event) : option (string * string * string * bool) :=
  match e with
  | Ev op answer =>
      match op in Op X return X -> option (string * string * string * bool) with
      | GitGetRef owner repo ref => fun r => Some (owner, repo, ref, accepted r)
      | _ => fun _ => None
      end answer
  end.
Definition ref_lookups (t : list Event) : list (string * string * string * bool) :=
  filter_map ev_ref_lookup t.

(** The [git] processes of a run with their exit codes. *)
Definition git_codes (t : list Event) : list (list string * Z) :=
  map (fun r => (fst r, exitCode (snd r))) (git_runs t).

(** A listing of pull requests by head branch. *)
Record PullQuery : Type := mkPullQuery {
  pq_owner : string;
  pq_repo : string;
  pq_state : string;
  pq_head : string;
  pq_base : option string
}.

(** The listings by head branch of a run, each with what the platform
    answered. *)
Definition ev_branch_listing (e : Event) : option (PullQuery * Result (list Pull)) :=
  match e with
  | Ev op answer =>
      match op in Op X return X -> option (PullQuery * Result (list Pull)) with
      | PullsList owner repo state (Some head) base =>
          fun r => Some (mkPullQuery owner repo state head base, r)
      | _ => fun _ => None
      end answer
  end.
Definition branch_listings (t : list Event) : list (PullQuery * Result (list Pull)) :=
  filter_map ev_branch_listing t.

(** The open pull requests from the branch of the update onto main. *)
Definition branch_query (owner repo version : string) : PullQuery :=
  mkPullQuery owner repo "open" (owner ++ ":" ++ update_branch_of version) (Some "main").

(** The pull requests the platform opened on request. *)
Definition ev_opened (e : Event) : option Pull :=
  match e with
  | Ev op answer =>
      match op in Op X return X -> option Pull with
      | PullsCreate _ _ _ _ _ _ =>
          fun r => match r with Ok pr => Some pr | Err _ => None end
      | _ => fun _ => None
      end answer
  end.
Definition opened (t : list Event) : list Pull := filter_map ev_opened t.

(** The updates of a release, each with what the platform answered. *)
Definition ev_promotion (e : Event) : option (UpdateReleaseParams * Result Release) :=
  match e with
  | Ev op answer =>
      match op in Op X return X -> option (UpdateReleaseParams * Result Release) with
      | ReposUpdateRelease p => fun r => Some (p, r)
      | _ => fun _ => None
      end answer
  end.
Definition promotions (t : list Event) : list (UpdateReleaseParams * Result Release) :=
  filter_map ev_promotion t.

(** The clone of the build: upstream at the tag [version], into [dir]. *)
Definition clone_of (version dir : string) : string * list string :=
  ("git", ["clone"; "--depth"; "1"; "--branch"; version;
           "https://github.com/stylelint/vscode-stylelint.git"; dir]).

(** ** Assumptions on the outside for the committers *)

(** The two [git config] of a committer end with 0. *)
Definition identity_set : Answers :=
  fun X op =>
    match op in Op X return X -> bool with
    | Spawn cmd args =>
        fun out => negb (String.eqb cmd "git" && subcommand "config" args)
                   || (exitCode out =? 0)%Z
    | _ => fun _ => true
    end.

(** The input [version] is supplied. *)
Definition version_supplied : Answers :=
  fun X op =>
    match op in Op X return X -> bool with
    | GetInput name => fun v => negb (String.eqb name "version") || negb (String.eqb v "")
    | _ => fun _ => true
    end.

Definition is_input {X : Type} (op : Op X) : bool :=
  match op with GetInput _ => true | _ => false end.
Definition is_commit_line {X : Type} (op : Op X) : bool :=
  match op with
  | ExecWithLog cmd args _ => String.eqb cmd "git" && subcommand "commit" args
  | _ => false
  end.

(** The build goes through and the path is staged: nothing fails before
    the commit; the inputs and the answer of [git status] are free. *)
Definition staged : Answers :=
  fun X op x => is_input op || is_commit_line op || succeeding X op x.

(** ** Observations and assumptions on the whole update *)

(** [git diff ...], the test of the staged changes. *)
Definition is_staged_diff {X : Type} (op : Op X) : bool :=
  match op with
  | Spawn cmd args => String.eqb cmd "git" && subcommand "diff" args
  | _ => false
  end.

(** Nothing of the outside fails; the branch of the update may or may not
    exist, and there may or may not be staged changes. *)
Definition unhindered : Answers :=
  fun X op x => is_ref_lookup op || is_staged_diff op || succeeding X op x.

(** A command line of the build - the clone or an [npm] command - was
    rejected. *)
Definition ev_build_rejected (e : Event) : bool :=
  match e with
  | Ev op answer =>
      match op in Op X return X -> bool with
      | ExecWithLog cmd _ _ =>
          fun r => (String.eqb cmd "git" || String.eqb cmd "npm") && negb (accepted r)
      | _ => fun _ => false
      end answer
  end.
Definition build_rejected (t : list Event) : bool := existsb ev_build_rejected t.

(** The author name given to [git config user.name]. *)
Definition configured_name (t : list Event) : option string :=
  hd_error (filter_map (fun a => match a with
                                 | [c; k; v] =>
                                     if String.eqb c "config" && String.eqb k "user.name"
                                     then Some v else None
                                 | _ => None
                                 end)
                       (git_commands t)).

(** ** Observations on the Rebase Keeper *)

(** The [git push] processes of a run, with their exit codes. *)
Definition pushes (t : list Event) : list (list string * Z) :=
  filter_map (fun r => if subcommand "push" (fst r)
                       then Some (fst r, exitCode (snd r)) else None)
             (git_runs t).

(** The open update pull request the lookup found, if the lookup went
    through. *)
Definition ev_open_update_pr (e : Event) : option (option Pull) :=
  match e with
  | Ev op answer =>
      match op in Op X return X -> option (option Pull) with
      | PullsList _ _ _ None _ =>
          fun r => match r with
                   | Ok prs => Some (find is_update_pr prs)
                   | Err _ => None
                   end
      | _ => fun _ => None
      end answer
  end.
Definition open_update_pr (t : list Event) : option (option Pull) :=
  hd_error (filter_map ev_open_update_pr t).

(** The three commands every run of the Rebase Keeper starts with. *)
Definition preamble : list (list string) :=
  [["config"; "user.name"; "github-actions[bot]"];
   ["config"; "user.email"; "github-actions[bot]@users.noreply.github.com"];
   ["fetch"; "origin"; "main"]].

(** ** The promoters *)

(** The platform accepts the update of a release. *)
Definition promotion_accepted : Answers :=
  fun X op =>
    match op in Op X return X -> bool with
    | ReposUpdateRelease _ => fun r => accepted r
    | _ => fun _ => true
    end.

(** The three entry points that promote a prerelease. *)
Inductive Promoter : Type :=
| Gated
| Ungated
| ByEvent (eventName : string) (pull_request : option PromotePrerelease.PullRequestPayload).

Definition promoter_run (p : Promoter) : Prog unit :=
  match p with
  | Gated => PublishRelease.run
  | Ungated => PublishFromScratch.run
  | ByEvent eventName pull_request => PromotePrerelease.run eventName pull_request
  end.

(** The event is one the promoter by event goes on with: a manual
    dispatch, or a merged pull request from an [update-lsp-*] branch. *)
Definition goes_on (eventName : string)
                   (pull_request : option PromotePrerelease.PullRequestPayload) : bool :=
  String.eqb eventName "workflow_dispatch"
  || (String.eqb eventName "pull_request"
      && match pull_request with
         | Some pr => PromotePrerelease.merged pr
                      && isUpdateLspBranch (PromotePrerelease.head_ref pr)
         | None => false
         end).

(** What lets a promoter go on to the promotion: a verified commit behind
    the Commit Verifier, a supported event for the promoter by event. *)
Definition passes (p : Promoter) (author : option string) (message : string) : bool :=
  match p with
  | Gated => negb (mismatch author message)
  | Ungated => true
  | ByEvent eventName pull_request => goes_on eventName pull_request
  end.

(** The reads of [CHANGELOG.md] that were rejected. *)
Definition ev_changelog_unreadable (e : Event) : bool :=
  match e with
  | Ev op answer =>
      match op in Op X return X -> bool with
      | ReadFile path => fun r => String.eqb path "CHANGELOG.md" && negb (accepted r)
      | _ => fun _ => false
      end answer
  end.
Definition changelog_unreadable (t : list Event) : bool :=
  existsb ev_changelog_unreadable t.

(** ** The actions, and more observations *)

Inductive Action : Type :=
| Update
| Rebase
| Promote (p : Promoter).

Definition action_run (a : Action) : Prog unit :=
  match a with
  | Update => UpdateLsp.run
  | Rebase => RebaseLspPr.run
  | Promote p => promoter_run p
  end.

(** The calls that only read an input or report: nothing of the
    repository, the workspace or the platform is reached. *)
Definition is_report (e : Event) : bool :=
  match e with
  | Ev (GetInput _) _ => true
  | Ev (Info _) _ => true
  | Ev (SetOutput _ _) _ => true
  | Ev (SetFailed _) _ => true
  | _ => false
  end.

(** The data hashed with SHA-256, and the digests. *)
Definition ev_hashed (e : Event) : option (string * string) :=
  match e with
  | Ev op answer =>
      match op in Op X return X -> option (string * string) with
      | Sha256Hex data => fun digest => Some (data, digest)
      | _ => fun _ => None
      end answer
  end.
Definition hashed (t : list Event) : list (string * string) := filter_map ev_hashed t.

(** The assets sent to the platform: name and data. *)
Definition ev_asset (e : Event) : option (string * string) :=
  match e with
  | Ev (ReposUploadReleaseAsset p) _ => Some (up_name p, up_data p)
  | _ => None
  end.
Definition sent_assets (t : list Event) : list (string * string) := filter_map ev_asset t.

(** The files handed to [writeFile]: path and contents. *)
Definition ev_file (e : Event) : option (string * string) :=
  match e with Ev (WriteFile path data) _ => Some (path, data) | _ => None end.
Definition file_writes (t : list Event) : list (string * string) := filter_map ev_file t.

(** The reads of a file that went through: path and contents. *)
Definition ev_file_read (e : Event) : option (string * string) :=
  match e with
  | Ev op answer =>
      match op in Op X return X -> option (string * string) with
      | ReadFile path => fun r => match r with Ok c => Some (path, c) | Err _ => None end
      | _ => fun _ => None
      end answer
  end.
Definition file_reads (t : list Event) : list (string * string) :=
  filter_map ev_file_read t.

(** [/^## \[?v?/.test(line)] *)
Definition is_heading (line : string) : bool := startsWith line "## ".

(** ** More scenarios *)

Module Cases.

Definition with_bundle (w : World.t) (b : list (string * string)) : World.t :=
  World.mk (World.inputs w) (World.repository w) (World.sha w) (World.files w)
    b (World.proc w) (World.pulls w) (World.releases w) (World.assets w)
    (World.branches w) (World.commits w) (World.next_id w) (World.unique_tags w)
    (World.rejected_uploads w) (World.manifest w) (World.upstream w)
    (World.trunk w) (World.tracking w).

Definition with_branches (w : World.t) (bs : list string) : World.t :=
  World.mk (World.inputs w) (World.repository w) (World.sha w) (World.files w)
    (World.bundle w) (World.proc w) (World.pulls w) (World.releases w) (World.assets w)
    bs (World.commits w) (World.next_id w) (World.unique_tags w)
    (World.rejected_uploads w) (World.manifest w) (World.upstream w)
    (World.trunk w) (World.tracking w).

Definition with_upstream (w : World.t) (u : Result LatestRelease) : World.t :=
  World.mk (World.inputs w) (World.repository w) (World.sha w) (World.files w)
    (World.bundle w) (World.proc w) (World.pulls w) (World.releases w) (World.assets w)
    (World.branches w) (World.commits w) (World.next_id w) (World.unique_tags w)
    (World.rejected_uploads w) (World.manifest w) u
    (World.trunk w) (World.tracking w).

Definition without_inputs (w : World.t) : World.t :=
  World.mk [] (World.repository w) (World.sha w) (World.files w)
    (World.bundle w) (World.proc w) (World.pulls w) (World.releases w) (World.assets w)
    (World.branches w) (World.commits w) (World.next_id w) (World.unique_tags w)
    (World.rejected_uploads w) (World.manifest w) (World.upstream w)
    (World.trunk w) (World.tracking w).

(** The build leaves nothing in [dist/]. *)
Definition empty_build : World.t := with_bundle Scenario.base [].

(** [npm] ends with 1. *)
Definition npm_down : World.t :=
  Scenario.with_proc (Scenario.with_inputs Scenario.base [("version", Scenario.v130)])
    (fun cmd _ => if String.eqb cmd "npm" then mkExecOut 1 "" else mkExecOut 0 "").

(** The workspace has lost its [Cargo.toml]. *)
Definition no_cargo : World.t :=
  World.set_files Scenario.base [("extension.toml", "version = 1.2.0")].

(** The branch of the update to 1.3.0 is already on the remote. *)
Definition pushed : World.t := with_branches Scenario.base ["update-lsp-1.3.0"].

(** Upstream's latest release is the declared 1.2.0. *)
Definition current : World.t :=
  with_upstream Scenario.base (Ok (mkLatestRelease "1.2.0" "What's new in 1.2.0")).

(** A manual update to 1.3.0 of a workspace that has [src/config.rs]. *)
Definition complete : World.t :=
  World.set_files (Scenario.with_inputs Scenario.base [("version", Scenario.v130)])
    (("src/config.rs", "const LSP_VERSION: &str = 1.2.0") :: World.files Scenario.base).

(** The merge commit of the bump to 1.3.0, as a squash merge titles it. *)
Definition squashed : Commit :=
  mkCommit (Some "github-actions[bot]")
           "chore: update language server to v1.3.0 (#12)".

(** The trunk has moved, the replay goes through, the push is rejected. *)
Definition raced : World.t :=
  Scenario.with_proc Scenario.in_flight
    (fun cmd args => if subcommand "push" args then mkExecOut 1 ""
                     else Scenario.git "aaaaaaa" 0 cmd args).

(** The prerelease of the declared version 1.2.0, and the merge of its
    bump. *)
Definition prerelease120 : Release :=
  mkRelease 7 "1.2.0" "v1.2.0" "Prerelease for LSP v1.2.0"
            "https://github.com/florian-sanders/zed-stylelint/releases/tag/1.2.0"
            false true.
Definition merged_bump : World.t :=
  Scenario.with_commit (World.set_releases Scenario.base [prerelease120] 8) Scenario.bump.

End Cases.

(** * Theorems *)

(** ** Soundness of the reasoning on runs, and two facts on strings *)

Lemma wp_sound {St A : Type} (h : Handler St) (C : Answers) (p : Prog A)
      (Q : list Event -> Outcome A -> Prop) (s : St) :
  wp C p Q ->
  every C (trace (interp h p s)) = true ->
  Q (trace (interp h p s)) (outcome (interp h p s)).
Proof.
  revert Q s. induction p as [a | e | X op k IH]; intros Q s Hwp Hev; cbn in *.
  - exact Hwp.
  - exact Hwp.
  - destruct (h X op s) as [x s'] eqn:E. cbn in *.
    apply andb_prop in Hev. destruct Hev as [Hx Hev].
    apply (IH x (fun t o => Q (Ev op x :: t) o)).
    + apply Hwp. exact Hx.
    + exact Hev.
Qed.

Lemma wp_sound_any {St A : Type} (h : Handler St) (p : Prog A)
      (Q : list Event -> Outcome A -> Prop) (s : St) :
  wp any_answer p Q -> Q (trace (interp h p s)) (outcome (interp h p s)).
Proof.
  intro Hwp. apply (wp_sound h any_answer); [exact Hwp |].
  generalize (trace (interp h p s)). intro t.
  induction t as [| [X op x] t IH]; [reflexivity | exact IH].
Qed.

Lemma prefix_app (a b : string) : String.prefix a (a ++ b) = true.
Proof.
  apply String.prefix_correct.
  induction a as [| c a IH]; cbn.
  - now destruct b.
  - now rewrite IH.
Qed.

Lemma includes_app (p x q : string) : includes (p ++ x ++ q) x = true.
Proof.
  unfold includes. induction p as [| c p IH]; cbn.
  - destruct (String.length (x ++ q)); cbn; now rewrite prefix_app.
  - rewrite IH. apply orb_true_r.
Qed.

(** ** The string functions on small inputs *)

Example trim_stdout : trim ("  bbbbbbb" ++ nl) = "bbbbbbb".
Proof. reflexivity. Qed.

Example split_trailing : split_lines ("a" ++ nl ++ "b" ++ nl) = ["a"; "b"; ""].
Proof. reflexivity. Qed.

Example update_branch :
  isUpdateLspBranch (Some "update-lsp-1.3.0") = true
  /\ isUpdateLspBranch (Some "feature/update-lsp-1.3.0") = false
  /\ isUpdateLspBranch (Some "") = false
  /\ isUpdateLspBranch None = false.
Proof. repeat split. Qed.

Example first_section :
  PublishRelease.bodyLinesOf
    (split_lines ("# Changelog" ++ nl ++ "## [1.2.0]" ++ nl ++ "- first" ++ nl
                  ++ "## [1.1.0]" ++ nl ++ "- zero"))
    false []
  = ["- first"].
Proof. reflexivity. Qed.

Example pr_number_shown : string_of_Z 12 = "12".
Proof. reflexivity. Qed.

Example verified_bump :
  mismatch (Some "github-actions[bot]") "chore: update language server to v1.3.0" = false
  /\ mismatch (Some "octocat") "chore: update language server to v1.3.0" = true
  /\ mismatch None "chore: update language server to v1.3.0" = true
  /\ mismatch (Some "github-actions[bot]") "fix: typo" = true.
Proof. repeat split. Qed.

(** ** Stepping through a script *)

#[local] Arguments String.append : simpl never.
#[local] Arguments string_of_Z : simpl never.
#[local] Arguments trim : simpl never.
#[local] Arguments startsWith : simpl never.
#[local] Arguments String.concat : simpl never.
#[local] Arguments is_update_pr : simpl never.
#[local] Arguments PublishRelease.promotable : simpl never.
#[local] Arguments Lsp.buildLsp : simpl never.
#[local] Arguments UpdateLsp.checkForUpdate : simpl never.
#[local] Arguments UpdateLsp.updateVersionFiles : simpl never.
#[local] Arguments UpdateLsp.commitChanges : simpl never.
#[local] Arguments UpdateLsp.createPrerelease : simpl never.
#[local] Arguments UpdateLsp.createPullRequest : simpl never.
#[local] Arguments PublishRelease.findPrerelease : simpl never.
#[local] Arguments PublishRelease.getReleaseBody : simpl never.
#[local] Arguments PublishRelease.promotePrerelease : simpl never.
#[local] Arguments PublishRelease.createReleaseFromScratch : simpl never.
#[local] Arguments PublishRelease.verifyLspUpdateCommit : simpl never.
#[local] Arguments PublishRelease.bodyLinesOf : simpl never.
#[local] Arguments split_lines : simpl never.
#[local] Arguments PublishRelease.is_bot : simpl never.
#[local] Arguments PublishRelease.show_author : simpl never.
#[local] Arguments PublishRelease.firstLine : simpl never.
#[local] Arguments or_else : simpl never.

(** A postcondition that holds of every trace holds of every run. *)
Lemma wp_any {A : Type} (C : Answers) (p : Prog A)
      (Q : list Event -> Outcome A -> Prop) :
  (forall t o, Q t o) -> wp C p Q.
Proof.
  revert Q. induction p as [a | e | X op k IH]; intros Q HQ; cbn.
  - apply HQ.
  - apply HQ.
  - intros x _. apply IH. intros t o. apply HQ.
Qed.

Create HintDb answers.
#[local] Hint Unfold any_answer both launched in_flight_pr no_in_flight_pr declares
  extension_at upstream_offers input_is commit_is no_prerelease_for succeeding
  accepted : answers.

Lemma option_string_eqb_eq (a b : option string) :
  option_string_eqb a b = true -> a = b.
Proof.
  destruct a as [x |], b as [y |]; cbn; intro H; try discriminate; [| reflexivity].
  apply String.eqb_eq in H. now subst.
Qed.

(** One step of a run: name the answer of the next call, or split on the
    test the script is stopped at. *)
Ltac tidy :=
  autounfold with answers in * |-; cbn in * |-;
  repeat match goal with
         | H : true = true |- _ => clear H
         | x : unit |- _ => destruct x
         | x : Commit |- _ => destruct x; cbn in * |-
         | x : LatestRelease |- _ => destruct x; cbn in * |-
         | H : (_ && _) = true |- _ =>
             let H1 := fresh H in apply andb_prop in H; destruct H as [H H1]
         | H : String.eqb _ _ = true |- _ => apply String.eqb_eq in H; subst
         | H : option_string_eqb _ _ = true |- _ =>
             apply option_string_eqb_eq in H; subst
         | H : match ?l with [] => false | _ :: _ => true end = true |- _ =>
             destruct l; [discriminate H | clear H]
         end;
  try discriminate.

Ltac head_redex p :=
  lazymatch p with
  | bind ?q _ => head_redex q
  | try_catch ?q _ => head_redex q
  | try_finally ?q _ => head_redex q
  | _ => p
  end.

Ltac split_on r :=
  lazymatch r with
  | match ?x with Ok _ => _ | Err _ => _ end => destruct x
  | (let (_, _) := ?x in _) => destruct x
  | context [find ?f ?l] =>
      let E := fresh "E" in destruct (find f l) eqn:E; try rewrite E in * |-
  | match (if ?b then _ else _) with Some _ => _ | None => _ end =>
      let E := fresh "E" in destruct b eqn:E; try rewrite E in * |-
  | match ?x with Some _ => _ | None => _ end =>
      let E := fresh "E" in destruct x eqn:E
  | match ?x with [] => _ | _ :: _ => _ end =>
      let E := fresh "E" in destruct x eqn:E
  | (if negb ?b then _ else _) =>
      let E := fresh "E" in destruct b eqn:E; try rewrite E in * |-
  | (if ?b then _ else _) =>
      let E := fresh "E" in destruct b eqn:E; try rewrite E in * |-
  end; tidy.

Ltac wp_step :=
  cbn;
  lazymatch goal with
  | |- forall x, _ = true -> _ =>
      let x := fresh "x" in
      let A := fresh "A" in intros x A; tidy
  | |- wp _ ?p _ => let r := head_redex p in split_on r
  end.

Ltac wp_run := repeat wp_step.

(** What is left at the end of a run: the observations, evaluated. *)
Ltac leaf :=
  cbn; intros; try discriminate;
  repeat split; try reflexivity; try (repeat eexists; reflexivity).

Section RebaseKeeper.
Context {St : Type} (h : Handler St).

(** C5.  Rebase conflict atomicity: in every run of the Rebase Keeper in
    which the replay of the branch onto the trunk ends with a non-zero
    code, the git commands of the run are the preamble, the divergence
    check, the replay and then [git rebase --abort]; no push is started;
    the run warns with the conflict reason, outputs [rebased=false] and the
    reason as [error], and ends without [setFailed]. *)
Theorem rebase_conflict_atomicity (s : St) :
  let r := interp h RebaseLspPr.run s in
  replay_failed (trace r) = true ->
  (exists head mainHead,
      git_commands (trace r)
      = [["config"; "user.name"; "github-actions[bot]"];
         ["config"; "user.email"; "github-actions[bot]@users.noreply.github.com"];
         ["fetch"; "origin"; "main"];
         ["rev-parse"; "origin/main"];
         ["merge-base"; head; mainHead];
         ["rebase"; "origin/main"; head];
         ["rebase"; "--abort"]])
  /\ existsb (subcommand "push") (git_commands (trace r)) = false
  /\ warnings (trace r) = [RebaseLspPr.conflictMsg]
  /\ failures (trace r) = []
  /\ output "rebased" (trace r) = Some "false"
  /\ output "error" (trace r) = Some RebaseLspPr.conflictMsg
  /\ outcome r = Returned tt.
Proof.
  cbv zeta.
  apply (wp_sound_any h RebaseLspPr.run (fun t o =>
    replay_failed t = true ->
    (exists head mainHead,
      git_commands t
      = [["config"; "user.name"; "github-actions[bot]"];
         ["config"; "user.email"; "github-actions[bot]@users.noreply.github.com"];
         ["fetch"; "origin"; "main"];
         ["rev-parse"; "origin/main"];
         ["merge-base"; head; mainHead];
         ["rebase"; "origin/main"; head];
         ["rebase"; "--abort"]])
    /\ existsb (subcommand "push") (git_commands t) = false
    /\ warnings t = [RebaseLspPr.conflictMsg]
    /\ failures t = []
    /\ output "rebased" t = Some "false"
    /\ output "error" t = Some RebaseLspPr.conflictMsg
    /\ o = Returned tt)).
  unfold RebaseLspPr.run, replay_failed, git_commands, warnings, failures,
    output, outputs, commands, git_runs.
  wp_run; leaf.
Qed.

(** C7, as the code has it.  Rebase no-op: in every run of the Rebase
    Keeper in which the merge base of the pull request head and the trunk
    tip is the trunk tip, the git commands of the run are the two
    [git config] writes and [git fetch origin main] of the preamble and the
    two queries of the divergence check, and nothing after them: no rebase,
    no push.  The run outputs [rebased=false], warns of nothing and ends
    without [setFailed]. *)
Theorem rebase_noop_after_check (s : St) :
  let r := interp h RebaseLspPr.run s in
  trunk_contained (trace r) = true ->
  (exists head mainHead,
      git_commands (trace r)
      = [["config"; "user.name"; "github-actions[bot]"];
         ["config"; "user.email"; "github-actions[bot]@users.noreply.github.com"];
         ["fetch"; "origin"; "main"];
         ["rev-parse"; "origin/main"];
         ["merge-base"; head; mainHead]])
  /\ filter git_mutating (git_commands (trace r))
     = [["config"; "user.name"; "github-actions[bot]"];
        ["config"; "user.email"; "github-actions[bot]@users.noreply.github.com"];
        ["fetch"; "origin"; "main"]]
  /\ existsb (subcommand "rebase") (git_commands (trace r)) = false
  /\ existsb (subcommand "push") (git_commands (trace r)) = false
  /\ output "rebased" (trace r) = Some "false"
  /\ warnings (trace r) = []
  /\ failures (trace r) = []
  /\ outcome r = Returned tt.
Proof.
  cbv zeta.
  apply (wp_sound_any h RebaseLspPr.run (fun t o =>
    trunk_contained t = true ->
    (exists head mainHead,
      git_commands t
      = [["config"; "user.name"; "github-actions[bot]"];
         ["config"; "user.email"; "github-actions[bot]@users.noreply.github.com"];
         ["fetch"; "origin"; "main"];
         ["rev-parse"; "origin/main"];
         ["merge-base"; head; mainHead]])
    /\ filter git_mutating (git_commands t)
       = [["config"; "user.name"; "github-actions[bot]"];
          ["config"; "user.email"; "github-actions[bot]@users.noreply.github.com"];
          ["fetch"; "origin"; "main"]]
    /\ existsb (subcommand "rebase") (git_commands t) = false
    /\ existsb (subcommand "push") (git_commands t) = false
    /\ output "rebased" t = Some "false"
    /\ warnings t = []
    /\ failures t = []
    /\ o = Returned tt)).
  unfold RebaseLspPr.run, trunk_contained, git_commands, warnings, failures,
    output, outputs, commands, git_runs.
  wp_run; leaf.
Qed.

End RebaseKeeper.

Section UpdatePath.
Context {St : Type} (h : Handler St).

Lemma checkForUpdate_in_flight (owner repo : string) (manualVersion : option string) :
  wp in_flight_pr (UpdateLsp.checkForUpdate owner repo manualVersion)
     (fun t o => o = Returned None /\ version_lookups t = 0%nat).
Proof.
  unfold UpdateLsp.checkForUpdate, findOpenLspUpdatePr, version_lookups.
  wp_run; leaf.
Qed.

Lemma run_in_flight :
  wp (both launched in_flight_pr) UpdateLsp.run
     (fun t o => outputs t = [("updated", "false")]
                 /\ failures t = []
                 /\ commands t = []
                 /\ platform_writes t = 0%nat
                 /\ version_lookups t = 0%nat
                 /\ o = Returned tt).
Proof.
  unfold UpdateLsp.run, UpdateLsp.checkForUpdate, findOpenLspUpdatePr, getInput,
    outputs, failures, commands, platform_writes, version_lookups.
  wp_run; leaf.
Qed.

(** C1.  Single in-flight guard: whenever the platform lists an open pull
    request on a branch [update-lsp-*], [checkForUpdate] returns the skip
    sentinel without reading the declared version or asking upstream,
    whatever the manual override is; and the launched update action then
    outputs [updated=false] and nothing else, starts no command, writes
    nothing to the platform and does not fail. *)
Theorem single_in_flight_guard (s s' : St) (owner repo : string)
        (manualVersion : option string) :
  let check := interp h (UpdateLsp.checkForUpdate owner repo manualVersion) s in
  let r := interp h UpdateLsp.run s' in
  every in_flight_pr (trace check) = true ->
  every (both launched in_flight_pr) (trace r) = true ->
  outcome check = Returned None
  /\ version_lookups (trace check) = 0%nat
  /\ outputs (trace r) = [("updated", "false")]
  /\ failures (trace r) = []
  /\ commands (trace r) = []
  /\ platform_writes (trace r) = 0%nat
  /\ version_lookups (trace r) = 0%nat
  /\ outcome r = Returned tt.
Proof.
  cbv zeta. intros Hcheck Hrun.
  pose proof (wp_sound h _ _ _ s (checkForUpdate_in_flight owner repo manualVersion)
                       Hcheck) as C.
  pose proof (wp_sound h _ _ _ s' run_in_flight Hrun) as R.
  cbv beta in C, R. tauto.
Qed.

Lemma checkForUpdate_upstream (owner repo : string) (manualVersion : option string)
      (current latest body : string) :
  (manualVersion = None \/ manualVersion = Some "") ->
  wp (both no_in_flight_pr (both (declares current) (upstream_offers latest body)))
     (UpdateLsp.checkForUpdate owner repo manualVersion)
     (fun t o =>
        o = Returned (Some (if String.eqb latest current
                            then UpdateLsp.mkUpdateCheck false current ""
                            else UpdateLsp.mkUpdateCheck true latest body))
        /\ upstream_queries t = 1%nat).
Proof.
  intros [-> | ->];
    unfold UpdateLsp.checkForUpdate, findOpenLspUpdatePr, upstream_queries;
    wp_run; leaf.
  all: try (rewrite String.eqb_refl; reflexivity).
Qed.

(** C8.  Version Oracle decision: with no open in-flight pull request and
    no manual override, [checkForUpdate] asks upstream once and returns a
    result whose [needed] is [false] exactly when upstream's latest version
    is the declared one, as strings; otherwise [needed] is [true], the
    version is upstream's and the changelog is upstream's release body. *)
Theorem version_oracle_decision (s : St) (owner repo : string)
        (manualVersion : option string) (current latest body : string) :
  let r := interp h (UpdateLsp.checkForUpdate owner repo manualVersion) s in
  (manualVersion = None \/ manualVersion = Some "") ->
  every (both no_in_flight_pr (both (declares current) (upstream_offers latest body)))
        (trace r) = true ->
  exists check,
    outcome r = Returned (Some check)
    /\ upstream_queries (trace r) = 1%nat
    /\ (UpdateLsp.needed check = false <-> latest = current)
    /\ (latest <> current ->
        UpdateLsp.needed check = true
        /\ UpdateLsp.version check = latest
        /\ UpdateLsp.changelog check = body).
Proof.
  cbv zeta. intros Hm Hev.
  pose proof (wp_sound h _ _ _ s
                (checkForUpdate_upstream owner repo manualVersion current latest body Hm)
                Hev) as [Ho Hq].
  eexists. split; [exact Ho |]. split; [exact Hq |].
  destruct (String.eqb_spec latest current) as [-> | Hne]; cbn.
  - split; [tauto |]. intro H. now contradiction H.
  - split; [| tauto]. split; [discriminate | tauto].
Qed.

Lemma checkForUpdate_manual (owner repo manual : string) :
  String.eqb manual "" = false ->
  wp no_in_flight_pr (UpdateLsp.checkForUpdate owner repo (Some manual))
     (fun t o =>
        o = Returned (Some (UpdateLsp.mkUpdateCheck true manual
                              ("Manual update to v" ++ manual)))
        /\ version_lookups t = 0%nat).
Proof.
  intro Hm.
  unfold UpdateLsp.checkForUpdate, findOpenLspUpdatePr, version_lookups.
  wp_run; leaf.
Qed.

Lemma run_manual (raw : string) :
  String.eqb (trim raw) "" = false ->
  wp (both launched (both (input_is "version" raw) no_in_flight_pr)) UpdateLsp.run
     (fun t o =>
        In ("Updating to v" ++ trim raw ++ "...") (infos t)
        /\ In ("Building LSP version " ++ trim raw ++ " (" ++ trim raw ++ ")") (infos t)).
Proof.
  intro Hm.
  unfold UpdateLsp.run, UpdateLsp.checkForUpdate, Lsp.buildLsp, findOpenLspUpdatePr,
    getInput, infos.
  wp_run.
  all: try (apply wp_any; intros t o); cbn; split;
    repeat (first [left; reflexivity | right]).
Qed.

Lemma run_manual_full (raw : string) :
  String.eqb (trim raw) "" = false ->
  wp (both launched (both (input_is "version" raw) no_in_flight_pr)) UpdateLsp.run
     (fun t o =>
        let v := trim raw in
        version_lookups t = 0%nat
        /\ output "updated" t <> Some "false"
        /\ o = Returned tt
        /\ ((exists m, failures t = [m]) /\ outputs t = []
            \/ failures t = []
               /\ exists owner repo dir rel pr,
                    hd_error (commands t) = Some (clone_of v dir)
                    /\ firstn 2 (writes t) = ["extension.toml"; "Cargo.toml"]
                    /\ creations t = [(prerelease_request owner repo v, Ok rel)]
                    /\ accepted_uploads t = 2%nat
                    /\ (branch_listings t = [(branch_query owner repo v, Ok [])]
                        /\ opened t = [pr]
                        /\ pull_creations t
                           = [(UpdateLsp.commitTitle v, update_branch_of v, "main")]
                        /\ pull_updates t = []
                        \/ (exists rest,
                              branch_listings t
                              = [(branch_query owner repo v, Ok (pr :: rest))])
                           /\ pull_creations t = []
                           /\ pull_updates t = [(pull_number pr, UpdateLsp.commitTitle v)])
                    /\ outputs t = [("updated", "true"); ("version", v);
                                    ("pr-number", string_of_Z (pull_number pr));
                                    ("pr-url", pull_html_url pr);
                                    ("release-url", rel_html_url rel)])).
Proof.
  intro Hm.
  unfold UpdateLsp.run, UpdateLsp.checkForUpdate, UpdateLsp.createPrerelease,
    UpdateLsp.createPullRequest, UpdateLsp.commitChanges, UpdateLsp.updateVersionFiles,
    Lsp.buildLsp, UpdateLsp.replaceQuoted, findOpenLspUpdatePr, getInput, exec,
    version_lookups, output, outputs, failures, commands, writes, creations,
    accepted_uploads, uploads, branch_listings, opened, pull_creations, pull_updates,
    clone_of, prerelease_request, branch_query, update_branch_of.
  wp_run.
  all: cbn; split; [reflexivity |]; split; [discriminate |]; split; [reflexivity |].
  all: first
         [ left; split; [eexists; reflexivity | reflexivity]
         | right; split; [reflexivity |]; do 5 eexists;
           split; [reflexivity |]; split; [reflexivity |]; split; [reflexivity |];
           split; [reflexivity |]; split; [| reflexivity];
           first [ left; repeat split; reflexivity
                 | right; split; [eexists; reflexivity |]; split; reflexivity ] ].
Qed.


End UpdatePath.

Section ChangeCommitter.
Context {St : Type} (h : Handler St).

#[local] Hint Unfold identity_set version_supplied staged : answers.

Lemma build_run_commits :
  wp (both version_supplied staged) BuildLsp.run
     (fun t o =>
        exists raw name email dir status,
          input "version" t = Some raw
          /\ input "git-user-name" t = Some name
          /\ input "git-user-email" t = Some email
          /\ staged_status t = Some status
          /\ commands t
             = ([clone_of (trim raw) dir;
                ("npm", ["ci"]);
                ("npm", ["run"; "build-bundle"]);
                ("git", ["config"; "user.name"; trim name]);
                ("git", ["config"; "user.email"; trim email]);
                ("git", ["add"; "lsp"]);
                ("git", ["status"; "--porcelain"; "lsp"])]
               ++ (if String.eqb status "" then []
                   else [("git", build_commit (trim raw))]))%list
          /\ if String.eqb status ""
             then commits t = []
                  /\ output "committed" t = Some "false"
                  /\ failures t = []
             else commits t = [build_commit (trim raw)]
                  /\ (failures t = [] /\ output "committed" t = Some "true"
                      \/ (exists m, failures t = [m]) /\ outputs t = [])).
Proof.
  unfold BuildLsp.run, Lsp.buildLsp, getInput, staged_status, commits, git_commands,
    commands, output, outputs, failures, input, build_commit, clone_of.
  wp_run.
  all: cbn; do 5 eexists; do 4 (split; [reflexivity |]);
    repeat match goal with H : String.eqb _ _ = _ |- _ => rewrite H end; cbn;
    (split; [reflexivity |]).
  - repeat split.
  - split; [reflexivity |]. left. split; reflexivity.
  - split; [reflexivity |]. right. split; [eexists; reflexivity | reflexivity].
Qed.

Lemma commitChanges_commits (version : string) :
  wp identity_set (UpdateLsp.commitChanges version)
     (fun t o =>
        exists code,
          staged_diff t = Some code
          /\ git_commands t
             = ([["config"; "user.name"; "github-actions[bot]"];
                ["config"; "user.email"; "github-actions[bot]@users.noreply.github.com"];
                ["add"; "extension.toml"; "Cargo.toml"; "Cargo.lock"; "src/config.rs";
                 "lsp/"];
                ["diff"; "--cached"; "--quiet"]]
               ++ (if (code =? 0)%Z then []
                   else [["commit"; "-m"; UpdateLsp.commitTitle version]]))%list
          /\ commands t = map (fun a => ("git", a)) (git_commands t)
          /\ if (code =? 0)%Z
             then commits t = [] /\ o = Returned false
             else commits t = [["commit"; "-m"; UpdateLsp.commitTitle version]]
                  /\ exists c, commit_codes t = [c]
                               /\ if (c =? 0)%Z then o = Returned true
                                  else exists e, o = Threw e).
Proof.
  unfold UpdateLsp.commitChanges, exec, staged_diff, commits, git_commands, commands,
    commit_codes, git_runs.
  wp_run.
  all: cbn; eexists; split; [reflexivity |];
    repeat match goal with H : (_ =? _)%Z = _ |- _ => rewrite H end; cbn;
    split; [reflexivity |]; split; [reflexivity |]; split; [reflexivity |].
  all: try reflexivity.
  all: eexists; split; [reflexivity |];
    repeat match goal with H : (_ =? _)%Z = _ |- _ => rewrite H end;
    first [reflexivity | eexists; reflexivity].
Qed.


End ChangeCommitter.

Section PrereleasePublisher.
Context {St : Type} (h : Handler St).

Lemma createPrerelease_succeeds (owner repo version : string) :
  wp succeeding (UpdateLsp.createPrerelease owner repo version)
     (fun t o => exists ref, o = Returned ref).
Proof.
  unfold UpdateLsp.createPrerelease.
  wp_run. cbn. eexists. reflexivity.
Qed.

Lemma createPrerelease_creates (owner repo version : string) :
  wp any_answer (UpdateLsp.createPrerelease owner repo version)
     (fun t o =>
        release_listings t = 0%nat
        /\ (List.length (creations t) <= 1)%nat
        /\ forall ref, o = Returned ref ->
            exists rel,
              creations t = [(prerelease_request owner repo version, Ok rel)]
              /\ ref = UpdateLsp.mkReleaseRef (rel_id rel) (rel_html_url rel)).
Proof.
  unfold UpdateLsp.createPrerelease, creations, release_listings, prerelease_request.
  wp_run.
  all: cbn; split; [reflexivity |]; split; [lia |]; intros ref H; try discriminate.
  injection H as <-. eexists. split; reflexivity.
Qed.

(** C2, as the code has it.  [createPrerelease] never looks the tag up: no
    run of it lists the existing releases, and no run asks for more than
    one new entry.  A run that returns has asked the platform for a new
    release entry on the tag of the version, with [prerelease=true] and
    [draft=false], and returns the id and the url of the entry the platform
    answered with; and a run in which nothing fails does return. *)
Theorem prerelease_created_anew (s : St) (owner repo version : string) :
  let r := interp h (UpdateLsp.createPrerelease owner repo version) s in
  release_listings (trace r) = 0%nat
  /\ (List.length (creations (trace r)) <= 1)%nat
  /\ (forall ref, outcome r = Returned ref ->
      exists rel,
        creations (trace r) = [(prerelease_request owner repo version, Ok rel)]
        /\ ref = UpdateLsp.mkReleaseRef (rel_id rel) (rel_html_url rel))
  /\ (every succeeding (trace r) = true -> exists ref, outcome r = Returned ref).
Proof.
  cbv zeta.
  pose proof (wp_sound_any h _ _ s (createPrerelease_creates owner repo version))
    as (Hl & Hc & Hr).
  repeat split; try assumption.
  exact (wp_sound h _ _ _ s (createPrerelease_succeeds owner repo version)).
Qed.

Lemma createPrerelease_cleanup (owner repo version : string) :
  wp any_answer (UpdateLsp.createPrerelease owner repo version)
     (fun t o =>
        (upload_rejected t = true -> removals t = [] /\ exists e, o = Threw e)
        /\ (forall ref, o = Returned ref ->
              removals t = [["-f"; UpdateLsp.tarballName version;
                             UpdateLsp.sha256Name version]]
              /\ accepted_uploads t = 2%nat)).
Proof.
  unfold UpdateLsp.createPrerelease, upload_rejected, removals, accepted_uploads, uploads.
  wp_run.
  all: cbn; split; [intro H | intros ref H]; try discriminate;
    repeat split; try reflexivity; eexists; reflexivity.
Qed.

Lemma createReleaseFromScratch_cleanup (owner repo version lspVersion body : string) :
  wp any_answer
     (PublishRelease.createReleaseFromScratch owner repo version lspVersion body)
     (fun t o =>
        (upload_rejected t = true -> removals t = [] /\ exists e, o = Threw e)
        /\ (forall ref, o = Returned ref ->
              removals t = [[PublishRelease.tarName lspVersion];
                            [PublishRelease.shaName lspVersion];
                            ["lsp"]]
              /\ accepted_uploads t = 2%nat)).
Proof.
  unfold PublishRelease.createReleaseFromScratch, Lsp.buildLsp,
    upload_rejected, removals, accepted_uploads, uploads.
  wp_run.
  all: cbn; split; [intro H | intros ref H]; try discriminate;
    repeat split; try reflexivity; eexists; reflexivity.
Qed.

(** C9, as the code has it.  The bundle and its checksum are deleted after
    the uploads only when both uploads went through: a run of
    [createPrerelease] or of [createReleaseFromScratch] that returns has
    had its two uploads accepted and has then deleted the files; a run in
    which the platform rejects an upload throws at that upload and attempts
    no deletion at all. *)
Theorem bundle_cleanup_after_uploads (s s' : St)
        (owner repo version lspVersion body : string) :
  let pre := interp h (UpdateLsp.createPrerelease owner repo version) s in
  let scratch :=
    interp h (PublishRelease.createReleaseFromScratch owner repo version lspVersion body)
           s' in
  ((upload_rejected (trace pre) = true ->
    removals (trace pre) = [] /\ exists e, outcome pre = Threw e)
   /\ (forall ref, outcome pre = Returned ref ->
         removals (trace pre) = [["-f"; UpdateLsp.tarballName version;
                                  UpdateLsp.sha256Name version]]
         /\ accepted_uploads (trace pre) = 2%nat))
  /\ ((upload_rejected (trace scratch) = true ->
       removals (trace scratch) = [] /\ exists e, outcome scratch = Threw e)
      /\ (forall ref, outcome scratch = Returned ref ->
            removals (trace scratch) = [[PublishRelease.tarName lspVersion];
                                        [PublishRelease.shaName lspVersion];
                                        ["lsp"]]
            /\ accepted_uploads (trace scratch) = 2%nat)).
Proof.
  cbv zeta. split.
  - exact (wp_sound_any h _ _ s (createPrerelease_cleanup owner repo version)).
  - exact (wp_sound_any h _ _ s'
             (createReleaseFromScratch_cleanup owner repo version lspVersion body)).
Qed.

End PrereleasePublisher.

Section ReleasePromoter.
Context {St : Type} (h : Handler St).

Lemma verify_mismatch (owner repo sha : string) (author : option string)
      (message : string) :
  mismatch author message = true ->
  wp (commit_is author message) (PublishRelease.verifyLspUpdateCommit owner repo sha)
     (fun t o => o = Returned (PublishRelease.mkVerification false (skip_reason author))).
Proof.
  intro Hm.
  unfold PublishRelease.verifyLspUpdateCommit, mismatch, skip_reason, template in *.
  wp_run; leaf.
Qed.

Lemma run_mismatch (author : option string) (message : string) :
  mismatch author message = true ->
  wp (both launched (commit_is author message)) PublishRelease.run
     (fun t o =>
        outputs t = [("skipped", "true"); ("reason", skip_reason author)]
        /\ platform_writes t = 0%nat
        /\ release_listings t = 0%nat
        /\ commands t = []
        /\ failures t = []
        /\ o = Returned tt).
Proof.
  intro Hm.
  unfold PublishRelease.run, PublishRelease.verifyLspUpdateCommit, getInput,
    mismatch, skip_reason, template, outputs, platform_writes, release_listings,
    commands, failures in *.
  wp_run; leaf.
Qed.

(** C4, as the code has it.  Promotion gate: for a commit whose author name
    is not [github-actions[bot]] or whose message does not start with
    [chore: update language server to], [verifyLspUpdateCommit] returns
    [isValid=false]; the launched promoter outputs [skipped=true] and the
    reason, lists and changes no release, starts no command and does not
    fail.  The reason quotes the actual author when the author is not the
    automation's; when only the message is off, it is the fixed text
    [Skipping: Commit message doesn't match LSP update pattern]. *)
Theorem promotion_gate (s s' : St) (owner repo sha : string)
        (author : option string) (message : string) :
  let v := interp h (PublishRelease.verifyLspUpdateCommit owner repo sha) s in
  let r := interp h PublishRelease.run s' in
  mismatch author message = true ->
  every (commit_is author message) (trace v) = true ->
  every (both launched (commit_is author message)) (trace r) = true ->
  outcome v = Returned (PublishRelease.mkVerification false (skip_reason author))
  /\ outputs (trace r) = [("skipped", "true"); ("reason", skip_reason author)]
  /\ platform_writes (trace r) = 0%nat
  /\ release_listings (trace r) = 0%nat
  /\ commands (trace r) = []
  /\ failures (trace r) = []
  /\ outcome r = Returned tt
  /\ (PublishRelease.is_bot author = false ->
      includes (skip_reason author) (PublishRelease.show_author author) = true)
  /\ (PublishRelease.is_bot author = true ->
      skip_reason author = "Skipping: Commit message doesn't match LSP update pattern").
Proof.
  cbv zeta. intros Hm Hv Hr.
  pose proof (wp_sound h _ _ _ s (verify_mismatch owner repo sha author message Hm) Hv)
    as V.
  pose proof (wp_sound h _ _ _ s' (run_mismatch author message Hm) Hr) as R.
  cbv beta in V, R.
  repeat split; try tauto.
  - intro Hb. unfold skip_reason. rewrite Hb. apply includes_app.
  - intro Hb. unfold skip_reason. now rewrite Hb.
Qed.

Lemma gated_run_skips (author : option string) (message version : string) :
  mismatch author message = false ->
  wp (both launched
        (both (commit_is author message)
              (both (extension_at version) (no_prerelease_for version))))
     PublishRelease.run
     (fun t o =>
        outputs t = [("skipped", "true");
                     ("reason", "No prerelease found for this version")]
        /\ release_listings t = 1%nat
        /\ platform_writes t = 0%nat
        /\ commands t = []
        /\ shell_commands t = []
        /\ failures t = []
        /\ o = Returned tt).
Proof.
  intro Hm.
  unfold PublishRelease.run, PublishRelease.verifyLspUpdateCommit,
    PublishRelease.findPrerelease, getInput, mismatch, template,
    outputs, platform_writes, release_listings, commands, shell_commands, failures in *.
  wp_run; leaf.
Qed.

Lemma scratch_run_builds (version : string) :
  wp (both succeeding (both (extension_at version) (no_prerelease_for version)))
     PublishFromScratch.run
     (fun t o =>
        exists owner repo lspVersion tempDir body rel,
          commands t
          = [("git", ["clone"; "--depth"; "1"; "--branch"; lspVersion;
                      "https://github.com/stylelint/vscode-stylelint.git"; tempDir]);
             ("npm", ["ci"]);
             ("npm", ["run"; "build-bundle"])]
          /\ shell_commands t
             = ["tar -czf " ++ dq ++ PublishRelease.tarName lspVersion ++ dq ++ " lsp/";
                "sha256sum " ++ dq ++ PublishRelease.tarName lspVersion ++ dq]
          /\ creations t = [(stable_request owner repo version body, Ok rel)]
          /\ accepted_uploads t = 2%nat
          /\ outputs t = [("release-id", string_of_Z (rel_id rel));
                          ("release-url", rel_html_url rel);
                          ("promoted", "false")]
          /\ failures t = []
          /\ o = Returned tt).
Proof.
  unfold PublishFromScratch.run, PublishRelease.createReleaseFromScratch,
    PublishRelease.findPrerelease, PublishRelease.getReleaseBody, Lsp.buildLsp,
    getInput, stable_request, outputs, creations, commands, shell_commands,
    accepted_uploads, uploads, failures.
  wp_run.
  all: cbn; do 6 eexists; repeat split.
Qed.

(** C3, as the code has it.  With no prerelease and no draft on the tag of
    the declared version: the promoter behind the Commit Verifier, once the
    commit is verified, skips; it outputs [skipped=true] with the reason
    [No prerelease found for this version], starts no build and creates or
    changes no release.  The from-scratch fallback is what the publish
    action without the verifier does: when nothing fails it runs the
    Artifact Builder, packages the artifact, asks the platform for a new
    release with [draft=false] and [prerelease=false] on that tag, uploads
    the two assets and outputs [promoted=false]. *)
Theorem promoter_without_prerelease (s s' : St) (author : option string)
        (message version : string) :
  let gated := interp h PublishRelease.run s in
  let scratch := interp h PublishFromScratch.run s' in
  mismatch author message = false ->
  every (both launched
           (both (commit_is author message)
                 (both (extension_at version) (no_prerelease_for version))))
        (trace gated) = true ->
  every (both succeeding (both (extension_at version) (no_prerelease_for version)))
        (trace scratch) = true ->
  (outputs (trace gated) = [("skipped", "true");
                            ("reason", "No prerelease found for this version")]
   /\ release_listings (trace gated) = 1%nat
   /\ platform_writes (trace gated) = 0%nat
   /\ commands (trace gated) = []
   /\ shell_commands (trace gated) = []
   /\ failures (trace gated) = []
   /\ outcome gated = Returned tt)
  /\ exists owner repo lspVersion tempDir body rel,
      commands (trace scratch)
      = [("git", ["clone"; "--depth"; "1"; "--branch"; lspVersion;
                  "https://github.com/stylelint/vscode-stylelint.git"; tempDir]);
         ("npm", ["ci"]);
         ("npm", ["run"; "build-bundle"])]
      /\ shell_commands (trace scratch)
         = ["tar -czf " ++ dq ++ PublishRelease.tarName lspVersion ++ dq ++ " lsp/";
            "sha256sum " ++ dq ++ PublishRelease.tarName lspVersion ++ dq]
      /\ creations (trace scratch) = [(stable_request owner repo version body, Ok rel)]
      /\ accepted_uploads (trace scratch) = 2%nat
      /\ outputs (trace scratch) = [("release-id", string_of_Z (rel_id rel));
                                    ("release-url", rel_html_url rel);
                                    ("promoted", "false")]
      /\ failures (trace scratch) = []
      /\ outcome scratch = Returned tt.
Proof.
  cbv zeta. intros Hm Hg Hs. split.
  - exact (wp_sound h _ _ _ s (gated_run_skips author message version Hm) Hg).
  - exact (wp_sound h _ _ _ s' (scratch_run_builds version) Hs).
Qed.

End ReleasePromoter.

(** * The theorems at work, and where the claims of the specification stop *)

(** C1 at work: the update to 1.3.0 is in flight as pull request 12. *)
Lemma single_in_flight_guard_witness :
  let check := interp World.handle
                 (UpdateLsp.checkForUpdate Scenario.owner Scenario.repo (Some "1.4.0"))
                 Scenario.in_flight in
  let r := interp World.handle UpdateLsp.run Scenario.in_flight in
  every in_flight_pr (trace check) = true
  /\ every (both launched in_flight_pr) (trace r) = true
  /\ outcome check = Returned None
  /\ outputs (trace r) = [("updated", "false")].
Proof.
  cbv zeta.
  assert (H1 : every in_flight_pr
                 (trace (interp World.handle
                           (UpdateLsp.checkForUpdate Scenario.owner Scenario.repo
                                                     (Some "1.4.0"))
                           Scenario.in_flight)) = true) by (vm_compute; reflexivity).
  assert (H2 : every (both launched in_flight_pr)
                 (trace (interp World.handle UpdateLsp.run Scenario.in_flight)) = true)
    by (vm_compute; reflexivity).
  destruct (single_in_flight_guard World.handle Scenario.in_flight Scenario.in_flight
              Scenario.owner Scenario.repo (Some "1.4.0") H1 H2)
    as (Hc & _ & Ho & _).
  repeat split; assumption.
Defined.

(** C2 at work: a request for 1.3.0 while its prerelease is live as
    entry 7. *)
Lemma prerelease_created_anew_witness :
  let w := Scenario.with_prerelease Scenario.base in
  let r := interp World.handle
             (UpdateLsp.createPrerelease Scenario.owner Scenario.repo Scenario.v130) w in
  map rel_id (entries_on Scenario.v130 (World.releases w)) = [7%Z]
  /\ every succeeding (trace r) = true
  /\ release_listings (trace r) = 0%nat
  /\ exists ref rel,
      outcome r = Returned ref
      /\ creations (trace r)
         = [(prerelease_request Scenario.owner Scenario.repo Scenario.v130, Ok rel)]
      /\ ref = UpdateLsp.mkReleaseRef (rel_id rel) (rel_html_url rel).
Proof.
  cbv zeta.
  assert (H : every succeeding
                (trace (interp World.handle
                          (UpdateLsp.createPrerelease Scenario.owner Scenario.repo
                                                      Scenario.v130)
                          (Scenario.with_prerelease Scenario.base))) = true)
    by (vm_compute; reflexivity).
  destruct (prerelease_created_anew World.handle (Scenario.with_prerelease Scenario.base)
              Scenario.owner Scenario.repo Scenario.v130)
    as (Hl & _ & Hr & Hs).
  destruct (Hs H) as [ref Href]. destruct (Hr ref Href) as (rel & Hc & Hrel).
  split; [vm_compute; reflexivity |]. split; [exact H |]. split; [exact Hl |].
  exists ref, rel. repeat split; assumption.
Defined.

(** C2 as the specification states it fails: with the prerelease of 1.3.0
    live as entry 7, a new request for 1.3.0 does not return entry 7.  On a
    platform that lets a tag carry two entries it creates and returns
    entry 8, and the tag then carries two prereleases; on a platform that
    refuses, the request throws. *)
Lemma prerelease_reuse_counterexample :
  let w := Scenario.with_prerelease Scenario.base in
  let request := UpdateLsp.createPrerelease Scenario.owner Scenario.repo Scenario.v130 in
  let r := interp World.handle request w in
  let r' := interp World.handle request (Scenario.with_platform w true []) in
  entries_on Scenario.v130 (World.releases w) = [Scenario.prerelease130]
  /\ outcome r = Returned (UpdateLsp.mkReleaseRef 8 (rel_html_url Scenario.prerelease130))
  /\ outcome r <> Returned (UpdateLsp.mkReleaseRef (rel_id Scenario.prerelease130)
                                                   (rel_html_url Scenario.prerelease130))
  /\ map rel_id (entries_on Scenario.v130 (World.releases (final r))) = [7%Z; 8%Z]
  /\ map rel_prerelease (entries_on Scenario.v130 (World.releases (final r)))
     = [true; true]
  /\ outcome r' = Threw (ErrorObj "Validation Failed: tag_name already_exists").
Proof.
  cbv zeta. repeat split; try (vm_compute; reflexivity).
  vm_compute. intro H. discriminate H.
Qed.

(** C3 at work: the declared version 1.2.0 has no prerelease. *)
Lemma promoter_without_prerelease_witness :
  let gated := interp World.handle PublishRelease.run
                      (Scenario.with_commit Scenario.base Scenario.bump) in
  let scratch := interp World.handle PublishFromScratch.run Scenario.base in
  mismatch (commit_author_name Scenario.bump) (commit_message Scenario.bump) = false
  /\ every (both launched
               (both (commit_is (commit_author_name Scenario.bump)
                                (commit_message Scenario.bump))
                     (both (extension_at "1.2.0") (no_prerelease_for "1.2.0"))))
           (trace gated) = true
  /\ every (both succeeding (both (extension_at "1.2.0") (no_prerelease_for "1.2.0")))
           (trace scratch) = true
  /\ outputs (trace gated) = [("skipped", "true");
                              ("reason", "No prerelease found for this version")]
  /\ exists body rel,
      creations (trace scratch)
      = [(stable_request Scenario.owner Scenario.repo "1.2.0" body, Ok rel)].
Proof.
  cbv zeta.
  assert (H0 : mismatch (commit_author_name Scenario.bump) (commit_message Scenario.bump)
               = false) by (vm_compute; reflexivity).
  assert (H1 : every (both launched
                        (both (commit_is (commit_author_name Scenario.bump)
                                         (commit_message Scenario.bump))
                              (both (extension_at "1.2.0") (no_prerelease_for "1.2.0"))))
                 (trace (interp World.handle PublishRelease.run
                                (Scenario.with_commit Scenario.base Scenario.bump)))
               = true) by (vm_compute; reflexivity).
  assert (H2 : every (both succeeding
                           (both (extension_at "1.2.0") (no_prerelease_for "1.2.0")))
                 (trace (interp World.handle PublishFromScratch.run Scenario.base))
               = true) by (vm_compute; reflexivity).
  destruct (promoter_without_prerelease World.handle
              (Scenario.with_commit Scenario.base Scenario.bump) Scenario.base
              (commit_author_name Scenario.bump) (commit_message Scenario.bump) "1.2.0"
              H0 H1 H2)
    as [(Hg & _) (o & p & l & d & b & rel & _ & _ & Hc & _)].
  repeat (split; [assumption |]).
  exists b, rel. rewrite Hc.
  assert (Ho : cr_owner (fst (hd (stable_request o p "1.2.0" b, Ok rel)
                                 (creations (trace (interp World.handle
                                                      PublishFromScratch.run
                                                      Scenario.base)))))
               = Scenario.owner
               /\ cr_repo (fst (hd (stable_request o p "1.2.0" b, Ok rel)
                                   (creations (trace (interp World.handle
                                                        PublishFromScratch.run
                                                        Scenario.base)))))
                  = Scenario.repo) by (vm_compute; split; reflexivity).
  rewrite Hc in Ho. cbn in Ho. destruct Ho as [-> ->]. reflexivity.
Defined.

(** C3 as the specification states it fails: the commit is verified, no
    prerelease and no draft on the tag of the declared version, and the
    promoter skips; no build, no release created. *)
Lemma promoter_fallback_counterexample :
  let w := Scenario.with_commit Scenario.base Scenario.bump in
  let r := interp World.handle PublishRelease.run w in
  mismatch (commit_author_name Scenario.bump) (commit_message Scenario.bump) = false
  /\ find (PublishRelease.promotable (toml_version (World.manifest w))) (World.releases w)
     = None
  /\ outputs (trace r) = [("skipped", "true");
                          ("reason", "No prerelease found for this version")]
  /\ creations (trace r) = []
  /\ commands (trace r) = []
  /\ shell_commands (trace r) = []
  /\ World.releases (final r) = [].
Proof.
  cbv zeta. repeat split; vm_compute; reflexivity.
Qed.

(** C4 at work: a merge by hand, by octocat. *)
Lemma promotion_gate_witness :
  let c := Scenario.by_hand in
  let w := Scenario.with_commit Scenario.base c in
  let v := interp World.handle
             (PublishRelease.verifyLspUpdateCommit Scenario.owner Scenario.repo "c0ffee1")
             w in
  let r := interp World.handle PublishRelease.run w in
  mismatch (commit_author_name c) (commit_message c) = true
  /\ every (commit_is (commit_author_name c) (commit_message c)) (trace v) = true
  /\ every (both launched (commit_is (commit_author_name c) (commit_message c)))
           (trace r) = true
  /\ outputs (trace r)
     = [("skipped", "true"); ("reason", skip_reason (commit_author_name c))]
  /\ platform_writes (trace r) = 0%nat.
Proof.
  cbv zeta.
  assert (H0 : mismatch (commit_author_name Scenario.by_hand)
                        (commit_message Scenario.by_hand) = true)
    by (vm_compute; reflexivity).
  assert (H1 : every (commit_is (commit_author_name Scenario.by_hand)
                                (commit_message Scenario.by_hand))
                 (trace (interp World.handle
                           (PublishRelease.verifyLspUpdateCommit Scenario.owner
                              Scenario.repo "c0ffee1")
                           (Scenario.with_commit Scenario.base Scenario.by_hand)))
               = true) by (vm_compute; reflexivity).
  assert (H2 : every (both launched
                           (commit_is (commit_author_name Scenario.by_hand)
                                      (commit_message Scenario.by_hand)))
                 (trace (interp World.handle PublishRelease.run
                                (Scenario.with_commit Scenario.base Scenario.by_hand)))
               = true) by (vm_compute; reflexivity).
  destruct (promotion_gate World.handle
              (Scenario.with_commit Scenario.base Scenario.by_hand)
              (Scenario.with_commit Scenario.base Scenario.by_hand)
              Scenario.owner Scenario.repo "c0ffee1"
              (commit_author_name Scenario.by_hand) (commit_message Scenario.by_hand)
              H0 H1 H2)
    as (_ & Ho & Hw & _).
  repeat (split; [assumption |]). exact Hw.
Defined.

(** C4 as the specification states it fails: the automation's own commit
    with the message [fix: typo] is skipped, and the reason does not
    contain the message. *)
Lemma promotion_gate_counterexample :
  let c := Scenario.typo in
  let r := interp World.handle PublishRelease.run (Scenario.with_commit Scenario.base c) in
  mismatch (commit_author_name c) (commit_message c) = true
  /\ output "skipped" (trace r) = Some "true"
  /\ output "reason" (trace r)
     = Some "Skipping: Commit message doesn't match LSP update pattern"
  /\ includes "Skipping: Commit message doesn't match LSP update pattern"
              (commit_message c) = false.
Proof.
  cbv zeta. repeat split; vm_compute; reflexivity.
Qed.

(** C5 at work: the trunk has moved and the replay conflicts. *)
Lemma rebase_conflict_atomicity_witness :
  let r := interp World.handle RebaseLspPr.run Scenario.conflicting in
  replay_failed (trace r) = true
  /\ existsb (subcommand "push") (git_commands (trace r)) = false
  /\ output "rebased" (trace r) = Some "false"
  /\ failures (trace r) = [].
Proof.
  cbv zeta.
  assert (H : replay_failed (trace (interp World.handle RebaseLspPr.run
                                           Scenario.conflicting)) = true)
    by (vm_compute; reflexivity).
  destruct (rebase_conflict_atomicity World.handle Scenario.conflicting H)
    as (_ & Hp & _ & Hf & Hr & _).
  repeat split; assumption.
Defined.


(** C7 at work: the branch already contains the trunk. *)
Lemma rebase_noop_after_check_witness :
  let r := interp World.handle RebaseLspPr.run Scenario.up_to_date in
  trunk_contained (trace r) = true
  /\ existsb (subcommand "rebase") (git_commands (trace r)) = false
  /\ existsb (subcommand "push") (git_commands (trace r)) = false
  /\ output "rebased" (trace r) = Some "false".
Proof.
  cbv zeta.
  assert (H : trunk_contained (trace (interp World.handle RebaseLspPr.run
                                             Scenario.up_to_date)) = true)
    by (vm_compute; reflexivity).
  destruct (rebase_noop_after_check World.handle Scenario.up_to_date H)
    as (_ & _ & Hr & Hp & Ho & _).
  repeat split; assumption.
Defined.

(** C7 as the specification states it fails: the merge base is the trunk
    tip, and the run has written to the repository three times before the
    check, the fetch among them; [refs/remotes/origin/main] has moved from
    [aaaaaaa] to the trunk tip [bbbbbbb]. *)
Lemma rebase_noop_counterexample :
  let r := interp World.handle RebaseLspPr.run Scenario.up_to_date in
  trunk_contained (trace r) = true
  /\ filter git_mutating (git_commands (trace r))
     = [["config"; "user.name"; "github-actions[bot]"];
        ["config"; "user.email"; "github-actions[bot]@users.noreply.github.com"];
        ["fetch"; "origin"; "main"]]
  /\ filter git_mutating (git_commands (trace r)) <> []
  /\ World.tracking Scenario.up_to_date = "aaaaaaa"
  /\ World.tracking (final r) = "bbbbbbb".
Proof.
  cbv zeta. repeat split; try (vm_compute; reflexivity).
  vm_compute. intro H. discriminate H.
Qed.

(** C8 at work: 1.2.0 declared, 1.3.0 upstream. *)
Lemma version_oracle_decision_witness :
  let r := interp World.handle (UpdateLsp.checkForUpdate Scenario.owner Scenario.repo None)
                  Scenario.base in
  every (both no_in_flight_pr
               (both (declares "1.2.0") (upstream_offers "1.3.0" "What's new in 1.3.0")))
        (trace r) = true
  /\ exists check,
      outcome r = Returned (Some check)
      /\ UpdateLsp.needed check = true
      /\ UpdateLsp.version check = "1.3.0"
      /\ UpdateLsp.changelog check = "What's new in 1.3.0".
Proof.
  cbv zeta.
  assert (H : every (both no_in_flight_pr
                           (both (declares "1.2.0")
                                 (upstream_offers "1.3.0" "What's new in 1.3.0")))
                    (trace (interp World.handle
                              (UpdateLsp.checkForUpdate Scenario.owner Scenario.repo None)
                              Scenario.base)) = true) by (vm_compute; reflexivity).
  split; [exact H |].
  destruct (version_oracle_decision World.handle Scenario.base Scenario.owner Scenario.repo
              None "1.2.0" "1.3.0" "What's new in 1.3.0" (or_introl eq_refl) H)
    as (check & Ho & _ & _ & Hn).
  exists check. split; [exact Ho |]. apply Hn. discriminate.
Defined.

(** C9 at work: the platform rejects the upload of the checksum. *)
Lemma bundle_cleanup_after_uploads_witness :
  let pre := interp World.handle
               (UpdateLsp.createPrerelease Scenario.owner Scenario.repo Scenario.v130)
               Scenario.flaky in
  upload_rejected (trace pre) = true
  /\ removals (trace pre) = []
  /\ exists e, outcome pre = Threw e.
Proof.
  cbv zeta.
  assert (H : upload_rejected
                (trace (interp World.handle
                          (UpdateLsp.createPrerelease Scenario.owner Scenario.repo
                                                      Scenario.v130)
                          Scenario.flaky)) = true) by (vm_compute; reflexivity).
  destruct (bundle_cleanup_after_uploads World.handle Scenario.flaky Scenario.flaky
              Scenario.owner Scenario.repo Scenario.v130 Scenario.v130 "notes")
    as [(Hp & _) _].
  split; [exact H | exact (Hp H)].
Defined.

(** C9 as the specification states it fails: the platform rejects the
    upload of the checksum, the update action fails, and the bundle and its
    checksum are still in the workspace when it exits. *)
Lemma bundle_cleanup_counterexample :
  let r := interp World.handle UpdateLsp.run Scenario.flaky in
  upload_rejected (trace r) = true
  /\ failures (trace r) = ["Upload of stylelint-language-server-v1.3.0.sha256 failed"]
  /\ removals (trace r) = []
  /\ World.assoc (UpdateLsp.tarballName Scenario.v130) (World.files (final r))
     = Some "archive of lsp/"
  /\ World.mem (UpdateLsp.sha256Name Scenario.v130) (map fst (World.files (final r)))
     = true.
Proof.
  cbv zeta. repeat split; vm_compute; reflexivity.
Qed.


(** * More of the code *)

Section ArtifactBuilder.
Context {St : Type} (h : Handler St).

Lemma buildLsp_finally (version out : string) :
  wp any_answer (Lsp.buildLsp version out)
     (fun t o =>
        forall d, made_tempdir t = Some d ->
          ends_with_rmrf d t = true
          /\ (forall e, last_rmrf_error t = Some e -> o = Threw e)).
Proof.
  unfold Lsp.buildLsp, made_tempdir, ends_with_rmrf, last_rmrf_error.
  wp_run.
  all: cbn; intros d Hd; try discriminate; injection Hd as <-;
    rewrite String.eqb_refl; split; [reflexivity |]; intros e' He;
    try discriminate; injection He as <-; reflexivity.
Qed.

(** X1.  The temporary build directory is a scoped resource: once
    [mkdtemp] has made it, every run of [buildLsp] ends with [rmRF] of that
    very directory, whether the build went through or failed at any step;
    and when that removal is rejected, its error is what [buildLsp] throws,
    even after a build that succeeded. *)
Theorem buildLsp_removes_tempdir (s : St) (version out d : string) :
  let r := interp h (Lsp.buildLsp version out) s in
  made_tempdir (trace r) = Some d ->
  ends_with_rmrf d (trace r) = true
  /\ (forall e, last_rmrf_error (trace r) = Some e -> outcome r = Threw e).
Proof.
  cbv zeta. intro Hd.
  exact (wp_sound_any h _ _ s (buildLsp_finally version out) d Hd).
Qed.

Lemma buildLsp_returns (version out : string) :
  wp any_answer (Lsp.buildLsp version out)
     (fun t o =>
        forall b, o = Returned b ->
          Lsp.lspPath b = out
          /\ Lsp.files b <> []
          /\ (exists dist tmp distFiles,
                 copies t = [(dist, out)]
                 /\ rmrfs t = [out; tmp]
                 /\ listings t = [(dist, distFiles); (out, Lsp.files b)])
          /\ exec_rejected t = false).
Proof.
  unfold Lsp.buildLsp, copies, rmrfs, listings, exec_rejected.
  wp_run.
  all: cbn; intros b Hb; try discriminate; injection Hb as <-; cbn.
  all: repeat split; try (intro Hx; rewrite Hx in *; discriminate); repeat eexists.
Qed.

(** X2.  [buildLsp] never returns an empty artifact: whenever it returns,
    the path is the output path, the file list is the non-empty listing of
    the output directory read after the copy, the output directory was
    removed and refilled by exactly one copy from [dist], and no command
    line was rejected. *)
Theorem buildLsp_returns_files (s : St) (version out : string) (b : Lsp.BuildLspResult) :
  let r := interp h (Lsp.buildLsp version out) s in
  outcome r = Returned b ->
  Lsp.lspPath b = out
  /\ Lsp.files b <> []
  /\ (exists dist tmp distFiles,
         copies (trace r) = [(dist, out)]
         /\ rmrfs (trace r) = [out; tmp]
         /\ listings (trace r) = [(dist, distFiles); (out, Lsp.files b)])
  /\ exec_rejected (trace r) = false.
Proof.
  cbv zeta. intro Hb.
  exact (wp_sound_any h _ _ s (buildLsp_returns version out) b Hb).
Qed.

Lemma buildLsp_errors (version out : string) :
  wp cleanup_ok (Lsp.buildLsp version out)
     (fun t o =>
        (access_rejected t = true ->
         o = Threw (ErrorObj ("package.json not found in cloned repository at "
                              ++ version)))
        /\ (dist_unusable t = true ->
            exists dist,
              o = Threw (ErrorObj ("dist directory not found after build at " ++ dist)))
        /\ (empty_output t = true ->
            o = Threw (ErrorObj ("No files copied to " ++ out ++ "/")))).
Proof.
  unfold Lsp.buildLsp, access_rejected, dist_unusable, empty_output, listings.
  wp_run.
  all: cbn; repeat split; intro H; try discriminate; try reflexivity;
    try (eexists; reflexivity); try (match goal with
         | H : match ?l with [] => _ | _ :: _ => _ end = true |- _ =>
             destruct l; discriminate
         end).
Qed.

(** X3.  The three errors of the build.  With the removal of the temporary
    directory going through: when the check of [package.json] is rejected,
    [buildLsp] throws [package.json not found in cloned repository at
    <version>], whatever the rejection was; when [stat] of [dist] is
    rejected or [dist] is not a directory, it throws [dist directory not
    found after build at <dist>], so the inner [dist is not a directory] is
    never what the caller sees; when the output directory is empty after
    the copy, it throws [No files copied to <out>/]. *)
Theorem buildLsp_build_errors (s : St) (version out : string) :
  let r := interp h (Lsp.buildLsp version out) s in
  every cleanup_ok (trace r) = true ->
  (access_rejected (trace r) = true ->
   outcome r = Threw (ErrorObj ("package.json not found in cloned repository at "
                                ++ version)))
  /\ (dist_unusable (trace r) = true ->
      exists dist,
        outcome r = Threw (ErrorObj ("dist directory not found after build at " ++ dist)))
  /\ (empty_output (trace r) = true ->
      outcome r = Threw (ErrorObj ("No files copied to " ++ out ++ "/"))).
Proof.
  cbv zeta. intro Hev.
  exact (wp_sound h _ _ _ s (buildLsp_errors version out) Hev).
Qed.

Lemma buildLsp_rejected (version out : string) :
  wp any_answer (Lsp.buildLsp version out)
     (fun t o =>
        exec_rejected t = true ->
        copies t = []
        /\ (exists d, made_tempdir t = Some d /\ rmrfs t = [d])
        /\ exists e, o = Threw e).
Proof.
  unfold Lsp.buildLsp, exec_rejected, copies, made_tempdir, rmrfs.
  wp_run.
  all: cbn; intro H; try discriminate; repeat split; try reflexivity;
    repeat eexists.
Qed.

(** X4.  A failed build leaves the output directory alone: in every run of
    [buildLsp] in which the clone, [npm ci] or [npm run build-bundle] is
    rejected, nothing is copied, the only directory removed is the
    temporary one, and [buildLsp] throws. *)
Theorem buildLsp_failure_keeps_output (s : St) (version out : string) :
  let r := interp h (Lsp.buildLsp version out) s in
  exec_rejected (trace r) = true ->
  copies (trace r) = []
  /\ (exists d, made_tempdir (trace r) = Some d /\ rmrfs (trace r) = [d])
  /\ exists e, outcome r = Threw e.
Proof.
  cbv zeta. intro Hev.
  exact (wp_sound_any h _ _ s (buildLsp_rejected version out) Hev).
Qed.

End ArtifactBuilder.

Section VersionFiles.
Context {St : Type} (h : Handler St).

Lemma updateVersionFiles_optional (version : string) :
  wp manifests_ok (UpdateLsp.updateVersionFiles version)
     (fun t o =>
        o = Returned tt
        /\ (written t = ["extension.toml"; "Cargo.toml"]
            \/ written t = ["extension.toml"; "Cargo.toml"; "src/config.rs"])).
Proof.
  unfold UpdateLsp.updateVersionFiles, UpdateLsp.replaceQuoted, written.
  wp_run.
  all: cbn; split; [reflexivity | tauto].
Qed.

Lemma updateVersionFiles_without_config (version : string) :
  wp (both manifests_ok no_config_rs) (UpdateLsp.updateVersionFiles version)
     (fun t o =>
        o = Returned tt
        /\ reads t = ["extension.toml"; "Cargo.toml"]
        /\ writes t = ["extension.toml"; "Cargo.toml"]).
Proof.
  unfold UpdateLsp.updateVersionFiles, UpdateLsp.replaceQuoted, reads, writes.
  wp_run.
  all: cbn; repeat split.
Qed.

(** X5.  [src/config.rs] is optional, and everything about it is
    swallowed: once the two manifests are read and written,
    [updateVersionFiles] returns normally whatever happens to
    [src/config.rs] - missing, unreadable, or not writable - having written
    [extension.toml], then [Cargo.toml], then at most [src/config.rs]. *)
Theorem updateVersionFiles_config_optional (s : St) (version : string) :
  let r := interp h (UpdateLsp.updateVersionFiles version) s in
  every manifests_ok (trace r) = true ->
  outcome r = Returned tt
  /\ (written (trace r) = ["extension.toml"; "Cargo.toml"]
      \/ written (trace r) = ["extension.toml"; "Cargo.toml"; "src/config.rs"]).
Proof.
  cbv zeta. intro Hev.
  exact (wp_sound h _ _ _ s (updateVersionFiles_optional version) Hev).
Qed.

Lemma updateVersionFiles_partial (version : string) :
  wp any_answer (UpdateLsp.updateVersionFiles version)
     (fun t o =>
        forall e, o = Threw e ->
          written t = [] \/ written t = ["extension.toml"]).
Proof.
  unfold UpdateLsp.updateVersionFiles, UpdateLsp.replaceQuoted, written.
  wp_run.
  all: cbn; intros e' H; try discriminate; tauto.
Qed.

(** X6.  The version files are not rewritten atomically: a run of
    [updateVersionFiles] that throws has written nothing, or has already
    rewritten [extension.toml] and not [Cargo.toml]; it never fails after
    [Cargo.toml] is written. *)
Theorem updateVersionFiles_failure_is_partial (s : St) (version : string) (e : Exn) :
  let r := interp h (UpdateLsp.updateVersionFiles version) s in
  outcome r = Threw e ->
  written (trace r) = [] \/ written (trace r) = ["extension.toml"].
Proof.
  cbv zeta. intro Ho.
  exact (wp_sound_any h _ _ s (updateVersionFiles_partial version) e Ho).
Qed.

End VersionFiles.

Section UpdatePullRequest.
Context {St : Type} (h : Handler St).

Lemma createPullRequest_push (owner repo version changelog releaseUrl : string) :
  wp any_answer (UpdateLsp.createPullRequest owner repo version changelog releaseUrl)
     (fun t o =>
        let b := update_branch_of version in
        exists found,
          ref_lookups t = [(owner, repo, "heads/" ++ b, found)]
          /\ commands t = map (fun a => ("git", a)) (git_commands t)
          /\ if found : bool
             then exists c,
                 git_codes t = [(["push"; "origin"; "HEAD:" ++ b; "--force"], c)]
                 /\ (c <> 0%Z -> exists e, o = Threw e)
             else (exists c,
                      c <> 0%Z
                      /\ git_codes t = [(["checkout"; "-b"; b], c)]
                      /\ exists e, o = Threw e)
                  \/ (exists c,
                        git_codes t = [(["checkout"; "-b"; b], 0%Z);
                                       (["push"; "origin"; b], c)]
                        /\ (c <> 0%Z -> exists e, o = Threw e))).
Proof.
  unfold UpdateLsp.createPullRequest, exec, ref_lookups, git_codes, git_runs,
    git_commands, commands, update_branch_of.
  wp_run.
  all: repeat match goal with x : ExecOut |- _ => destruct x end; cbn in *.
  all: repeat match goal with
              | H : (_ =? 0)%Z = true |- _ => apply Z.eqb_eq in H; subst
              | H : (_ =? 0)%Z = false |- _ => apply Z.eqb_neq in H
              end.
  all: eexists; split; [reflexivity |]; split; [reflexivity |]; cbn.
  all: first
         [ eexists; split; [reflexivity |]; intro N;
           first [congruence | eexists; reflexivity]
         | left; eexists; split; [eassumption |]; split; [reflexivity |];
           eexists; reflexivity
         | right; eexists; split; [reflexivity |]; intro N;
           first [congruence | eexists; reflexivity] ].
Qed.

(** X7.  How [createPullRequest] pushes.  The run asks the platform once
    for the ref [heads/update-lsp-<version>] of the repository, and starts
    [git] processes only.  When the platform knows the ref, the only
    process is [git push origin HEAD:update-lsp-<version> --force].  When
    the lookup fails, for whatever reason, the run starts
    [git checkout -b update-lsp-<version>]: if that ends with another code
    than 0 no process follows and the run throws; if it ends with 0,
    [git push origin update-lsp-<version>], without force, follows and is
    the last.  A push that ends with another code than 0 makes the run
    throw. *)
Theorem createPullRequest_push_mode (s : St)
        (owner repo version changelog releaseUrl : string) :
  let r := interp h (UpdateLsp.createPullRequest owner repo version changelog releaseUrl) s in
  let b := update_branch_of version in
  exists found,
    ref_lookups (trace r) = [(owner, repo, "heads/" ++ b, found)]
    /\ commands (trace r) = map (fun a => ("git", a)) (git_commands (trace r))
    /\ if found : bool
       then exists c,
           git_codes (trace r) = [(["push"; "origin"; "HEAD:" ++ b; "--force"], c)]
           /\ (c <> 0%Z -> exists e, outcome r = Threw e)
       else (exists c,
                c <> 0%Z
                /\ git_codes (trace r) = [(["checkout"; "-b"; b], c)]
                /\ exists e, outcome r = Threw e)
            \/ (exists c,
                  git_codes (trace r) = [(["checkout"; "-b"; b], 0%Z);
                                         (["push"; "origin"; b], c)]
                  /\ (c <> 0%Z -> exists e, outcome r = Threw e)).
Proof.
  cbv zeta.
  exact (wp_sound_any h _ _ s
           (createPullRequest_push owner repo version changelog releaseUrl)).
Qed.

Lemma createPullRequest_one (owner repo version changelog releaseUrl : string) :
  wp any_answer (UpdateLsp.createPullRequest owner repo version changelog releaseUrl)
     (fun t o =>
        forall ref, o = Returned ref ->
          exists prs,
            branch_listings t = [(branch_query owner repo version, Ok prs)]
            /\ match prs with
               | pr :: _ =>
                   pull_updates t = [(pull_number pr, UpdateLsp.commitTitle version)]
                   /\ pull_creations t = []
                   /\ ref = UpdateLsp.mkPrRef (pull_number pr) (pull_html_url pr)
               | [] =>
                   pull_creations t
                   = [(UpdateLsp.commitTitle version, update_branch_of version, "main")]
                   /\ pull_updates t = []
                   /\ exists pr,
                        opened t = [pr]
                        /\ ref = UpdateLsp.mkPrRef (pull_number pr) (pull_html_url pr)
               end).
Proof.
  unfold UpdateLsp.createPullRequest, exec, branch_listings, branch_query, pull_updates,
    pull_creations, opened, update_branch_of.
  wp_run.
  all: cbn; intros ref Href; try discriminate; injection Href as <-;
    eexists; split; [reflexivity |]; cbn; repeat split.
  all: eexists; split; reflexivity.
Qed.

(** X8.  One pull request per update branch: a run of [createPullRequest]
    that returns has asked the platform once for the pull requests by head
    branch, and that for the open ones of the repository from
    [<owner>:update-lsp-<version>] onto [main].  When the answer is not
    empty it has retitled the first listed and opened none, and returns
    the number and url of that one; when it is empty it has asked for
    exactly one pull request, from [update-lsp-<version>] onto [main],
    titled as the commit, has changed none, and returns the number and url
    of the pull request the platform opened. *)
Theorem createPullRequest_update_or_create (s : St)
        (owner repo version changelog releaseUrl : string) (ref : UpdateLsp.PrRef) :
  let r := interp h (UpdateLsp.createPullRequest owner repo version changelog releaseUrl) s in
  outcome r = Returned ref ->
  exists prs,
    branch_listings (trace r) = [(branch_query owner repo version, Ok prs)]
    /\ match prs with
       | pr :: _ =>
           pull_updates (trace r) = [(pull_number pr, UpdateLsp.commitTitle version)]
           /\ pull_creations (trace r) = []
           /\ ref = UpdateLsp.mkPrRef (pull_number pr) (pull_html_url pr)
       | [] =>
           pull_creations (trace r)
           = [(UpdateLsp.commitTitle version, update_branch_of version, "main")]
           /\ pull_updates (trace r) = []
           /\ exists pr,
                opened (trace r) = [pr]
                /\ ref = UpdateLsp.mkPrRef (pull_number pr) (pull_html_url pr)
       end.
Proof.
  cbv zeta. intro Ho.
  exact (wp_sound_any h _ _ s
           (createPullRequest_one owner repo version changelog releaseUrl) ref Ho).
Qed.

Lemma update_branch_matches (version : string) :
  isUpdateLspBranch (Some (update_branch_of version)) = true.
Proof.
  unfold isUpdateLspBranch, update_branch_of, startsWith.
  rewrite prefix_app. reflexivity.
Qed.

Lemma createPullRequest_heads (owner repo version changelog releaseUrl : string) :
  wp any_answer (UpdateLsp.createPullRequest owner repo version changelog releaseUrl)
     (fun t o =>
        forall title head base, In (title, head, base) (pull_creations t) ->
          head = update_branch_of version /\ base = "main").
Proof.
  unfold UpdateLsp.createPullRequest, exec, pull_creations, update_branch_of.
  wp_run.
  all: cbn; intros title head base Hin; try contradiction;
    destruct Hin as [Hin | []]; injection Hin as <- <- <-; split; reflexivity.
Qed.

(** X9.  What the update opens is what the guard looks for: every pull
    request a run of [createPullRequest] asks the platform to open has
    [main] as its base and a head branch that [isUpdateLspBranch]
    recognises, whatever the version is: the test the promoter by event
    applies to the branch of a merged pull request. *)
Theorem opened_pr_is_recognised (s : St)
        (owner repo version changelog releaseUrl title head base : string) :
  let r := interp h (UpdateLsp.createPullRequest owner repo version changelog releaseUrl) s in
  In (title, head, base) (pull_creations (trace r)) ->
  isUpdateLspBranch (Some head) = true /\ base = "main".
Proof.
  cbv zeta. intro Hin.
  destruct (wp_sound_any h _ _ s
              (createPullRequest_heads owner repo version changelog releaseUrl)
              title head base Hin) as [-> ->].
  split; [apply update_branch_matches | reflexivity].
Qed.

End UpdatePullRequest.

Section WholeUpdate.
Context {St : Type} (h : Handler St).

#[local] Hint Unfold unhindered smooth cleanup_ok prerelease_for : answers.

Lemma run_up_to_date (current body : string) :
  wp (both launched
        (both (input_is "version" "")
           (both no_in_flight_pr (both (declares current) (upstream_offers current body)))))
     UpdateLsp.run
     (fun t o =>
        outputs t = [("updated", "false"); ("version", current)]
        /\ failures t = []
        /\ commands t = []
        /\ writes t = []
        /\ platform_writes t = 0%nat
        /\ o = Returned tt).
Proof.
  unfold UpdateLsp.run, UpdateLsp.checkForUpdate, findOpenLspUpdatePr, getInput,
    outputs, failures, commands, writes, platform_writes.
  wp_run; leaf.
  all: rewrite String.eqb_refl in *; discriminate.
Qed.

(** X10.  Nothing to do: when the action is launched without a manual
    version, no update pull request is open, and upstream's latest version
    is the declared one, the update action outputs [updated=false] and
    [version=<the declared version>], in this order and nothing else; it
    starts no command, writes no file, changes nothing on the platform and
    does not fail. *)
Theorem update_run_up_to_date (s : St) (current body : string) :
  let r := interp h UpdateLsp.run s in
  every (both launched
           (both (input_is "version" "")
              (both no_in_flight_pr
                 (both (declares current) (upstream_offers current body)))))
        (trace r) = true ->
  outputs (trace r) = [("updated", "false"); ("version", current)]
  /\ failures (trace r) = []
  /\ commands (trace r) = []
  /\ writes (trace r) = []
  /\ platform_writes (trace r) = 0%nat
  /\ outcome r = Returned tt.
Proof.
  cbv zeta. intro Hev.
  exact (wp_sound h _ _ _ s (run_up_to_date current body) Hev).
Qed.

Ltac unfold_update :=
  unfold UpdateLsp.run, UpdateLsp.checkForUpdate, UpdateLsp.createPrerelease,
    UpdateLsp.createPullRequest, UpdateLsp.commitChanges, UpdateLsp.updateVersionFiles,
    Lsp.buildLsp, UpdateLsp.replaceQuoted, findOpenLspUpdatePr, getInput, exec.

Lemma run_unhindered (raw : string) :
  String.eqb (trim raw) "" = false ->
  wp (both (input_is "version" raw) (both unhindered no_in_flight_pr)) UpdateLsp.run
     (fun t o =>
        let v := trim raw in
        exists owner repo rel pr,
          outputs t = [("updated", "true"); ("version", v);
                       ("pr-number", string_of_Z (pull_number pr));
                       ("pr-url", pull_html_url pr);
                       ("release-url", rel_html_url rel)]
          /\ creations t = [(prerelease_request owner repo v, Ok rel)]
          /\ (branch_listings t = [(branch_query owner repo v, Ok [])]
              /\ opened t = [pr]
              /\ pull_creations t
                 = [(UpdateLsp.commitTitle v, update_branch_of v, "main")]
              /\ pull_updates t = []
              \/ (exists rest,
                    branch_listings t = [(branch_query owner repo v, Ok (pr :: rest))])
                 /\ pull_creations t = []
                 /\ pull_updates t = [(pull_number pr, UpdateLsp.commitTitle v)])
          /\ (staged_diff t = Some 0%Z /\ commits t = []
              \/ (exists code, staged_diff t = Some code /\ code <> 0%Z)
                 /\ commits t = [["commit"; "-m"; UpdateLsp.commitTitle v]])
          /\ failures t = []).
Proof.
  intro Hm.
  unfold_update.
  unfold outputs, creations, branch_listings, branch_query, opened, pull_creations,
    pull_updates, staged_diff, git_runs, commits, git_commands, commands, failures,
    prerelease_request, update_branch_of.
  wp_run.
  all: repeat match goal with x : ExecOut |- _ => destruct x end; cbn in *.
  all: repeat match goal with
              | H : (_ =? 0)%Z = true |- _ => apply Z.eqb_eq in H; subst
              | H : (_ =? 0)%Z = false |- _ => apply Z.eqb_neq in H
              end.
  all: do 4 eexists; split; [reflexivity |]; split; [reflexivity |];
    split; [| split; [| reflexivity]].
  all: first
         [ left; repeat split; reflexivity
         | right; split; [eexists; reflexivity |]; split; reflexivity
         | left; split; reflexivity
         | right; split; [eexists; split; [reflexivity | assumption] | reflexivity] ].
Qed.

(** X11.  The whole update, when nothing fails.  With a version supplied -
    the input [version], trimmed - and no update pull request in flight,
    the update action does not fail.  It requests one prerelease on the
    tag of the version; it asks once for the open pull requests from
    [update-lsp-<version>] onto main, and opens one when there is none, or
    retitles the first listed; and it outputs [updated=true], the version,
    the number and url of that pull request - the one the platform opened,
    or the first listed - and the url the platform gave the prerelease, in
    this order.  It does so whether or not there was anything to commit:
    when [git diff --cached --quiet] ends with 0 no commit is made, and
    the run goes on all the same; the result of [commitChanges] is not
    looked at. *)
Theorem update_run_completes (s : St) (raw : string) :
  let r := interp h UpdateLsp.run s in
  let v := trim raw in
  v <> "" ->
  every (both (input_is "version" raw) (both unhindered no_in_flight_pr)) (trace r) = true ->
  exists owner repo rel pr,
    outputs (trace r) = [("updated", "true"); ("version", v);
                         ("pr-number", string_of_Z (pull_number pr));
                         ("pr-url", pull_html_url pr);
                         ("release-url", rel_html_url rel)]
    /\ creations (trace r) = [(prerelease_request owner repo v, Ok rel)]
    /\ (branch_listings (trace r) = [(branch_query owner repo v, Ok [])]
        /\ opened (trace r) = [pr]
        /\ pull_creations (trace r)
           = [(UpdateLsp.commitTitle v, update_branch_of v, "main")]
        /\ pull_updates (trace r) = []
        \/ (exists rest,
              branch_listings (trace r) = [(branch_query owner repo v, Ok (pr :: rest))])
           /\ pull_creations (trace r) = []
           /\ pull_updates (trace r) = [(pull_number pr, UpdateLsp.commitTitle v)])
    /\ (staged_diff (trace r) = Some 0%Z /\ commits (trace r) = []
        \/ (exists code, staged_diff (trace r) = Some code /\ code <> 0%Z)
           /\ commits (trace r) = [["commit"; "-m"; UpdateLsp.commitTitle v]])
    /\ failures (trace r) = [].
Proof.
  cbv zeta. intros Hv Hev.
  apply String.eqb_neq in Hv.
  exact (wp_sound h _ _ _ s (run_unhindered raw Hv) Hev).
Qed.

Lemma run_build_rejected :
  wp any_answer UpdateLsp.run
     (fun t o =>
        build_rejected t = true ->
        (exists m, failures t = [m])
        /\ outputs t = []
        /\ git_runs t = []
        /\ writes t = []
        /\ platform_writes t = 0%nat).
Proof.
  unfold_update.
  unfold build_rejected, failures, outputs, git_runs, writes, platform_writes.
  wp_run.
  all: cbn; intro H; try discriminate; repeat split; eexists; reflexivity.
Qed.

(** X12.  A failed build stops the update before anything is touched: in
    every run of the update action in which the clone or an [npm] command
    of the build is rejected, the action fails with one message, sets no
    output, runs no [git] process in the repository, rewrites no file and
    changes nothing on the platform. *)
Theorem update_run_build_failure (s : St) :
  let r := interp h UpdateLsp.run s in
  build_rejected (trace r) = true ->
  (exists m, failures (trace r) = [m])
  /\ outputs (trace r) = []
  /\ git_runs (trace r) = []
  /\ writes (trace r) = []
  /\ platform_writes (trace r) = 0%nat.
Proof.
  cbv zeta. intro Hb.
  exact (wp_sound_any h _ _ s run_build_rejected Hb).
Qed.

Lemma run_reports :
  wp any_answer UpdateLsp.run
     (fun t o =>
        o = Returned tt
        /\ (failures t = []
             /\ (output "updated" t = Some "true" \/ output "updated" t = Some "false")
            \/ (exists m, failures t = [m]) /\ outputs t = [])).
Proof.
  unfold_update.
  unfold failures, output, outputs.
  wp_run.
  all: cbn; split; [reflexivity |];
    first [ left; split; [reflexivity | tauto]
          | right; split; [eexists; reflexivity | reflexivity] ].
Qed.

(** X13.  The update action always ends, and reports one of two things:
    either it does not fail and its output [updated] is [true] or
    [false], or it fails with exactly one message and has set no output at
    all.  [run] itself never throws. *)
Theorem update_run_reports (s : St) :
  let r := interp h UpdateLsp.run s in
  outcome r = Returned tt
  /\ (failures (trace r) = []
       /\ (output "updated" (trace r) = Some "true"
           \/ output "updated" (trace r) = Some "false")
      \/ (exists m, failures (trace r) = [m]) /\ outputs (trace r) = []).
Proof.
  cbv zeta.
  exact (wp_sound_any h _ _ s run_reports).
Qed.

End WholeUpdate.

Lemma append_assoc (a b c : string) : (a ++ b) ++ c = a ++ (b ++ c).
Proof.
  induction a as [| x a IH]; [reflexivity |].
  change (String x ((a ++ b) ++ c) = String x (a ++ (b ++ c))).
  now rewrite IH.
Qed.

Section Contracts.
Context {St : Type} (h : Handler St).

Lemma commitChanges_identity (version : string) :
  wp any_answer (UpdateLsp.commitChanges version)
     (fun t o =>
        forall author msg,
          commits t = [["commit"; "-m"; msg]] ->
          configured_name t = Some author ->
          author = "github-actions[bot]" /\ msg = UpdateLsp.commitTitle version).
Proof.
  unfold UpdateLsp.commitChanges, exec, commits, configured_name, git_commands, commands.
  wp_run.
  all: cbn; intros author msg Hc Hn; try discriminate;
    injection Hc as <-; injection Hn as <-; split; reflexivity.
Qed.

Lemma verify_accepts (owner repo sha version rest : string) :
  wp (commit_is (Some "github-actions[bot]") (UpdateLsp.commitTitle version ++ rest))
     (PublishRelease.verifyLspUpdateCommit owner repo sha)
     (fun t o =>
        o = Returned (PublishRelease.mkVerification true "Commit verified as LSP update")).
Proof.
  assert (P : startsWith (UpdateLsp.commitTitle version ++ rest)
                         "chore: update language server to" = true).
  { unfold startsWith, UpdateLsp.commitTitle.
    change ("chore: update language server to v" ++ version)
      with ("chore: update language server to" ++ (" v" ++ version)).
    rewrite append_assoc. apply prefix_app. }
  unfold PublishRelease.verifyLspUpdateCommit.
  wp_run.
  all: try reflexivity.
  all: try (rewrite P in *; discriminate).
  all: try discriminate.
Qed.

(** X14.  The committer and the verifier agree.  The commit that
    [commitChanges] makes carries the author name it configured,
    [github-actions[bot]], and the title [chore: update language server to
    v<version>]; and [verifyLspUpdateCommit] accepts every commit of that
    author whose message starts with that title, whatever the version and
    whatever follows the title (the number a squash merge appends, more
    paragraphs). *)
Theorem committed_bump_is_verified (s s' : St) (version owner repo sha author msg rest : string) :
  let c := interp h (UpdateLsp.commitChanges version) s in
  let v := interp h (PublishRelease.verifyLspUpdateCommit owner repo sha) s' in
  commits (trace c) = [["commit"; "-m"; msg]] ->
  configured_name (trace c) = Some author ->
  every (commit_is (Some author) (msg ++ rest)) (trace v) = true ->
  outcome v = Returned (PublishRelease.mkVerification true "Commit verified as LSP update").
Proof.
  cbv zeta. intros Hc Hn Hev.
  destruct (wp_sound_any h _ _ s (commitChanges_identity version) author msg Hc Hn)
    as [-> ->].
  exact (wp_sound h _ _ _ s' (verify_accepts owner repo sha version rest) Hev).
Qed.

End Contracts.

Section RebaseOutcomes.
Context {St : Type} (h : Handler St).

Lemma rebase_run_reports :
  wp any_answer RebaseLspPr.run
     (fun t o =>
        o = Returned tt
        /\ (output "rebased" t = Some "true" \/ output "rebased" t = Some "false")
        /\ (forall m, In m (failures t) ->
              failures t = [m] /\ output "error" t = Some m
              /\ output "rebased" t = Some "false")
        /\ (output "rebased" t = Some "true" ->
            failures t = [] /\ warnings t = [] /\ output "error" t = Some ""
            /\ exists b, pushes t = [(["push"; "--force-with-lease"; "origin"; "HEAD:" ++ b], 0%Z)]
                         /\ output "branch" t = Some b)).
Proof.
  unfold RebaseLspPr.run, findOpenLspUpdatePr, getInput, exec,
    output, outputs, failures, warnings, pushes, git_runs.
  wp_run.
  all: cbn; split; [reflexivity |]; split; [tauto |]; split.
  all: try (intros m [<- | []]; repeat split; reflexivity).
  all: try (intros m []).
  all: try (intro H; discriminate H).
  all: intros _;
    repeat match goal with
           | H : (exitCode _ =? 0)%Z = true |- _ => apply Z.eqb_eq in H; rewrite H
           end;
    repeat split; eexists; split; reflexivity.
Qed.

(** X15.  What the Rebase Keeper reports.  Every run ends normally with the
    output [rebased] set, to [true] or [false].  A run that fails fails
    with one message, which is also its output [error], and reports
    [rebased=false].  A run that reports [rebased=true] has not failed and
    not warned, has [error] empty, and has pushed exactly once, with
    [--force-with-lease] onto the branch it reports, that push having
    ended with 0. *)
Theorem rebase_keeper_reports (s : St) :
  let r := interp h RebaseLspPr.run s in
  outcome r = Returned tt
  /\ (output "rebased" (trace r) = Some "true" \/ output "rebased" (trace r) = Some "false")
  /\ (forall m, In m (failures (trace r)) ->
        failures (trace r) = [m] /\ output "error" (trace r) = Some m
        /\ output "rebased" (trace r) = Some "false")
  /\ (output "rebased" (trace r) = Some "true" ->
      failures (trace r) = [] /\ warnings (trace r) = []
      /\ output "error" (trace r) = Some ""
      /\ exists b,
           pushes (trace r)
           = [(["push"; "--force-with-lease"; "origin"; "HEAD:" ++ b], 0%Z)]
           /\ output "branch" (trace r) = Some b).
Proof.
  cbv zeta.
  exact (wp_sound_any h _ _ s rebase_run_reports).
Qed.

Lemma rebase_run_no_pr :
  wp any_answer RebaseLspPr.run
     (fun t o =>
        open_update_pr t = Some None ->
        outputs t = [("found", "false"); ("rebased", "false")]
        /\ git_commands t = preamble
        /\ failures t = [] /\ warnings t = []).
Proof.
  unfold RebaseLspPr.run, findOpenLspUpdatePr, getInput, exec,
    open_update_pr, outputs, failures, warnings, git_commands, commands, preamble.
  wp_run.
  all: cbn; intro H; try discriminate; try (rewrite E in H; discriminate).
  all: repeat split.
Qed.

(** X16.  No pull request to keep: a run of the Rebase Keeper whose lookup
    finds no open pull request on an [update-lsp-*] branch outputs
    [found=false] and [rebased=false] and nothing else, has run only the
    two [git config] and the fetch of main, and neither fails nor warns. *)
Theorem rebase_keeper_nothing_open (s : St) :
  let r := interp h RebaseLspPr.run s in
  open_update_pr (trace r) = Some None ->
  outputs (trace r) = [("found", "false"); ("rebased", "false")]
  /\ git_commands (trace r) = preamble
  /\ failures (trace r) = [] /\ warnings (trace r) = [].
Proof.
  cbv zeta. intro Hp.
  exact (wp_sound_any h _ _ s rebase_run_no_pr Hp).
Qed.

Lemma rebase_run_push_rejected :
  wp any_answer RebaseLspPr.run
     (fun t o =>
        forall a c, In (a, c) (pushes t) -> c <> 0%Z ->
          warnings t = [RebaseLspPr.pushMsg]
          /\ failures t = []
          /\ output "rebased" t = Some "false"
          /\ output "error" t = Some RebaseLspPr.pushMsg
          /\ pushes t = [(a, c)]
          /\ existsb (fun r => is_abort (fst r)) (git_runs t) = false).
Proof.
  unfold RebaseLspPr.run, findOpenLspUpdatePr, getInput, exec,
    output, outputs, failures, warnings, pushes, git_runs.
  wp_run.
  all: cbn; intros a c Hin Hc; try contradiction.
  all: destruct Hin as [Hin | []]; injection Hin as <- <-.
  all: try (match goal with
              | H : (?c =? 0)%Z = true, N : ?c <> 0%Z |- _ =>
                  apply Z.eqb_eq in H; contradiction
              end).
  all: repeat split.
Qed.

(** X17.  A rejected push is a warning, not a failure, and nothing is
    undone: in every run of the Rebase Keeper whose push ends with a
    non-zero code, the run warns [Failed to push rebased branch - branch
    may have been updated], does not fail, reports [rebased=false] with
    that text as [error], has pushed once and only once, and has not
    aborted the rebase - the local branch stays rebased. *)
Theorem rebase_keeper_push_rejected (s : St) (a : list string) (c : Z) :
  let r := interp h RebaseLspPr.run s in
  In (a, c) (pushes (trace r)) -> c <> 0%Z ->
  warnings (trace r) = [RebaseLspPr.pushMsg]
  /\ failures (trace r) = []
  /\ output "rebased" (trace r) = Some "false"
  /\ output "error" (trace r) = Some RebaseLspPr.pushMsg
  /\ pushes (trace r) = [(a, c)]
  /\ existsb (fun r => is_abort (fst r)) (git_runs (trace r)) = false.
Proof.
  cbv zeta. intros Hin Hc.
  exact (wp_sound_any h _ _ s rebase_run_push_rejected a c Hin Hc).
Qed.

End RebaseOutcomes.

Section Promoters.
Context {St : Type} (h : Handler St).

#[local] Hint Unfold promotion_accepted prerelease_for : answers.

Ltac unfold_promoters :=
  unfold promoter_run, PublishRelease.run, PublishFromScratch.run, PromotePrerelease.run,
    PublishRelease.verifyLspUpdateCommit, PublishRelease.findPrerelease,
    PublishRelease.getReleaseBody, PublishRelease.promotePrerelease,
    PromotePrerelease.promotePrerelease, PublishRelease.createReleaseFromScratch,
    Lsp.buildLsp, getInput.

Ltac promotable_found :=
  match goal with
  | E : find (PublishRelease.promotable ?v) ?l = Some ?r |- _ =>
      let Hin := fresh "Hin" in
      let Hp := fresh "Hp" in
      let Ht := fresh "Ht" in
      apply find_some in E; destruct E as [Hin Hp];
      unfold PublishRelease.promotable in Hp;
      apply andb_prop in Hp; destruct Hp as [Hp Ht];
      apply String.eqb_eq in Ht
  end.

Lemma promoter_updates_listed (p : Promoter) :
  wp any_answer (promoter_run p)
     (fun t o =>
        forall u, In u (updates t) ->
          ur_draft u = false /\ ur_prerelease u = false
          /\ exists r, In r (listed_releases t)
                       /\ rel_id r = ur_release_id u
                       /\ (rel_prerelease r || rel_draft r) = true
                       /\ ur_name u = "v" ++ rel_tag_name r).
Proof.
  destruct p as [| | eventName pull_request]; unfold_promoters;
    unfold updates, listed_releases.
  all: wp_run.
  all: cbn; intros u Hu; try contradiction; destruct Hu as [<- | []]; cbn.
  all: promotable_found.
  all: split; [reflexivity |]; split; [reflexivity |].
  all: match goal with Hin : In ?r _ |- _ => exists r end.
  all: rewrite app_nil_r, Ht; repeat split; assumption.
Qed.

(** X18.  Only a listed prerelease or draft is ever promoted.  In every run
    of each of the three promoters - behind the Commit Verifier, without
    it, and by event - every update of a release the run asks for sets
    [draft=false] and [prerelease=false], targets the id of a release that
    the platform listed in this run as a prerelease or a draft, and names
    it [v] followed by the tag of that release. *)
Theorem promoters_update_only_listed (s : St) (p : Promoter) (u : UpdateReleaseParams) :
  let r := interp h (promoter_run p) s in
  In u (updates (trace r)) ->
  ur_draft u = false /\ ur_prerelease u = false
  /\ exists rel, In rel (listed_releases (trace r))
                 /\ rel_id rel = ur_release_id u
                 /\ (rel_prerelease rel || rel_draft rel) = true
                 /\ ur_name u = "v" ++ rel_tag_name rel.
Proof.
  cbv zeta. intro Hu.
  exact (wp_sound_any h _ _ s (promoter_updates_listed p) u Hu).
Qed.

Lemma promoter_promotes (p : Promoter) (author : option string)
      (message version : string) :
  passes p author message = true ->
  wp (both launched
        (both (commit_is author message)
           (both (extension_at version)
              (both (prerelease_for version) promotion_accepted))))
     (promoter_run p)
     (fun t o =>
        exists owner repo pre body rel,
          In pre (listed_releases t)
          /\ PublishRelease.promotable version pre = true
          /\ promotions t
             = [(mkUpdateReleaseParams owner repo (rel_id pre) ("v" ++ version)
                                       body false false, Ok rel)]
          /\ output "promoted" t = Some "true"
          /\ output "release-id" t = Some (string_of_Z (rel_id rel))
          /\ output "release-url" t = Some (rel_html_url rel)
          /\ creations t = []
          /\ commands t = []
          /\ shell_commands t = []
          /\ failures t = []).
Proof.
  intro Hp.
  destruct p as [| | eventName pull_request]; unfold_promoters;
    unfold passes, goes_on, mismatch, template in Hp;
    unfold promotions, listed_releases, output, outputs, creations, commands,
      shell_commands, failures.
  all: wp_run.
  all: try (rewrite ?E, ?E0, ?E1, ?E2 in Hp; discriminate Hp).
  all: try (destruct pull_request as [pr |]; cbn in *; try discriminate;
            rewrite ?E0, ?E1, ?E2 in Hp; discriminate Hp).
  all: cbn.
  all: match goal with
       | F : find (PublishRelease.promotable ?v) ?l = Some ?r |- _ =>
           pose proof (find_some _ _ F) as [Hin Hpr];
           exists s, s0, r
       end.
  all: do 2 eexists; rewrite app_nil_r; repeat split; try eassumption; reflexivity.
Qed.

(** X19.  Promotion in place.  For each of the three promoters, once it is
    let through - the commit is a verified version bump for the promoter
    behind the Commit Verifier, the event is a manual dispatch or a merged
    pull request from an [update-lsp-*] branch for the promoter by event -
    and the platform lists a prerelease or draft on the tag of the
    declared version and accepts its update: the run asks for one update
    of a release, that of the listed one to [v<version>] with
    [draft=false] and [prerelease=false], and outputs [promoted=true] with,
    as [release-id] and [release-url], the id and url of the release the
    platform answered that update with; it creates no release, builds
    nothing and does not fail. *)
Theorem promotion_in_place (s : St) (p : Promoter) (author : option string)
        (message version : string) :
  let r := interp h (promoter_run p) s in
  passes p author message = true ->
  every (both launched
           (both (commit_is author message)
              (both (extension_at version)
                 (both (prerelease_for version) promotion_accepted))))
        (trace r) = true ->
  exists owner repo pre body rel,
    In pre (listed_releases (trace r))
    /\ PublishRelease.promotable version pre = true
    /\ promotions (trace r)
       = [(mkUpdateReleaseParams owner repo (rel_id pre) ("v" ++ version)
                                 body false false, Ok rel)]
    /\ output "promoted" (trace r) = Some "true"
    /\ output "release-id" (trace r) = Some (string_of_Z (rel_id rel))
    /\ output "release-url" (trace r) = Some (rel_html_url rel)
    /\ creations (trace r) = []
    /\ commands (trace r) = []
    /\ shell_commands (trace r) = []
    /\ failures (trace r) = [].
Proof.
  cbv zeta. intros Hp Hev.
  exact (wp_sound h _ _ _ s (promoter_promotes p author message version Hp) Hev).
Qed.

Lemma by_event_skips (eventName : string)
      (pull_request : option PromotePrerelease.PullRequestPayload) :
  goes_on eventName pull_request = false ->
  wp launched (PromotePrerelease.run eventName pull_request)
     (fun t o =>
        exists reason,
          outputs t = [("skipped", "true"); ("reason", reason)]
          /\ (eventName <> "pull_request" -> reason = "Unsupported event: " ++ eventName)
          /\ (eventName = "pull_request" ->
              match pull_request with
              | None => reason = "PR was not merged"
              | Some pr =>
                  if PromotePrerelease.merged pr
                  then reason = "Not an update-lsp-* branch: "
                                ++ PromotePrerelease.show_branch (PromotePrerelease.head_ref pr)
                  else reason = "PR was not merged"
              end)
          /\ version_lookups t = 0%nat
          /\ release_listings t = 0%nat
          /\ platform_writes t = 0%nat
          /\ failures t = []
          /\ o = Returned tt).
Proof.
  intro Hg. unfold goes_on in Hg.
  unfold PromotePrerelease.run, getInput, outputs, version_lookups, release_listings,
    platform_writes, failures.
  wp_run.
  all: try (rewrite ?E0, ?E1, ?E2 in Hg; discriminate Hg).
  all: cbn in Hg; try discriminate Hg.
  all: cbn; eexists; split; [reflexivity |].
  all: split; [intro H; try reflexivity; try (now contradiction H) |].
  all: split; [intro H; try discriminate H; try reflexivity;
               try (rewrite ?E0, ?E1, ?E2; reflexivity);
               try (subst eventName; discriminate) |].
  all: repeat split.
Qed.

(** X20.  The gate of the promoter by event.  On any event that is neither
    a manual dispatch nor a merged pull request from an [update-lsp-*]
    branch, the launched promoter outputs [skipped=true] and a reason and
    nothing else, without reading the manifest, listing the releases or
    changing anything on the platform, and does not fail.  The reason is
    [Unsupported event: <event>] for an event other than [pull_request];
    for a pull request it is [PR was not merged] when the payload has no
    pull request or an unmerged one, and [Not an update-lsp-* branch:
    <branch>] when the merged branch does not match. *)
Theorem promoter_by_event_gate (s : St) (eventName : string)
        (pull_request : option PromotePrerelease.PullRequestPayload) :
  let r := interp h (PromotePrerelease.run eventName pull_request) s in
  goes_on eventName pull_request = false ->
  every launched (trace r) = true ->
  exists reason,
    outputs (trace r) = [("skipped", "true"); ("reason", reason)]
    /\ (eventName <> "pull_request" -> reason = "Unsupported event: " ++ eventName)
    /\ (eventName = "pull_request" ->
        match pull_request with
        | None => reason = "PR was not merged"
        | Some pr =>
            if PromotePrerelease.merged pr
            then reason = "Not an update-lsp-* branch: "
                          ++ PromotePrerelease.show_branch (PromotePrerelease.head_ref pr)
            else reason = "PR was not merged"
        end)
    /\ version_lookups (trace r) = 0%nat
    /\ release_listings (trace r) = 0%nat
    /\ platform_writes (trace r) = 0%nat
    /\ failures (trace r) = []
    /\ outcome r = Returned tt.
Proof.
  cbv zeta. intros Hg Hev.
  exact (wp_sound h _ _ _ s (by_event_skips eventName pull_request Hg) Hev).
Qed.

Lemma promoter_never_builds (p : Promoter) :
  p <> Ungated ->
  wp any_answer (promoter_run p)
     (fun t o =>
        o = Returned tt
        /\ creations t = []
        /\ commands t = []
        /\ shell_commands t = []
        /\ writes t = []
        /\ (List.length (updates t) <= 1)%nat).
Proof.
  intro Hp.
  destruct p as [| | eventName pull_request]; [| now contradiction Hp |];
    unfold_promoters; unfold creations, commands, shell_commands, writes, updates.
  all: wp_run.
  all: cbn; repeat split; auto.
Qed.

(** X21.  The promoter behind the Commit Verifier and the promoter by
    event never build and never create: every run of either ends normally,
    asks the platform for no new release, starts no command, writes no
    file, and updates at most one release - [createReleaseFromScratch],
    which the first still defines, is never reached from its [run]. *)
Theorem gated_promoters_never_build (s : St) (p : Promoter) :
  let r := interp h (promoter_run p) s in
  p <> Ungated ->
  outcome r = Returned tt
  /\ creations (trace r) = []
  /\ commands (trace r) = []
  /\ shell_commands (trace r) = []
  /\ writes (trace r) = []
  /\ (List.length (updates (trace r)) <= 1)%nat.
Proof.
  cbv zeta. intro Hp.
  exact (wp_sound_any h _ _ s (promoter_never_builds p Hp)).
Qed.

Lemma or_else_filled (a b : string) : b <> "" -> or_else a b <> "".
Proof.
  intro Hb. unfold or_else. destruct (String.eqb_spec a ""); assumption.
Qed.

Lemma default_body_filled (version : string) : "Release v" ++ version <> "".
Proof. intro H. cbv in H. discriminate H. Qed.

Lemma getReleaseBody_total (version : string) :
  wp any_answer (PublishRelease.getReleaseBody version)
     (fun t o =>
        exists body,
          o = Returned body
          /\ body <> ""
          /\ reads t = ["CHANGELOG.md"]
          /\ (changelog_unreadable t = true -> body = "Release v" ++ version)).
Proof.
  unfold PublishRelease.getReleaseBody, reads, changelog_unreadable.
  wp_run.
  all: cbn; eexists; split; [reflexivity |]; split;
    [first [apply or_else_filled; apply default_body_filled | apply default_body_filled] |].
  all: split; [reflexivity |]; intro H; try discriminate H; reflexivity.
Qed.

(** X22.  The body of a release is never missing: [getReleaseBody] reads
    [CHANGELOG.md] once and nothing else, never throws, and never returns
    the empty string; when the changelog cannot be read, whatever the
    error, the body is [Release v<version>]. *)
Theorem release_body_never_missing (s : St) (version : string) :
  let r := interp h (PublishRelease.getReleaseBody version) s in
  exists body,
    outcome r = Returned body
    /\ body <> ""
    /\ reads (trace r) = ["CHANGELOG.md"]
    /\ (changelog_unreadable (trace r) = true -> body = "Release v" ++ version).
Proof.
  cbv zeta.
  exact (wp_sound_any h _ _ s (getReleaseBody_total version)).
Qed.

End Promoters.

Section Changelog.

Lemma bodyLinesOf_capped (lines : list string) (inSection : bool) (acc : list string) :
  (List.length acc < 20)%nat ->
  (List.length (PublishRelease.bodyLinesOf lines inSection acc) <= 20)%nat.
Proof.
  revert inSection acc.
  induction lines as [| line rest IH]; intros inSection acc Hacc;
    unfold PublishRelease.bodyLinesOf; fold PublishRelease.bodyLinesOf.
  - lia.
  - destruct (startsWith line "## ").
    + destruct inSection; [lia | apply IH; exact Hacc].
    + destruct inSection; [| apply IH; exact Hacc].
      destruct (20 <=? List.length (acc ++ [line]))%nat eqn:E.
      * rewrite length_app. cbn. lia.
      * apply IH. apply Nat.leb_gt in E. exact E.
Qed.

Lemma bodyLinesOf_from (lines : list string) (inSection : bool) (acc : list string)
      (l : string) :
  In l (PublishRelease.bodyLinesOf lines inSection acc) ->
  In l acc \/ (In l lines /\ is_heading l = false).
Proof.
  revert inSection acc.
  induction lines as [| line rest IH]; intros inSection acc;
    unfold PublishRelease.bodyLinesOf; fold PublishRelease.bodyLinesOf.
  - tauto.
  - destruct (startsWith line "## ") eqn:Hh.
    + destruct inSection; [tauto |].
      intro H. destruct (IH _ _ H) as [? | [? ?]]; [tauto | right; split; [now right | assumption]].
    + assert (Hstep : forall a, In l (acc ++ [line]) \/ a ->
                                (a -> In l rest /\ is_heading l = false) ->
                                In l acc \/ In l (line :: rest) /\ is_heading l = false).
      { intros a [H | H] Ha.
        - apply in_app_or in H. destruct H as [H | [<- | []]]; [tauto |].
          right. split; [now left | exact Hh].
        - destruct (Ha H) as [? ?]. right. split; [now right | assumption]. }
      destruct inSection.
      * destruct (20 <=? List.length (acc ++ [line]))%nat.
        -- intro H. apply (Hstep False); tauto.
        -- intro H. destruct (IH _ _ H) as [H' | H'].
           ++ apply (Hstep False); tauto.
           ++ apply (Hstep (In l rest /\ is_heading l = false)); tauto.
      * intro H. destruct (IH _ _ H) as [? | [? ?]]; [tauto |].
        right. split; [now right | assumption].
Qed.

Lemma bodyLinesOf_outside (lines : list string) (acc : list string) :
  forallb (fun l => negb (is_heading l)) lines = true ->
  PublishRelease.bodyLinesOf lines false acc = acc.
Proof.
  induction lines as [| line rest IH]; intro H;
    unfold PublishRelease.bodyLinesOf; fold PublishRelease.bodyLinesOf.
  - reflexivity.
  - cbn in H. apply andb_prop in H. destruct H as [Hl Hr].
    unfold is_heading in Hl. apply negb_true_iff in Hl. rewrite Hl.
    apply IH. exact Hr.
Qed.

(** X23.  The section of the changelog that becomes the body of a release:
    the loop of [getReleaseBody] keeps at most 20 lines; every line it
    keeps is a line of the changelog that is not a heading [## ...]; and
    it keeps nothing when the changelog has no such heading. *)
Theorem changelog_section_bounds (lines : list string) :
  let body := PublishRelease.bodyLinesOf lines false [] in
  (List.length body <= 20)%nat
  /\ (forall l, In l body -> In l lines /\ is_heading l = false)
  /\ (forallb (fun l => negb (is_heading l)) lines = true -> body = []).
Proof.
  cbv zeta. split; [| split].
  - apply bodyLinesOf_capped. cbn. lia.
  - intros l Hl. destruct (bodyLinesOf_from _ _ _ _ Hl) as [[] | H]. exact H.
  - apply bodyLinesOf_outside.
Qed.

End Changelog.

Section Launch.
Context {St : Type} (h : Handler St).

Lemma run_without_token (a : Action) :
  wp (input_is "github-token" "") (action_run a)
     (fun t o =>
        failures t = ["Input required and not supplied: github-token"]
        /\ forallb is_report t = true
        /\ (outputs t = []
            \/ outputs t = [("rebased", "false");
                            ("error", "Input required and not supplied: github-token")])
        /\ o = Returned tt).
Proof.
  destruct a as [| | [| | eventName pull_request]];
    unfold action_run, promoter_run, UpdateLsp.run, RebaseLspPr.run, PublishRelease.run,
      PublishFromScratch.run, PromotePrerelease.run, getInput, failures, outputs.
  all: wp_run.
  all: cbn; repeat split; first [reflexivity | left; reflexivity | right; reflexivity].
Qed.

(** X24.  No token, no action.  When the input [github-token] is empty,
    each of the actions - the update, the Rebase Keeper and the three
    promoters - fails with [Input required and not supplied: github-token]
    and ends normally having done nothing but read the input and report:
    no command, no file, no call to the platform.  Only the Rebase Keeper
    sets outputs then, [rebased=false] and the message as [error]. *)
Theorem action_needs_token (s : St) (a : Action) :
  let r := interp h (action_run a) s in
  every (input_is "github-token" "") (trace r) = true ->
  failures (trace r) = ["Input required and not supplied: github-token"]
  /\ forallb is_report (trace r) = true
  /\ (outputs (trace r) = []
      \/ outputs (trace r) = [("rebased", "false");
                              ("error", "Input required and not supplied: github-token")])
  /\ outcome r = Returned tt.
Proof.
  cbv zeta. intro Hev.
  exact (wp_sound h _ _ _ s (run_without_token a) Hev).
Qed.

End Launch.

Section Checksum.
Context {St : Type} (h : Handler St).

Lemma createPrerelease_checksum (owner repo version : string) :
  wp any_answer (UpdateLsp.createPrerelease owner repo version)
     (fun t o =>
        forall data rest,
          sent_assets t = (UpdateLsp.tarballName version, data) :: rest ->
          exists digest,
            hashed t = [(data, digest)]
            /\ file_writes t
               = [(UpdateLsp.sha256Name version,
                   digest ++ "  " ++ UpdateLsp.tarballName version ++ nl)]
            /\ hd_error (file_reads t) = Some (UpdateLsp.tarballName version, data)).
Proof.
  unfold UpdateLsp.createPrerelease, sent_assets, hashed, file_writes, file_reads.
  wp_run.
  all: cbn; intros data rest H; try discriminate H; injection H as <- <-.
  all: eexists; repeat split.
Qed.

(** X25.  The checksum is of the bytes that are uploaded: in every run of
    [createPrerelease] that sends the tarball to the platform, the data
    sent is what the one read of the tarball returned, the SHA-256 digest
    was computed once, of that very data, and the checksum file was
    written as the digest, two spaces, the name of the tarball and a line
    feed. *)
Theorem prerelease_checksum_matches_upload (s : St) (owner repo version data : string)
        (rest : list (string * string)) :
  let r := interp h (UpdateLsp.createPrerelease owner repo version) s in
  sent_assets (trace r) = (UpdateLsp.tarballName version, data) :: rest ->
  exists digest,
    hashed (trace r) = [(data, digest)]
    /\ file_writes (trace r)
       = [(UpdateLsp.sha256Name version,
           digest ++ "  " ++ UpdateLsp.tarballName version ++ nl)]
    /\ hd_error (file_reads (trace r)) = Some (UpdateLsp.tarballName version, data).
Proof.
  cbv zeta. intro Hs.
  exact (wp_sound_any h _ _ s (createPrerelease_checksum owner repo version) data rest Hs).
Qed.

End Checksum.

Section BuildAction.
Context {St : Type} (h : Handler St).

Lemma build_run_reports :
  wp any_answer BuildLsp.run
     (fun t o =>
        o = Returned tt
        /\ (failures t = []
             /\ output "lsp-path" t = Some "lsp"
             /\ (output "committed" t = Some "true" /\ List.length (commits t) = 1%nat
                 \/ output "committed" t = Some "false" /\ commits t = [])
            \/ (exists m, failures t = [m]) /\ outputs t = [])).
Proof.
  unfold BuildLsp.run, Lsp.buildLsp, getInput, failures, output, outputs, commits,
    git_commands, commands.
  wp_run.
  all: cbn; split; [reflexivity |].
  all: first [ right; split; [eexists; reflexivity | reflexivity]
             | left; split; [reflexivity |]; split; [reflexivity |];
               first [left; split; reflexivity | right; split; reflexivity] ].
Qed.

(** X26.  What the build action reports.  Every run of the build action
    ends normally.  Either it does not fail, and then it outputs
    [lsp-path=lsp] and [committed], which is [true] exactly when it made
    its one commit and [false] when it made none; or it fails with one
    message and has set no output. *)
Theorem build_action_reports (s : St) :
  let r := interp h BuildLsp.run s in
  outcome r = Returned tt
  /\ (failures (trace r) = []
       /\ output "lsp-path" (trace r) = Some "lsp"
       /\ (output "committed" (trace r) = Some "true"
           /\ List.length (commits (trace r)) = 1%nat
           \/ output "committed" (trace r) = Some "false" /\ commits (trace r) = [])
      \/ (exists m, failures (trace r) = [m]) /\ outputs (trace r) = []).
Proof.
  cbv zeta.
  exact (wp_sound_any h _ _ s build_run_reports).
Qed.

End BuildAction.

(** * The further properties at work *)

(** X1 at work: the build of 1.3.0 in a fresh temporary directory. *)
Lemma buildLsp_removes_tempdir_witness :
  let r := interp World.handle (Lsp.buildLsp Scenario.v130 "lsp") Scenario.base in
  made_tempdir (trace r) = Some "/tmp/vscode-stylelint-Ab12Cd"
  /\ ends_with_rmrf "/tmp/vscode-stylelint-Ab12Cd" (trace r) = true.
Proof.
  cbv zeta.
  assert (H : made_tempdir
                (trace (interp World.handle (Lsp.buildLsp Scenario.v130 "lsp")
                               Scenario.base))
              = Some "/tmp/vscode-stylelint-Ab12Cd") by (vm_compute; reflexivity).
  split; [exact H |].
  exact (proj1 (buildLsp_removes_tempdir World.handle Scenario.base Scenario.v130 "lsp"
                  "/tmp/vscode-stylelint-Ab12Cd" H)).
Defined.

(** X2 at work: the same build returns the one file of the bundle. *)
Lemma buildLsp_returns_files_witness :
  let r := interp World.handle (Lsp.buildLsp Scenario.v130 "lsp") Scenario.base in
  outcome r = Returned (Lsp.mkBuildLspResult "lsp" ["start-server.js"])
  /\ exec_rejected (trace r) = false.
Proof.
  cbv zeta.
  assert (H : outcome (interp World.handle (Lsp.buildLsp Scenario.v130 "lsp")
                              Scenario.base)
              = Returned (Lsp.mkBuildLspResult "lsp" ["start-server.js"]))
    by (vm_compute; reflexivity).
  split; [exact H |].
  exact (proj2 (proj2 (proj2 (buildLsp_returns_files World.handle Scenario.base
                                Scenario.v130 "lsp" _ H)))).
Defined.

(** X3 at work: a build that leaves no [dist]. *)
Lemma buildLsp_build_errors_witness :
  let r := interp World.handle (Lsp.buildLsp Scenario.v130 "lsp") Cases.empty_build in
  every cleanup_ok (trace r) = true
  /\ dist_unusable (trace r) = true
  /\ exists dist,
       outcome r = Threw (ErrorObj ("dist directory not found after build at " ++ dist)).
Proof.
  cbv zeta.
  assert (H : every cleanup_ok
                (trace (interp World.handle (Lsp.buildLsp Scenario.v130 "lsp")
                               Cases.empty_build)) = true) by (vm_compute; reflexivity).
  assert (D : dist_unusable
                (trace (interp World.handle (Lsp.buildLsp Scenario.v130 "lsp")
                               Cases.empty_build)) = true) by (vm_compute; reflexivity).
  split; [exact H |]. split; [exact D |].
  exact (proj1 (proj2 (buildLsp_build_errors World.handle Cases.empty_build
                         Scenario.v130 "lsp" H)) D).
Defined.

(** X4 at work: [npm ci] ends with 1. *)
Lemma buildLsp_failure_keeps_output_witness :
  let r := interp World.handle (Lsp.buildLsp Scenario.v130 "lsp") Cases.npm_down in
  exec_rejected (trace r) = true /\ copies (trace r) = [].
Proof.
  cbv zeta.
  assert (H : exec_rejected
                (trace (interp World.handle (Lsp.buildLsp Scenario.v130 "lsp")
                               Cases.npm_down)) = true) by (vm_compute; reflexivity).
  split; [exact H |].
  exact (proj1 (buildLsp_failure_keeps_output World.handle Cases.npm_down
                  Scenario.v130 "lsp" H)).
Defined.

(** X5 at work: a workspace without [src/config.rs]. *)
Lemma updateVersionFiles_config_optional_witness :
  let r := interp World.handle (UpdateLsp.updateVersionFiles Scenario.v130)
                  Scenario.base in
  every manifests_ok (trace r) = true /\ outcome r = Returned tt.
Proof.
  cbv zeta.
  assert (H : every manifests_ok
                (trace (interp World.handle (UpdateLsp.updateVersionFiles Scenario.v130)
                               Scenario.base)) = true) by (vm_compute; reflexivity).
  split; [exact H |].
  exact (proj1 (updateVersionFiles_config_optional World.handle Scenario.base
                  Scenario.v130 H)).
Defined.

(** X6 at work: a workspace without [Cargo.toml]; [extension.toml] is
    rewritten before the failure. *)
Lemma updateVersionFiles_failure_is_partial_witness :
  let r := interp World.handle (UpdateLsp.updateVersionFiles Scenario.v130)
                  Cases.no_cargo in
  outcome r = Threw (World.enoent "Cargo.toml")
  /\ written (trace r) = ["extension.toml"]
  /\ (written (trace r) = [] \/ written (trace r) = ["extension.toml"]).
Proof.
  cbv zeta.
  assert (H : outcome (interp World.handle (UpdateLsp.updateVersionFiles Scenario.v130)
                              Cases.no_cargo)
              = Threw (World.enoent "Cargo.toml")) by (vm_compute; reflexivity).
  split; [exact H |]. split; [vm_compute; reflexivity |].
  exact (updateVersionFiles_failure_is_partial World.handle Cases.no_cargo
           Scenario.v130 _ H).
Defined.

(** X7 at work: the branch of the update to 1.3.0 is not on the remote
    yet, and is already there. *)
Lemma createPullRequest_push_mode_witness :
  let request := UpdateLsp.createPullRequest Scenario.owner Scenario.repo Scenario.v130
                                             "notes" "url" in
  let r := interp World.handle request Scenario.base in
  let r' := interp World.handle request Cases.pushed in
  (exists c,
      git_codes (trace r)
      = [(["checkout"; "-b"; update_branch_of Scenario.v130], 0%Z);
         (["push"; "origin"; update_branch_of Scenario.v130], c)])
  /\ exists c,
       git_codes (trace r')
       = [(["push"; "origin"; "HEAD:" ++ update_branch_of Scenario.v130; "--force"], c)].
Proof.
  cbv zeta. split.
  - destruct (createPullRequest_push_mode World.handle Scenario.base Scenario.owner
                Scenario.repo Scenario.v130 "notes" "url") as (found & Hl & _ & Hf).
    destruct found.
    + vm_compute in Hl. discriminate Hl.
    + destruct Hf as [(c & _ & Hg & _) | (c & Hg & _)].
      * vm_compute in Hg. discriminate Hg.
      * exists c. exact Hg.
  - destruct (createPullRequest_push_mode World.handle Cases.pushed Scenario.owner
                Scenario.repo Scenario.v130 "notes" "url") as (found & Hl & _ & Hf).
    destruct found.
    + destruct Hf as (c & Hg & _). exists c. exact Hg.
    + vm_compute in Hl. discriminate Hl.
Defined.

(** X8 at work: no pull request is open on the branch yet. *)
Lemma createPullRequest_update_or_create_witness :
  let r := interp World.handle
             (UpdateLsp.createPullRequest Scenario.owner Scenario.repo Scenario.v130
                                          "notes" "url")
             Scenario.base in
  outcome r = Returned (UpdateLsp.mkPrRef 1
                          "https://github.com/florian-sanders/zed-stylelint/pull/1")
  /\ exists prs,
       branch_listings (trace r)
       = [(branch_query Scenario.owner Scenario.repo Scenario.v130, Ok prs)].
Proof.
  cbv zeta.
  assert (H : outcome (interp World.handle
                         (UpdateLsp.createPullRequest Scenario.owner Scenario.repo
                                                      Scenario.v130 "notes" "url")
                         Scenario.base)
              = Returned (UpdateLsp.mkPrRef 1
                            "https://github.com/florian-sanders/zed-stylelint/pull/1"))
    by (vm_compute; reflexivity).
  split; [exact H |].
  destruct (createPullRequest_update_or_create World.handle Scenario.base Scenario.owner
              Scenario.repo Scenario.v130 "notes" "url" _ H) as [prs [Hp _]].
  exists prs. exact Hp.
Defined.

(** X9 at work: the pull request opened for 1.3.0. *)
Lemma opened_pr_is_recognised_witness :
  let r := interp World.handle
             (UpdateLsp.createPullRequest Scenario.owner Scenario.repo Scenario.v130
                                          "notes" "url")
             Scenario.base in
  In ("chore: update language server to v1.3.0", "update-lsp-1.3.0", "main")
     (pull_creations (trace r))
  /\ isUpdateLspBranch (Some "update-lsp-1.3.0") = true.
Proof.
  cbv zeta.
  assert (H : In ("chore: update language server to v1.3.0", "update-lsp-1.3.0", "main")
                 (pull_creations
                    (trace (interp World.handle
                              (UpdateLsp.createPullRequest Scenario.owner Scenario.repo
                                                           Scenario.v130 "notes" "url")
                              Scenario.base))))
    by (vm_compute; left; reflexivity).
  split; [exact H |].
  exact (proj1 (opened_pr_is_recognised World.handle Scenario.base Scenario.owner
                  Scenario.repo Scenario.v130 "notes" "url" _ _ _ H)).
Defined.

(** X10 at work: upstream's latest release is the declared 1.2.0. *)
Lemma update_run_up_to_date_witness :
  let r := interp World.handle UpdateLsp.run Cases.current in
  every (both launched
           (both (input_is "version" "")
              (both no_in_flight_pr
                 (both (declares "1.2.0")
                       (upstream_offers "1.2.0" "What's new in 1.2.0")))))
        (trace r) = true
  /\ outputs (trace r) = [("updated", "false"); ("version", "1.2.0")].
Proof.
  cbv zeta.
  assert (H : every (both launched
                       (both (input_is "version" "")
                          (both no_in_flight_pr
                             (both (declares "1.2.0")
                                   (upstream_offers "1.2.0" "What's new in 1.2.0")))))
                (trace (interp World.handle UpdateLsp.run Cases.current)) = true)
    by (vm_compute; reflexivity).
  split; [exact H |].
  exact (proj1 (update_run_up_to_date World.handle Cases.current "1.2.0"
                  "What's new in 1.2.0" H)).
Defined.

(** X11 at work: the manual update to 1.3.0, with nothing staged. *)
Lemma update_run_completes_witness :
  let r := interp World.handle UpdateLsp.run Cases.complete in
  trim Scenario.v130 <> ""
  /\ every (both (input_is "version" Scenario.v130) (both unhindered no_in_flight_pr))
           (trace r) = true
  /\ commits (trace r) = []
  /\ failures (trace r) = [].
Proof.
  cbv zeta.
  assert (Hv : trim Scenario.v130 <> "") by (vm_compute; discriminate).
  assert (H : every (both (input_is "version" Scenario.v130)
                          (both unhindered no_in_flight_pr))
                (trace (interp World.handle UpdateLsp.run Cases.complete)) = true)
    by (vm_compute; reflexivity).
  split; [exact Hv |]. split; [exact H |]. split; [vm_compute; reflexivity |].
  destruct (update_run_completes World.handle Cases.complete Scenario.v130 Hv H)
    as (owner & repo & rel & pr & _ & _ & _ & _ & Hf).
  exact Hf.
Defined.

(** X12 at work: the update to 1.3.0 with [npm] down. *)
Lemma update_run_build_failure_witness :
  let r := interp World.handle UpdateLsp.run Cases.npm_down in
  build_rejected (trace r) = true
  /\ outputs (trace r) = []
  /\ git_runs (trace r) = [].
Proof.
  cbv zeta.
  assert (H : build_rejected (trace (interp World.handle UpdateLsp.run Cases.npm_down))
              = true) by (vm_compute; reflexivity).
  split; [exact H |].
  destruct (update_run_build_failure World.handle Cases.npm_down H)
    as (_ & Ho & Hg & _).
  split; [exact Ho | exact Hg].
Defined.

(** X14 at work: the commit of the bump to 1.3.0, merged by squash as
    [... (#12)]. *)
Lemma committed_bump_is_verified_witness :
  let c := interp World.handle (UpdateLsp.commitChanges Scenario.v130) Scenario.changed in
  let v := interp World.handle
             (PublishRelease.verifyLspUpdateCommit Scenario.owner Scenario.repo "c0ffee1")
             (Scenario.with_commit Scenario.base Cases.squashed) in
  commits (trace c) = [["commit"; "-m"; "chore: update language server to v1.3.0"]]
  /\ configured_name (trace c) = Some "github-actions[bot]"
  /\ every (commit_is (Some "github-actions[bot]")
                      ("chore: update language server to v1.3.0" ++ " (#12)"))
           (trace v) = true
  /\ outcome v
     = Returned (PublishRelease.mkVerification true "Commit verified as LSP update").
Proof.
  cbv zeta.
  assert (H1 : commits (trace (interp World.handle (UpdateLsp.commitChanges Scenario.v130)
                                      Scenario.changed))
               = [["commit"; "-m"; "chore: update language server to v1.3.0"]])
    by (vm_compute; reflexivity).
  assert (H2 : configured_name
                 (trace (interp World.handle (UpdateLsp.commitChanges Scenario.v130)
                                Scenario.changed))
               = Some "github-actions[bot]") by (vm_compute; reflexivity).
  assert (H3 : every (commit_is (Some "github-actions[bot]")
                                ("chore: update language server to v1.3.0" ++ " (#12)"))
                 (trace (interp World.handle
                           (PublishRelease.verifyLspUpdateCommit Scenario.owner
                                                                 Scenario.repo "c0ffee1")
                           (Scenario.with_commit Scenario.base Cases.squashed))) = true)
    by (vm_compute; reflexivity).
  split; [exact H1 |]. split; [exact H2 |]. split; [exact H3 |].
  exact (committed_bump_is_verified World.handle Scenario.changed
           (Scenario.with_commit Scenario.base Cases.squashed)
           Scenario.v130 Scenario.owner Scenario.repo "c0ffee1" _ _ " (#12)" H1 H2 H3).
Defined.

(** X16 at work: no pull request is open. *)
Lemma rebase_keeper_nothing_open_witness :
  let r := interp World.handle RebaseLspPr.run Scenario.base in
  open_update_pr (trace r) = Some None
  /\ outputs (trace r) = [("found", "false"); ("rebased", "false")].
Proof.
  cbv zeta.
  assert (H : open_update_pr (trace (interp World.handle RebaseLspPr.run Scenario.base))
              = Some None) by (vm_compute; reflexivity).
  split; [exact H |].
  exact (proj1 (rebase_keeper_nothing_open World.handle Scenario.base H)).
Defined.

(** X17 at work: the branch of pull request 12 moved on the remote while
    it was rebased. *)
Lemma rebase_keeper_push_rejected_witness :
  let r := interp World.handle RebaseLspPr.run Cases.raced in
  In (["push"; "--force-with-lease"; "origin"; "HEAD:update-lsp-1.3.0"], 1%Z)
     (pushes (trace r))
  /\ warnings (trace r) = [RebaseLspPr.pushMsg]
  /\ failures (trace r) = [].
Proof.
  cbv zeta.
  assert (H : In (["push"; "--force-with-lease"; "origin"; "HEAD:update-lsp-1.3.0"], 1%Z)
                 (pushes (trace (interp World.handle RebaseLspPr.run Cases.raced))))
    by (vm_compute; left; reflexivity).
  assert (N : 1%Z <> 0%Z) by discriminate.
  split; [exact H |].
  destruct (rebase_keeper_push_rejected World.handle Cases.raced _ _ H N)
    as (Hw & Hf & _).
  split; [exact Hw | exact Hf].
Defined.

(** X18 at work: the merge of the bump promotes entry 7, the prerelease
    of 1.2.0. *)
Lemma promoters_update_only_listed_witness :
  let r := interp World.handle (promoter_run Gated) Cases.merged_bump in
  let u := mkUpdateReleaseParams Scenario.owner Scenario.repo 7 "v1.2.0" "- first"
                                 false false in
  In u (updates (trace r))
  /\ exists rel, In rel (listed_releases (trace r)) /\ rel_id rel = 7%Z.
Proof.
  cbv zeta.
  assert (H : In (mkUpdateReleaseParams Scenario.owner Scenario.repo 7 "v1.2.0" "- first"
                                        false false)
                 (updates (trace (interp World.handle (promoter_run Gated)
                                         Cases.merged_bump))))
    by (vm_compute; left; reflexivity).
  split; [exact H |].
  destruct (promoters_update_only_listed World.handle Cases.merged_bump Gated _ H)
    as (_ & _ & rel & Hin & Hid & _).
  exists rel. split; [exact Hin | exact Hid].
Defined.

(** X19 at work: the same merge, behind the Commit Verifier. *)
Lemma promotion_in_place_witness :
  let r := interp World.handle (promoter_run Gated) Cases.merged_bump in
  passes Gated (commit_author_name Scenario.bump) (commit_message Scenario.bump) = true
  /\ every (both launched
              (both (commit_is (commit_author_name Scenario.bump)
                               (commit_message Scenario.bump))
                 (both (extension_at "1.2.0")
                    (both (prerelease_for "1.2.0") promotion_accepted))))
           (trace r) = true
  /\ output "promoted" (trace r) = Some "true"
  /\ creations (trace r) = [].
Proof.
  cbv zeta.
  assert (P : passes Gated (commit_author_name Scenario.bump)
                     (commit_message Scenario.bump) = true) by (vm_compute; reflexivity).
  assert (H : every (both launched
                       (both (commit_is (commit_author_name Scenario.bump)
                                        (commit_message Scenario.bump))
                          (both (extension_at "1.2.0")
                             (both (prerelease_for "1.2.0") promotion_accepted))))
                (trace (interp World.handle (promoter_run Gated) Cases.merged_bump))
              = true) by (vm_compute; reflexivity).
  split; [exact P |]. split; [exact H |].
  destruct (promotion_in_place World.handle Cases.merged_bump Gated _ _ "1.2.0" P H)
    as (owner & repo & pre & body & rel & _ & _ & _ & Hp & _ & _ & Hc & _).
  split; [exact Hp | exact Hc].
Defined.

(** X20 at work: a push event. *)
Lemma promoter_by_event_gate_witness :
  let r := interp World.handle (PromotePrerelease.run "push" None) Scenario.base in
  goes_on "push" None = false
  /\ every launched (trace r) = true
  /\ exists reason, outputs (trace r) = [("skipped", "true"); ("reason", reason)].
Proof.
  cbv zeta.
  assert (G : goes_on "push" None = false) by (vm_compute; reflexivity).
  assert (H : every launched
                (trace (interp World.handle (PromotePrerelease.run "push" None)
                               Scenario.base)) = true) by (vm_compute; reflexivity).
  split; [exact G |]. split; [exact H |].
  destruct (promoter_by_event_gate World.handle Scenario.base "push" None G H)
    as (reason & Ho & _).
  exists reason. exact Ho.
Defined.

(** X21 at work: the promoter behind the Commit Verifier, on a push that
    is no version bump. *)
Lemma gated_promoters_never_build_witness :
  let r := interp World.handle (promoter_run Gated)
                  (Scenario.with_commit Scenario.base Scenario.by_hand) in
  Gated <> Ungated /\ creations (trace r) = [] /\ commands (trace r) = [].
Proof.
  cbv zeta.
  assert (N : Gated <> Ungated) by discriminate.
  split; [exact N |].
  destruct (gated_promoters_never_build World.handle
              (Scenario.with_commit Scenario.base Scenario.by_hand) Gated N)
    as (_ & Hc & Hm & _).
  split; [exact Hc | exact Hm].
Defined.

(** X24 at work: the update action without its token. *)
Lemma action_needs_token_witness :
  let r := interp World.handle (action_run Update)
                  (Cases.without_inputs Scenario.base) in
  every (input_is "github-token" "") (trace r) = true
  /\ failures (trace r) = ["Input required and not supplied: github-token"].
Proof.
  cbv zeta.
  assert (H : every (input_is "github-token" "")
                (trace (interp World.handle (action_run Update)
                               (Cases.without_inputs Scenario.base))) = true)
    by (vm_compute; reflexivity).
  split; [exact H |].
  exact (proj1 (action_needs_token World.handle (Cases.without_inputs Scenario.base)
                  Update H)).
Defined.

(** X25 at work: the prerelease of 1.3.0. *)
Lemma prerelease_checksum_matches_upload_witness :
  let r := interp World.handle
             (UpdateLsp.createPrerelease Scenario.owner Scenario.repo Scenario.v130)
             Scenario.base in
  sent_assets (trace r)
  = [(UpdateLsp.tarballName Scenario.v130, "archive of lsp/");
     (UpdateLsp.sha256Name Scenario.v130,
      "sha256(archive of lsp/)  stylelint-language-server-v1.3.0.tar.gz" ++ nl)]
  /\ exists digest, hashed (trace r) = [("archive of lsp/", digest)].
Proof.
  cbv zeta.
  assert (H : sent_assets
                (trace (interp World.handle
                          (UpdateLsp.createPrerelease Scenario.owner Scenario.repo
                                                      Scenario.v130)
                          Scenario.base))
              = [(UpdateLsp.tarballName Scenario.v130, "archive of lsp/");
                 (UpdateLsp.sha256Name Scenario.v130,
                  "sha256(archive of lsp/)  stylelint-language-server-v1.3.0.tar.gz"
                  ++ nl)]) by (vm_compute; reflexivity).
  split; [exact H |].
  destruct (prerelease_checksum_matches_upload World.handle Scenario.base Scenario.owner
              Scenario.repo Scenario.v130 _ _ H) as (digest & Hd & _).
  exists digest. exact Hd.
Defined.
